(** * The .NET upgrade pipeline: a shallow embedding and its properties

    The development follows the Python sources:
    - [utils/nuget_helper.py]: project scanning, feed discovery, version lookup;
    - [utils/file_utils.py]: repackaging, the diff extractor the pipeline imports;
    - [n.py]: the stand-alone variant with its own diff extractor;
    - [langgraph_app.py]: the seven node functions and [run_graph_invoke].

    A Python [str] is a [string]; a character is a code point below 256.
    Dictionaries read only by key are [gmap]s; [package_report], which is
    serialised in insertion order, is an ordered association list. *)

From Stdlib Require Import Ascii String List Arith Lia Bool.
From stdpp Require Import base option list gmap strings.
Import ListNotations.

(** ** Python string primitives *)

Module PyStr.

(** The double quote, written by code so that no literal has to escape it. *)
Definition dq : string := String (ascii_of_nat 34) "".
Definition nl : string := String (ascii_of_nat 10) "".

(** [Py_UNICODE_ISSPACE] restricted to code points below 256:
    9-13, 28-32, 133 and 160. It decides both [\s] and [str.strip]. *)
Definition is_space (c : ascii) : bool :=
  let n := nat_of_ascii c in
  ((9 <=? n) && (n <=? 13)) || ((28 <=? n) && (n <=? 32))
  || (n =? 133) || (n =? 160).

Definition is_newline (c : ascii) : bool := nat_of_ascii c =? 10.

Fixpoint lstrip (s : string) : string :=
  match s with
  | "" => ""
  | String a s' => if is_space a then lstrip s' else s
  end.

Fixpoint rstrip (s : string) : string :=
  match s with
  | "" => ""
  | String a s' =>
      match rstrip s' with
      | "" => if is_space a then "" else String a ""
      | r => String a r
      end
  end.

(** [s.strip()] *)
Definition strip (s : string) : string := rstrip (lstrip s).

(** [s.rstrip(c)] for a one-character argument. *)
Fixpoint rstrip_char (c : ascii) (s : string) : string :=
  match s with
  | "" => ""
  | String a s' =>
      match rstrip_char c s' with
      | "" => if Ascii.eqb a c then "" else String a ""
      | r => String a r
      end
  end.

(** [s.lower()] on code points below 256: A-Z, and the Latin-1 capitals
    192-222 except the multiplication sign 215. *)
Definition lower_char (c : ascii) : ascii :=
  let n := nat_of_ascii c in
  if ((65 <=? n) && (n <=? 90))
     || ((192 <=? n) && (n <=? 222) && negb (n =? 215))
  then ascii_of_nat (n + 32) else c.

Fixpoint lower (s : string) : string :=
  match s with
  | "" => ""
  | String a s' => String (lower_char a) (lower s')
  end.

(** [p] is an initial segment of [s]: the rest of [s] behind it. *)
Fixpoint strip_prefix (p s : string) : option string :=
  match p, s with
  | "", _ => Some s
  | String a p', String b s' =>
      if Ascii.eqb a b then strip_prefix p' s' else None
  | String _ _, "" => None
  end.

Definition startswith (s p : string) : bool :=
  match strip_prefix p s with Some _ => true | None => false end.

(** [s.endswith(p)] *)
Fixpoint endswith (s p : string) : bool :=
  String.eqb s p
  || match s with
     | "" => false
     | String _ s' => endswith s' p
     end.

(** [p in s] for a non-empty needle. *)
Fixpoint contains (s p : string) : bool :=
  startswith s p
  || match s with
     | "" => false
     | String _ s' => contains s' p
     end.

(** [c in s] for a single character. *)
Fixpoint has_char (c : ascii) (s : string) : bool :=
  match s with
  | "" => false
  | String a s' => Ascii.eqb a c || has_char c s'
  end.

(** The first [n] characters of [s]. *)
Fixpoint take (n : nat) (s : string) : string :=
  match n, s with
  | S n', String a s' => String a (take n' s')
  | _, _ => ""
  end.

(** What a match consumed: [s] without its trailing [rest]. *)
Definition consumed (s rest : string) : string :=
  take (String.length s - String.length rest) s.

End PyStr.

(** ** A backtracking matcher with the priorities of Python's [re] *)

Module Re.
Import PyStr.

Inductive regex : Type :=
| Lit (s : string)                     (* a run of literal characters *)
| Class (p : ascii -> bool)            (* one character of a class *)
| Seq (r1 r2 : regex)
| Alt (r1 r2 : regex)
| Star (greedy : bool) (r : regex)     (* [r*] or [r*?] *)
| Group (n : nat) (r : regex).         (* capturing group number [n] *)

(** [r+] *)
Definition Plus (r : regex) : regex := Seq r (Star true r).

(** Character classes of the patterns in the sources. *)
Definition cls_space : ascii -> bool := is_space.                  (* \s *)
Definition cls_dot : ascii -> bool := fun c => negb (is_newline c). (* .  *)
Definition cls_any : ascii -> bool := fun _ => true.       (* . under re.S *)
Definition cls_not_dq : ascii -> bool :=        (* any but the double quote *)
  fun c => negb (nat_of_ascii c =? 34).

(** Captured groups, most recent binding first. *)
Definition caps : Type := list (nat * string).

Fixpoint group (n : nat) (c : caps) : option string :=
  match c with
  | [] => None
  | (m, s) :: c' => if n =? m then Some s else group n c'
  end.

(** What a successful match hands back: the groups and the unread text. *)
Definition outcome : Type := (caps * string)%type.
Definition cont : Type := string -> caps -> option outcome.

(** One repetition loop. [fuel] bounds the iterations; an iteration that
    consumes nothing is cut, as sre does. *)
Fixpoint star_loop (greedy : bool) (body : string -> caps -> cont -> option outcome)
    (fuel : nat) (s : string) (c : caps) (k : cont) : option outcome :=
  match fuel with
  | 0 => k s c
  | S f =>
      let again :=
        fun _ : unit =>
          body s c (fun s1 c1 =>
            if String.length s1 <? String.length s
            then star_loop greedy body f s1 c1 k else None) in
      if greedy
      then match again tt with Some o => Some o | None => k s c end
      else match k s c with Some o => Some o | None => again tt end
  end.

(** Match [r] at the head of [s], then continue with [k]; alternatives are
    tried in the order sre tries them, the first success wins. *)
Fixpoint rmatch (r : regex) (s : string) (c : caps) (k : cont) : option outcome :=
  match r with
  | Lit l =>
      match strip_prefix l s with
      | Some s' => k s' c
      | None => None
      end
  | Class p =>
      match s with
      | String a s' => if p a then k s' c else None
      | "" => None
      end
  | Seq r1 r2 => rmatch r1 s c (fun s1 c1 => rmatch r2 s1 c1 k)
  | Alt r1 r2 =>
      match rmatch r1 s c k with
      | Some o => Some o
      | None => rmatch r2 s c k
      end
  | Star g r1 => star_loop g (rmatch r1) (String.length s) s c k
  | Group n r1 =>
      rmatch r1 s c (fun s1 c1 => k s1 ((n, consumed s s1) :: c1))
  end.

(** A match object: the text skipped before the match, the matched text,
    the groups, and the text behind the match. *)
Record rmatch_obj : Type := MatchObj {
  m_skipped : string;
  m_text : string;
  m_groups : caps;
  m_rest : string
}.

(** [m.group(n)]; an unset group reads as the empty string, which is what
    [findall] reports and what the patterns here never produce. *)
Definition grp (n : nat) (m : rmatch_obj) : string :=
  match group n (m_groups m) with Some s => s | None => "" end.

Definition skip (a : ascii) (m : rmatch_obj) : rmatch_obj :=
  {| m_skipped := String a (m_skipped m); m_text := m_text m;
     m_groups := m_groups m; m_rest := m_rest m |}.

(** Match at the head of [s]. With [must_advance] an empty match here is
    refused (the scanner sets it after an empty match). *)
Definition match_here (r : regex) (must_advance : bool) (s : string)
    : option rmatch_obj :=
  match rmatch r s []
          (fun s' c =>
             if must_advance && (String.length s' =? String.length s)
             then None else Some (c, s')) with
  | Some (c, s') =>
      Some {| m_skipped := ""; m_text := consumed s s';
              m_groups := c; m_rest := s' |}
  | None => None
  end.

(** Leftmost match at or behind the head of [s]. *)
Fixpoint search_from (r : regex) (must_advance : bool) (s : string)
    : option rmatch_obj :=
  match match_here r must_advance s with
  | Some m => Some m
  | None =>
      match s with
      | "" => None
      | String a s' => option_map (skip a) (search_from r false s')
      end
  end.

(** [re.search(r, s)] *)
Definition search (r : regex) (s : string) : option rmatch_obj :=
  search_from r false s.

(** The scanner behind [finditer], [findall] and [sub]: successive
    non-overlapping matches, left to right. *)
Fixpoint scan (r : regex) (fuel : nat) (must_advance : bool) (s : string)
    : list rmatch_obj :=
  match fuel with
  | 0 => []
  | S f =>
      match search_from r must_advance s with
      | None => []
      | Some m =>
          m :: scan r f (String.length (m_text m) =? 0) (m_rest m)
      end
  end.

(** Every position yields at most one empty and one non-empty match. *)
Definition scan_fuel (s : string) : nat := 2 * String.length s + 2.

(** [re.finditer(r, s)] *)
Definition finditer (r : regex) (s : string) : list rmatch_obj :=
  scan r (scan_fuel s) false s.

(** [re.findall(r, s)] for a pattern with one group. *)
Definition findall1 (r : regex) (s : string) : list string :=
  map (grp 1) (finditer r s).

(** [re.findall(r, s)] for a pattern with two groups. *)
Definition findall2 (r : regex) (s : string) : list (string * string) :=
  map (fun m => (grp 1 m, grp 2 m)) (finditer r s).

(** The text behind the last match of a scan. *)
Fixpoint tail_text (s : string) (ms : list rmatch_obj) : string :=
  match ms with
  | [] => s
  | m :: ms' => tail_text (m_rest m) ms'
  end.

(** [re.sub(r, repl, s)] for a replacement without escapes: the skipped
    text is copied, every match is replaced. *)
Definition sub_literal (r : regex) (repl : string) (s : string) : string :=
  let ms := finditer r s in
  fold_right (fun m acc => m_skipped m +:+ repl +:+ acc) (tail_text s ms) ms.

End Re.

(** ** Effects: exceptions, the outside world, and the monad of the steps *)

Module Py.
Import PyStr.

Inductive exn : Type :=
| KeyError (key : string)          (* [state[key]] on a missing key *)
| OSError (path : string)          (* a file that cannot be opened or decoded *)
| ServiceError                     (* the completion service raised *)
| ReTemplateError                  (* [re.sub] refused its replacement template *)
| TypeError                        (* [re.finditer] handed [None] for a text *)
| ZipError (name : string)         (* the archive refused the member [name] *)
| GraphError (what : string).      (* raised by the graph executor itself *)

Inductive result (A : Type) : Type :=
| Ok (a : A)
| Raise (e : exn).
Arguments Ok {A} a.
Arguments Raise {A} e.

(** An HTTP answer: [r.status_code], and [r.json()] as an object whose
    values are lists of strings; [None] when reading it raises. *)
Record response : Type := Response {
  status_code : nat;
  json : option (gmap string (list string))
}.

(** What a run does to the outside, in order. *)
Inductive event : Type :=
| HttpGet (url : string) (authorization : option string)
| ChatCreate (prompt : string) (max_tokens : nat)
| JwtIssued (feed : string).

(** [package_report[name]]: the inner dictionary with its two keys. *)
Record pkg_info : Type := PkgInfo {
  current : string;
  latest : option string
}.

(** The environment of a run. The project tree is a snapshot (walk and
    reads are functions); the network, the completion service and the token
    issuer change with every call and thread a world [W]. *)
Record Env (W : Type) : Type := MkEnv {
  (* [os.walk(root)]: the directories with their file names, top down *)
  os_walk : string -> list (string * list string);
  (* [read_text(path)]: utf-8, undecodable bytes dropped; [None] raises *)
  fs_read_text : string -> option string;
  (* [open(path).read()]: default encoding, strict; [None] raises *)
  fs_open_read : string -> option string;
  (* the bytes [ZipFile.write] copies; [None] raises *)
  fs_read_bytes : string -> option string;
  (* [os.path.relpath(path, start)] *)
  os_path_relpath : string -> string -> string;
  (* [tempfile.gettempdir()] *)
  gettempdir : string;
  (* [list(set(l))] on a duplicate-free list: the order is the hash order *)
  hash_order : list string -> list string;
  (* [requests.get(url, headers, timeout=6)]; [None] when it raises *)
  requests_get : W -> string -> option string -> option response * W;
  (* [client.chat.completions.create(...)]: [None] when the call raises,
     otherwise [choices[0].message.content], which is a text or [None] *)
  chat_create : W -> string -> nat -> option (option string) * W;
  (* [generate_jwt_token_for_feed(feed)]: fresh salt, clock, HS256 *)
  jwt_encode : W -> string -> string * W;
  (* [json.dumps] of the feed list and of the package report *)
  json_dumps_feeds : list string -> string;
  json_dumps_report : list (string * pkg_info) -> string;
  (* [zipfile.ZipFile(path, 'w', ZIP_DEFLATED)]: [false] raises *)
  zip_create : string -> bool;
  (* on the archive at [path], [z.writestr(name, data)] and the write of
     [z.write(src, name)] with the bytes [data] of [src]: [false] raises *)
  zip_write : string -> string -> string -> bool;
  (* [re.sub(pattern, repl, s)] for a replacement [repl] that holds a
     backslash, which sre expands as a template; [None] raises *)
  sre_template : Re.regex -> string -> string -> option string
}.
Arguments os_walk {W} _ _.
Arguments fs_read_text {W} _ _.
Arguments fs_open_read {W} _ _.
Arguments fs_read_bytes {W} _ _.
Arguments os_path_relpath {W} _ _ _.
Arguments gettempdir {W} _.
Arguments hash_order {W} _ _.
Arguments requests_get {W} _ _ _ _.
Arguments chat_create {W} _ _ _ _.
Arguments jwt_encode {W} _ _ _.
Arguments json_dumps_feeds {W} _ _.
Arguments json_dumps_report {W} _ _.
Arguments zip_create {W} _ _.
Arguments zip_write {W} _ _ _ _.
Arguments sre_template {W} _ _ _ _.

(** The state a computation threads: the world and the log of events. *)
Record store (W : Type) : Type := Store {
  world : W;
  log : list event
}.
Arguments Store {W} _ _.
Arguments world {W} _.
Arguments log {W} _.

Definition M (W A : Type) : Type := store W -> result A * store W.

Definition ret {W A} (a : A) : M W A := fun st => (Ok a, st).
Definition raise {W A} (e : exn) : M W A := fun st => (Raise e, st).
Definition bind {W A B} (m : M W A) (f : A -> M W B) : M W B :=
  fun st =>
    match m st with
    | (Ok a, st') => f a st'
    | (Raise e, st') => (Raise e, st')
    end.

(** [try: m except Exception: h] *)
Definition try_except {W A} (m : M W A) (h : M W A) : M W A :=
  fun st =>
    match m st with
    | (Ok a, st') => (Ok a, st')
    | (Raise _, st') => h st'
    end.

(** [for x in l: acc = f(acc, x)] *)
Fixpoint for_each {W A B} (l : list B) (f : A -> B -> M W A) (acc : A) : M W A :=
  match l with
  | [] => ret acc
  | x :: l' => bind (f acc x) (for_each l' f)
  end.

(** A partial function lifted: [None] raises [e]. *)
Definition ok_or {W A} (o : option A) (e : exn) : M W A :=
  match o with Some a => ret a | None => raise e end.

(** [os.path.join(dir, name)] (posixpath). *)
Definition path_join (dir name : string) : string :=
  if startswith name "/" then name
  else if String.eqb dir "" || endswith dir "/" then dir +:+ name
  else dir +:+ "/" +:+ name.

(** The truth value of an optional string: [None] and [''] are false. *)
Definition truthy (o : option string) : bool :=
  match o with
  | Some s => negb (String.eqb s "")
  | None => false
  end.

End Py.

Declare Scope py_scope.
Delimit Scope py_scope with py.
Notation "'do' x <- m ; k" := (Py.bind m (fun x => k))
  (at level 10, x name, m at level 100, k at level 200,
   format "'[v' 'do'  x  <-  m ; '/' k ']'") : py_scope.
Notation "'do' ' p <- m ; k" := (Py.bind m (fun x => match x with p => k end))
  (at level 10, p pattern, m at level 100, k at level 200) : py_scope.

(** ** [utils/nuget_helper.py] *)

Module NugetHelper.
Import PyStr Re Py.
Local Open Scope py_scope.

(** [<add key=Q.*?Q value=Q(.*?)Q], where [Q] stands for the double quote. *)
Definition FEED_RE : regex :=
  Seq (Lit ("<add key=" +:+ dq))
    (Seq (Star false (Class cls_dot))
      (Seq (Lit (dq +:+ " value=" +:+ dq))
        (Seq (Group 1 (Star false (Class cls_dot)))
          (Lit dq)))).

(** [stable[-1] if stable else (versions[-1] if versions else None)] with
    [stable = [v for v in versions if '-' not in v]]. *)
Definition pick_latest (versions : list string) : option string :=
  let stable := filter (fun v => negb (has_char "-"%char v) = true) versions in
  match stable with
  | _ :: _ => last stable
  | [] => match versions with
          | _ :: _ => last versions
          | [] => None
          end
  end.

Definition PUBLIC_BASE : string := "https://api.nuget.org".

Definition index_url (base package_name : string) : string :=
  base +:+ "/v3-flatcontainer/" +:+ lower package_name +:+ "/index.json".

Section WithEnv.
Context {W : Type} (env : Env W).

Definition read_text (path : string) : M W string :=
  ok_or (fs_read_text env path) (OSError path).

Definition collect_csproj_files (root_dir : string) : list string :=
  flat_map
    (fun '(r, files) =>
       map (path_join r) (filter (fun f => endswith f ".csproj" = true) files))
    (os_walk env root_dir).

Definition detect_private_feeds (project_root : string) : M W (list string) :=
  do feeds <-
    for_each (os_walk env project_root)
      (fun feeds '(r, files) =>
         for_each files
           (fun feeds f =>
              if String.eqb (lower f) "nuget.config"
              then do txt <- read_text (path_join r f);
                   ret (feeds ++ findall1 FEED_RE txt)
              else ret feeds)
           feeds)
      [];
  ret (hash_order env (remove_dups feeds)).

(** The issuer: one call to the signer per token. *)
Definition generate_jwt_token_for_feed (feed_url : string) : M W string :=
  fun st =>
    let '(token, w') := jwt_encode env (world st) feed_url in
    (Ok token, Store w' (log st ++ [JwtIssued feed_url])).

(** One [try] block of the resolver: the request, the status test and the
    choice. [Some v] is the value its [return] hands back; [None] is the
    block left without returning (other status, or an exception). *)
Definition lookup_block (url : string) (authorization : option string)
    : M W (option (option string)) :=
  fun st =>
    let '(r, w') := requests_get env (world st) url authorization in
    let st' := Store w' (log st ++ [HttpGet url authorization]) in
    match r with
    | None => (Ok None, st')
    | Some resp =>
        if status_code resp =? 200
        then match json resp with
             | None => (Ok None, st')
             | Some j =>
                 (Ok (Some (pick_latest (default [] (j !! "versions")))), st')
             end
        else (Ok None, st')
    end.

Definition get_latest_nuget_version_for_feed (package_name : string)
    (feed_url token : option string) : M W (option string) :=
  let headers :=
    if truthy token then Some ("Bearer " +:+ default "" token) else None in
  do private <-
    (if truthy feed_url
     then lookup_block
            (index_url (rstrip_char "/"%char (default "" feed_url)) package_name)
            headers
     else ret None);
  match private with
  | Some v => ret v
  | None =>
      do public <- lookup_block (index_url PUBLIC_BASE package_name) None;
      match public with
      | Some v => ret v
      | None => ret None
      end
  end.

End WithEnv.
End NugetHelper.

(** ** [utils/file_utils.py] *)

Module FileUtils.
Import PyStr Re Py.
Local Open Scope py_scope.

(** [<TargetFramework>.*?</TargetFramework>] *)
Definition TARGET_RE : regex :=
  Seq (Lit "<TargetFramework>")
    (Seq (Star false (Class cls_dot)) (Lit "</TargetFramework>")).

Definition backslash : ascii := ascii_of_nat 92.

(** [re.sub(r, repl, s)] for a replacement without a backslash, which stands
    for itself. [None]: the replacement holds a backslash, and sre expands it
    as a template with escapes and group references. *)
Definition re_sub (r : regex) (repl s : string) : option string :=
  if has_char backslash repl then None else Some (sub_literal r repl s).

(** One member of the archive: its name and its content. *)
Definition zip_entry : Type := (string * string)%type.

Section WithEnv.
Context {W : Type} (env : Env W).

(** The text [re.sub(r, repl, s)] returns with any replacement: the
    template of a replacement with a backslash is expanded by sre. [None]:
    the call raises. *)
Definition re_sub_result (r : regex) (repl s : string) : option string :=
  match re_sub r repl s with
  | Some t => Some t
  | None => sre_template env r repl s
  end.

Definition re_sub_call (r : regex) (repl s : string) : M W string :=
  ok_or (re_sub_result r repl s) ReTemplateError.

(** [zipfile.ZipFile(zpath, 'w', zipfile.ZIP_DEFLATED)] *)
Definition zip_open (zpath : string) : M W unit :=
  if zip_create env zpath then ret tt else raise (OSError zpath).

(** [z.writestr(name, data)], and the write of [z.write(src, name)]. *)
Definition zip_add (zpath name data : string) : M W unit :=
  if zip_write env zpath name data then ret tt else raise (ZipError name).

(** What the archive at [zpath] receives for the file [f] of directory [r]. *)
Definition repackage_file (zpath root : string) (updates : gmap string string)
    (target r f : string) : M W zip_entry :=
  let src := path_join r f in
  let rel := os_path_relpath env src root in
  match updates !! rel with
  | Some content =>
      do u <- zip_add zpath rel content;
      ret (rel, content)
  | None =>
      if endswith rel ".csproj"
      then
        do orig <- ok_or (fs_open_read env src) (OSError src);
        do upd <- re_sub_call TARGET_RE
             ("<TargetFramework>" +:+ target +:+ "</TargetFramework>") orig;
        do u <- zip_add zpath rel upd;
        ret (rel, upd)
      else
        do bytes <- ok_or (fs_read_bytes env src) (OSError src);
        do u <- zip_add zpath rel bytes;
        ret (rel, bytes)
  end.

(** [create_upgraded_zip(root, updates, target)]: the path of the archive
    and its members in the order they are written. *)
Definition create_upgraded_zip (root : string) (updates : gmap string string)
    (target : string) : M W (string * list zip_entry) :=
  let zpath := path_join (gettempdir env) ("AI_Upgraded_" +:+ target +:+ ".zip") in
  do u <- zip_open zpath;
  do z <-
    for_each (os_walk env root)
      (fun z '(r, fs) =>
         for_each fs
           (fun z f =>
              do e <- repackage_file zpath root updates target r f;
              ret (z ++ [e]))
           z)
      [];
  ret (zpath, z).

End WithEnv.

(** [def extract_diffs_from_markdown(t): return []] *)
Definition extract_diffs_from_markdown (t : string)
    : list (string * string * string) := [].

End FileUtils.

(** ** The block format shared by [n.py] and [langgraph_app.py] *)

Module Blocks.
Import PyStr Re.

(** [--FILE:\s*(.*?)\s*--\n(.*?)--END FILE--] under [re.S] *)
Definition BLOCK_RE : regex :=
  Seq (Lit "--FILE:")
    (Seq (Star true (Class cls_space))
      (Seq (Group 1 (Star false (Class cls_any)))
        (Seq (Star true (Class cls_space))
          (Seq (Lit ("--" +:+ nl))
            (Seq (Group 2 (Star false (Class cls_any)))
              (Lit "--END FILE--")))))).

(** [(m.group(1).strip(), m.group(2).strip())] of every block. *)
Definition blocks (text : string) : list (string * string) :=
  map (fun m => (strip (grp 1 m), strip (grp 2 m))) (finditer BLOCK_RE text).

End Blocks.

(** ** [n.py]: the diff extractor of the stand-alone variant *)

Module N.
Import PyStr Re Blocks.

(** [<before>(.*?)</before>] and [<after>(.*?)</after>] under [re.S] *)
Definition BEFORE_RE : regex :=
  Seq (Lit "<before>") (Seq (Group 1 (Star false (Class cls_any))) (Lit "</before>")).
Definition AFTER_RE : regex :=
  Seq (Lit "<after>") (Seq (Group 1 (Star false (Class cls_any))) (Lit "</after>")).

(** The body of the loop: what one block adds to [diffs]. *)
Definition diff_of_block (b : string * string)
    : list (string * string * string) :=
  let '(fname, xml) := b in
  match search BEFORE_RE xml, search AFTER_RE xml with
  | Some before, Some after =>
      [(fname, strip (grp 1 before), strip (grp 1 after))]
  | _, _ => []
  end.

Definition extract_diffs_from_markdown (markdown_text : string)
    : list (string * string * string) :=
  flat_map diff_of_block (blocks markdown_text).

End N.

(** ** [langgraph_app.py] *)

Module LanggraphApp.
Import PyStr Re Py NugetHelper Blocks.
Local Open Scope py_scope.

(** [UpgradeState], a [TypedDict] with [total=False]: every key may be
    missing. *)
Record UpgradeState : Type := MkState {
  uploaded_file_path : option string;
  user_feed_url : option string;
  private_feeds : option (list string);
  feed_tokens : option (gmap string string);
  csproj_paths : option (list string);
  package_report : option (list (string * pkg_info));
  analysis_report : option (option string);
  upgrade_preview : option string;
  csproj_updates : option (gmap string string);
  target_version : option string
}.

(** [state[key] = v] for the keys the nodes write. *)
Definition set_csproj_paths (v : list string) (s : UpgradeState) : UpgradeState :=
  MkState (uploaded_file_path s) (user_feed_url s) (private_feeds s)
    (feed_tokens s) (Some v) (package_report s) (analysis_report s)
    (upgrade_preview s) (csproj_updates s) (target_version s).
Definition set_private_feeds (v : list string) (s : UpgradeState) : UpgradeState :=
  MkState (uploaded_file_path s) (user_feed_url s) (Some v)
    (feed_tokens s) (csproj_paths s) (package_report s) (analysis_report s)
    (upgrade_preview s) (csproj_updates s) (target_version s).
Definition set_feed_tokens (v : gmap string string) (s : UpgradeState) : UpgradeState :=
  MkState (uploaded_file_path s) (user_feed_url s) (private_feeds s)
    (Some v) (csproj_paths s) (package_report s) (analysis_report s)
    (upgrade_preview s) (csproj_updates s) (target_version s).
Definition set_package_report (v : list (string * pkg_info)) (s : UpgradeState)
    : UpgradeState :=
  MkState (uploaded_file_path s) (user_feed_url s) (private_feeds s)
    (feed_tokens s) (csproj_paths s) (Some v) (analysis_report s)
    (upgrade_preview s) (csproj_updates s) (target_version s).
Definition set_analysis_report (v : option string) (s : UpgradeState)
    : UpgradeState :=
  MkState (uploaded_file_path s) (user_feed_url s) (private_feeds s)
    (feed_tokens s) (csproj_paths s) (package_report s) (Some v)
    (upgrade_preview s) (csproj_updates s) (target_version s).
Definition set_upgrade_preview (v : string) (s : UpgradeState) : UpgradeState :=
  MkState (uploaded_file_path s) (user_feed_url s) (private_feeds s)
    (feed_tokens s) (csproj_paths s) (package_report s) (analysis_report s)
    (Some v) (csproj_updates s) (target_version s).
Definition set_csproj_updates (v : gmap string string) (s : UpgradeState)
    : UpgradeState :=
  MkState (uploaded_file_path s) (user_feed_url s) (private_feeds s)
    (feed_tokens s) (csproj_paths s) (package_report s) (analysis_report s)
    (upgrade_preview s) (Some v) (target_version s).

(** [<PackageReference\s+Include=Q([^Q]+)Q\s+Version=Q([^Q]+)Q], where [Q]
    stands for the double quote. *)
Definition PKG_RE : regex :=
  Seq (Lit "<PackageReference")
    (Seq (Plus (Class cls_space))
      (Seq (Lit ("Include=" +:+ dq))
        (Seq (Group 1 (Plus (Class cls_not_dq)))
          (Seq (Lit dq)
            (Seq (Plus (Class cls_space))
              (Seq (Lit ("Version=" +:+ dq))
                (Seq (Group 2 (Plus (Class cls_not_dq)))
                  (Lit dq)))))))).

(** An insertion-ordered dictionary: [d.setdefault(k, v)] and an update of
    the value under an existing key. *)
Fixpoint dict_setdefault {V} (k : string) (v : V) (d : list (string * V))
    : list (string * V) :=
  match d with
  | [] => [(k, v)]
  | (k', v') :: d' =>
      if String.eqb k k' then d else (k', v') :: dict_setdefault k v d'
  end.

Fixpoint dict_update {V} (k : string) (f : V -> V) (d : list (string * V))
    : list (string * V) :=
  match d with
  | [] => []
  | (k', v') :: d' =>
      if String.eqb k k' then (k', f v') :: d' else (k', v') :: dict_update k f d'
  end.

Fixpoint dict_get {V} (k : string) (d : list (string * V)) : option V :=
  match d with
  | [] => None
  | (k', v') :: d' => if String.eqb k k' then Some v' else dict_get k d'
  end.

(** [pkgs.setdefault(name, {'current': ver}); pkgs[name]['latest'] = latest] *)
Definition record_package (name ver : string) (lat : option string)
    (pkgs : list (string * pkg_info)) : list (string * pkg_info) :=
  dict_update name (fun e => PkgInfo (current e) lat)
    (dict_setdefault name (PkgInfo ver None) pkgs).

(** The instruction text of the analysis prompt, verbatim. *)
Definition user_prompt : string :=
  "1. Private NuGet Feed Support

Implement support for private NuGet feeds

Enable the Agent to download and update NuGet packages from these feeds

2. Breaking Changes Detection and Resolution

Enhance agent to identify breaking changes in the latest versions of NuGet packages

Include a report detailing these breaking changes

Provide step-by-step resolution instructions

Where possible, automate the resolution process

3. Deprecated Package Handling

Enhance agent to detect and report deprecated NuGet packages

Include information on alternative packages recommended by the original package owner

If feasible, automate the process of switching to the recommended alternative package

4. Security Vulnerability Reporting

Enhance agent to identify and showcase security vulnerabilities in the current package

setup

In the report, list which packages can resolve these vulnerabilities".

(** [str(state.get('target_version'))] inside an f-string. *)
Definition fmt_target (s : UpgradeState) : string :=
  default "None" (target_version s).

Definition analysis_prompt (s : UpgradeState) (feeds_json report_json
    csprojs_text : string) : string :=
  "
You are an expert .NET upgrade assistant.

User instructions (DO NOT CHANGE):
" +:+ user_prompt +:+ "

Context:
- Target .NET version: " +:+ fmt_target s +:+ "
- Private feeds: " +:+ feeds_json
  +:+ "
- Package report (current -> latest):
" +:+ report_json +:+ "

Project .csproj contents:
" +:+ csprojs_text +:+ "

Please produce a structured Markdown report covering:
- Executive summary
- Private feed handling & commands
- Breaking changes detection & step-by-step resolution
- Deprecated package handling & suggested alternatives
- Security vulnerability reporting and which packages resolve them
- Final ordered automation plan (commands and csproj patches)
".

Definition upgrade_prompt (s : UpgradeState) : string :=
  "
Using the analysis and rules, produce UPDATED .csproj XML for each file to target " +:+ fmt_target s +:+ ".
- Do NOT auto-change private/third-party package versions; mark them 'Manual Review Required (Private Feed)'.
- For public packages, update to latest stable when safe.
- For deprecated packages, prefer recommended alternatives and include csproj patch.
Return output as machine-parseable blocks:

--FILE: relative/path/to/Proj.csproj --
<full updated csproj xml>
--END FILE--
".


Section WithEnv.
Context {W : Type} (env : Env W).

(** [client.chat.completions.create(model, messages, max_tokens)] and the
    content of its first choice, a text or [None]. *)
Definition chat (content : string) (max_tokens : nat) : M W (option string) :=
  fun st =>
    let '(r, w') := chat_create env (world st) content max_tokens in
    let st' := Store w' (log st ++ [ChatCreate content max_tokens]) in
    match r with
    | Some answer => (Ok answer, st')
    | None => (Raise ServiceError, st')
    end.

(** [state['uploaded_file_path']] *)
Definition get_root (state : UpgradeState) : M W string :=
  ok_or (uploaded_file_path state) (KeyError "uploaded_file_path").

Definition upload_node (state : UpgradeState) : M W UpgradeState :=
  do root <- get_root state;
  ret (set_csproj_paths (collect_csproj_files env root) state).

Definition detect_feeds_node (state : UpgradeState) : M W UpgradeState :=
  do root <- get_root state;
  do feeds <-
    (if truthy (user_feed_url state)
     then ret [default "" (user_feed_url state)]
     else detect_private_feeds env root);
  ret (set_private_feeds feeds state).

Definition generate_jwt_node (state : UpgradeState) : M W UpgradeState :=
  do tokens <-
    for_each (default [] (private_feeds state))
      (fun (tokens : gmap string string) feed =>
         do jwt <- generate_jwt_token_for_feed env feed;
         ret (<[feed := jwt]> tokens))
      ∅;
  ret (set_feed_tokens tokens state).

(** [(state.get('private_feeds') or [None])[0]] *)
Definition first_feed (state : UpgradeState) : option string :=
  match private_feeds state with
  | Some (f :: _) => Some f
  | _ => None
  end.

(** [state.get('feed_tokens', {}).get(feed)] *)
Definition token_of (state : UpgradeState) (feed : option string)
    : option string :=
  match feed with
  | Some f => default ∅ (feed_tokens state) !! f
  | None => None
  end.

(** The inner loop of the scan: the references of one descriptor. *)
Definition scan_refs (state : UpgradeState) (refs : list (string * string))
    (pkgs : list (string * pkg_info)) : M W (list (string * pkg_info)) :=
  for_each refs
    (fun pkgs '(name, ver) =>
       let feed := first_feed state in
       let token := token_of state feed in
       do lat <- get_latest_nuget_version_for_feed env name feed token;
       ret (record_package name ver lat pkgs))
    pkgs.

(** [state.get('csproj_paths', []) or collect_csproj_files(root)] *)
Definition scanned_paths (state : UpgradeState) (root : string) : list string :=
  match csproj_paths state with
  | Some (p :: l) => p :: l
  | _ => collect_csproj_files env root
  end.

Definition scan_packages_node (state : UpgradeState) : M W UpgradeState :=
  do root <- get_root state;
  do pkgs <-
    for_each (scanned_paths state root)
      (fun pkgs p =>
         do text <- read_text env p;
         scan_refs state (findall2 PKG_RE text) pkgs)
      [];
  ret (set_package_report pkgs state).

(** The descriptors, each under a label with its relative path. *)
Definition csprojs_text (state : UpgradeState) (root : string) : M W string :=
  for_each (default [] (csproj_paths state))
    (fun acc p =>
       let rel := os_path_relpath env p root in
       do text <- read_text env p;
       ret (acc +:+ ("// FILE: " +:+ rel +:+ nl) +:+ text +:+ (nl +:+ nl)))
    "".

Definition analyze_ai_node (state : UpgradeState) : M W UpgradeState :=
  do root <- get_root state;
  do text <- csprojs_text state root;
  let package_report_json :=
    json_dumps_report env (default [] (package_report state)) in
  let prompt :=
    analysis_prompt state
      (json_dumps_feeds env (default [] (private_feeds state)))
      package_report_json text in
  do content <- chat prompt 3000;
  ret (set_analysis_report content state).

(** The parse of the preview: later blocks overwrite earlier ones. *)
Definition parse_updates (preview : string) : gmap string string :=
  fold_left (fun updates '(rel, xml) => <[rel := xml]> updates)
    (blocks preview) ∅.

Definition upgrade_ai_node (state : UpgradeState) : M W UpgradeState :=
  do root <- get_root state;
  do text <- csprojs_text state root;
  do answer <- chat (upgrade_prompt state +:+ (nl +:+ nl) +:+ text) 3500;
  match answer with
  | Some preview =>
      ret (set_csproj_updates (parse_updates preview)
             (set_upgrade_preview preview state))
  | None =>
      (* [re.finditer(pattern, None, re.S)] *)
      raise TypeError
  end.

Definition final_node (state : UpgradeState) : M W UpgradeState :=
  ret state.

(** *** The registered graph *)

Record graph_t : Type := MkGraph {
  g_nodes : list (string * (UpgradeState -> M W UpgradeState));
  g_entry : option string;
  g_edges : list (string * string)
}.

Definition add_node (name : string) (fn : UpgradeState -> M W UpgradeState)
    (g : graph_t) : graph_t :=
  MkGraph (g_nodes g ++ [(name, fn)]) (g_entry g) (g_edges g).
Definition set_entry_point (name : string) (g : graph_t) : graph_t :=
  MkGraph (g_nodes g) (Some name) (g_edges g).
Definition add_edge (src dst : string) (g : graph_t) : graph_t :=
  MkGraph (g_nodes g) (g_entry g) (g_edges g ++ [(src, dst)]).

(** The registration of the nodes and edges, statement by statement. *)
Definition graph : graph_t :=
  let g := MkGraph [] None [] in
  let g := add_node "upload" upload_node g in
  let g := add_node "detect_feeds" detect_feeds_node g in
  let g := add_node "gen_jwt" generate_jwt_node g in
  let g := add_node "scan_pkgs" scan_packages_node g in
  let g := add_node "analyze_ai" analyze_ai_node g in
  let g := add_node "upgrade_ai" upgrade_ai_node g in
  let g := add_node "final" final_node g in
  let g := set_entry_point "upload" g in
  let g := add_edge "upload" "detect_feeds" g in
  let g := add_edge "detect_feeds" "gen_jwt" g in
  let g := add_edge "gen_jwt" "scan_pkgs" g in
  let g := add_edge "scan_pkgs" "analyze_ai" g in
  let g := add_edge "analyze_ai" "upgrade_ai" g in
  let g := add_edge "upgrade_ai" "final" g in
  g.

Definition build_graph : graph_t := graph.

(** *** The graph executor *)

(** Modelled from the spec: the executor is the graph library, which is not
    part of the sources; this is its bound on the length of a walk, beyond
    which the executor itself raises. *)
Definition recursion_limit : nat := 25.

(** Modelled from the spec: the node an edge of the graph leads to. *)
Definition successor (g : graph_t) (name : string) : option string :=
  dict_get name (g_edges g).

(** Modelled from the spec: the executor of the graph library, a generic
    directed-graph executor that runs nodes in topological order. It runs
    the node [name], hands the state to the node its edge leads to, and
    stops at a node without an outgoing edge. A name without a node is an
    error of the executor. *)
Fixpoint run_from (g : graph_t) (fuel : nat) (name : string)
    (state : UpgradeState) : M W UpgradeState :=
  match fuel with
  | 0 => raise (GraphError "recursion limit")
  | S fuel' =>
      do fn <- ok_or (dict_get name (g_nodes g)) (GraphError name);
      do state' <- fn state;
      match successor g name with
      | Some next => run_from g fuel' next state'
      | None => ret state'
      end
  end.

(** Modelled from the spec: [graph.invoke(initial_state)] of the graph
    library, the walk from the entry point. *)
Definition invoke (g : graph_t) (initial_state : UpgradeState)
    : M W UpgradeState :=
  do entry <- ok_or (g_entry g) (GraphError "entry point");
  run_from g recursion_limit entry initial_state.

(** *** [run_graph_invoke] *)

(** The fallback branch: the seven nodes on a copy of the initial state. *)
Definition run_sequential (initial_state : UpgradeState) : M W UpgradeState :=
  let state := initial_state in
  do state <- upload_node state;
  do state <- detect_feeds_node state;
  do state <- generate_jwt_node state;
  do state <- scan_packages_node state;
  do state <- analyze_ai_node state;
  do state <- upgrade_ai_node state;
  do state <- final_node state;
  ret state.

(** [graph_obj] is given by its [invoke] method. *)
Definition run_graph_invoke (graph_obj : UpgradeState -> M W UpgradeState)
    (initial_state : UpgradeState) : M W UpgradeState :=
  try_except (graph_obj initial_state) (run_sequential initial_state).

End WithEnv.
End LanggraphApp.


(** ** [app.py]: the two actions of the page *)

Module App.
Import PyStr Py FileUtils LanggraphApp.
Local Open Scope py_scope.

(** [state = {'uploaded_file_path': project_root, 'target_version':
    target_version}], and [state['user_feed_url'] = private_feed] when the
    text field is not empty. *)
Definition initial_state (project_root target_version private_feed : string)
    : UpgradeState :=
  MkState (Some project_root)
    (if truthy (Some private_feed) then Some private_feed else None)
    None None None None None None None (Some target_version).

Section WithEnv.
Context {W : Type} (env : Env W).

(** The analysis action: [result = run_graph_invoke(graph, state)]. *)
Definition start_analysis (graph_obj : UpgradeState -> M W UpgradeState)
    (project_root target_version private_feed : string) : M W UpgradeState :=
  run_graph_invoke env graph_obj
    (initial_state project_root target_version private_feed).

(** The download action: [create_upgraded_zip(project_root,
    result.get('csproj_updates', {}), target_version)]. *)
Definition download (project_root target_version : string)
    (result : UpgradeState) : M W (string * list zip_entry) :=
  let csproj_updates := default ∅ (csproj_updates result) in
  create_upgraded_zip env project_root csproj_updates target_version.

End WithEnv.
End App.
(** * Specification-level notions and sample worlds *)

(** ** Splitting a text at a marker *)

Module StrSpec.
Import PyStr.

(** [s.partition(l)] when [l] occurs in [s]: the text before the first
    occurrence of [l] and the text behind it. *)
Fixpoint split_first (l s : string) : option (string * string) :=
  match strip_prefix l s with
  | Some rest => Some ("", rest)
  | None =>
      match s with
      | "" => None
      | String a s' =>
          match split_first l s' with
          | Some (pre, rest) => Some (String a pre, rest)
          | None => None
          end
      end
  end.

(** Every character of [s] is in the class [p]. *)
Fixpoint all_chars (p : ascii -> bool) (s : string) : bool :=
  match s with
  | "" => true
  | String a s' => p a && all_chars p s'
  end.

(** A text without whitespace. *)
Definition no_space (s : string) : bool :=
  all_chars (fun a => negb (is_space a)) s.

End StrSpec.

(** ** What the version resolver is asked to choose *)

Module ResolverSpec.
Import PyStr Py NugetHelper.

(** A stable version carries no pre-release separator. *)
Definition stable (v : string) : Prop := has_char "-"%char v = false.

(** [chosen vs o]: [o] is the last stable version of [vs] when there is one,
    otherwise the last version of [vs], and nothing when [vs] is empty. *)
Inductive chosen : list string -> option string -> Prop :=
| chosen_stable pre v post :
    stable v -> Forall (fun u => ~ stable u) post ->
    chosen (pre ++ v :: post) (Some v)
| chosen_last pre v :
    Forall (fun u => ~ stable u) (pre ++ [v]) ->
    chosen (pre ++ [v]) (Some v)
| chosen_none : chosen [] None.

(** The version list a lookup obtained: [None] when the request raised, the
    status was not 200, or the body could not be read. *)
Definition versions_of (r : option response) : option (list string) :=
  match r with
  | Some resp =>
      if status_code resp =? 200
      then (fun j : gmap string (list string) => default [] (j !! "versions"))
             <$> json resp
      else None
  | None => None
  end.

(** The request of the private-feed branch. *)
Definition private_url (feed package_name : string) : string :=
  index_url (rstrip_char "/"%char feed) package_name.
Definition public_url (package_name : string) : string :=
  index_url PUBLIC_BASE package_name.
Definition bearer (token : option string) : option string :=
  if truthy token then Some ("Bearer " +:+ default "" token) else None.

(** The resolver's answer as the spec words it, over the answers of the two
    registries: the private feed decides when its lookup succeeds, otherwise
    the public registry does, and two failures give nothing. *)
Definition resolved {W} (env : Env W) (package_name : string)
    (feed_url token : option string) (w : W) (v : option string) : Prop :=
  let ask_public (w1 : W) :=
    match versions_of (requests_get env w1 (public_url package_name) None).1 with
    | Some vs => chosen vs v
    | None => v = None
    end in
  if truthy feed_url
  then
    let a := requests_get env w (private_url (default "" feed_url) package_name)
               (bearer token) in
    match versions_of a.1 with
    | Some vs => chosen vs v
    | None => ask_public a.2
    end
  else ask_public w.

End ResolverSpec.

(** ** Sample worlds *)

Module Samples.
Import PyStr Py NugetHelper LanggraphApp.

Definition ok_versions (vs : list string) : response :=
  Response 200 (Some {[ "versions" := vs ]}).

(** An archive can be created in the temporary directory itself: the
    directory has no subdirectories. *)
Definition in_tmp (zpath : string) : bool :=
  match strip_prefix "/tmp/" zpath with
  | Some name => negb (has_char "/"%char name)
  | None => false
  end.

(** A world whose registries are given by a function of the URL; the world
    itself counts the calls made so far. The completion service answers
    with a text or raises; the archive takes every member. The replacements
    of the samples hold no backslash, so sre is never asked for a template;
    it refuses. *)
Definition static_env (tree : string -> list (string * list string))
    (files : string -> option string)
    (registry : string -> option response)
    (completion : nat -> option string) : Env nat :=
  {| os_walk := tree;
     fs_read_text := files;
     fs_open_read := files;
     fs_read_bytes := files;
     os_path_relpath := fun p root => default p (strip_prefix (root +:+ "/") p);
     gettempdir := "/tmp";
     hash_order := fun l => l;
     requests_get := fun w url _ => (registry url, S w);
     chat_create := fun w _ _ => (Some <$> completion w, S w);
     jwt_encode := fun w feed => ("jwt:" +:+ feed, S w);
     json_dumps_feeds := fun l => String.concat "," l;
     json_dumps_report := fun d => String.concat "," (map fst d);
     zip_create := in_tmp;
     zip_write := fun _ _ _ => true;
     sre_template := fun _ _ _ => None |}.

Definition no_tree : string -> list (string * list string) := fun _ => [].
Definition no_files : string -> option string := fun _ => None.

(** A private feed that knows the package with an empty version list, next to
    a public registry that knows a version. *)
Definition empty_private_registry (url : string) : option response :=
  if String.eqb url "https://feed.example/v3-flatcontainer/serilog/index.json"
  then Some (ok_versions [])
  else Some (ok_versions ["3.0.0"]).

Definition empty_private_env : Env nat :=
  static_env no_tree no_files empty_private_registry (fun _ => None).

(** The two version lists of the spec's examples, served by the public
    registry under two package names. *)
Definition example_registry (url : string) : option response :=
  if String.eqb url "https://api.nuget.org/v3-flatcontainer/mixed/index.json"
  then Some (ok_versions ["1.0.0"; "1.1.0-beta"; "1.2.0"])
  else if String.eqb url "https://api.nuget.org/v3-flatcontainer/onlyrc/index.json"
  then Some (ok_versions ["2.0.0-rc1"])
  else None.

Definition example_env : Env nat :=
  static_env no_tree no_files example_registry (fun _ => None).

Definition start : store nat := Store 0 [].

(** The state the application builds before a run, without and with a feed
    typed in by the user. *)
Definition initial (root target : string) : UpgradeState :=
  MkState (Some root) None None None None None None None None (Some target).
Definition initial_with_feed (root target feed : string) : UpgradeState :=
  MkState (Some root) (Some feed) None None None None None None None (Some target).

(** A project with one descriptor and one feed-configuration file. *)
Definition one_project_tree (root : string) : list (string * list string) :=
  [(root, ["A.csproj"; "NuGet.Config"])].

Definition descriptor_for (target : string) : string :=
  "<Project><PropertyGroup><TargetFramework>" +:+ target
  +:+ "</TargetFramework>"
  +:+ "</PropertyGroup><ItemGroup>" +:+ nl
  +:+ "<PackageReference Include=" +:+ dq +:+ "Newtonsoft.Json" +:+ dq
  +:+ " Version=" +:+ dq +:+ "12.0.1" +:+ dq +:+ " />" +:+ nl
  +:+ "</ItemGroup></Project>".

Definition descriptor : string := descriptor_for "net6.0".

(** The text of the descriptor behind its target-framework element. *)
Definition descriptor_tail : string :=
  "</PropertyGroup><ItemGroup>" +:+ nl
  +:+ "<PackageReference Include=" +:+ dq +:+ "Newtonsoft.Json" +:+ dq
  +:+ " Version=" +:+ dq +:+ "12.0.1" +:+ dq +:+ " />" +:+ nl
  +:+ "</ItemGroup></Project>".

Definition feed_config : string :=
  "<configuration><packageSources><add key=" +:+ dq +:+ "corp" +:+ dq
  +:+ " value=" +:+ dq +:+ "https://corp.example/nuget" +:+ dq
  +:+ " /></packageSources></configuration>".

Definition one_project_files (path : string) : option string :=
  if String.eqb path "/p/A.csproj" then Some descriptor
  else if String.eqb path "/p/NuGet.Config" then Some feed_config
  else None.

Definition any_registry (url : string) : option response :=
  Some (ok_versions ["13.0.3"]).

(** The answer of the completion service: one block, for a path outside the
    project. *)
Definition rewrite_answer : string :=
  "--FILE: /etc/hosts --" +:+ nl +:+ "<Project />" +:+ nl +:+ "--END FILE--".

(** A healthy world. *)
Definition healthy_env : Env nat :=
  static_env one_project_tree one_project_files any_registry
    (fun _ => Some rewrite_answer).

(** The completion service fails once, at the call that finds the world at
    count [n], and answers at every other call. *)
Definition flaky_env (n : nat) : Env nat :=
  static_env one_project_tree one_project_files any_registry
    (fun w => if w =? n then None else Some rewrite_answer).

(** The outcome of the run function in the healthy world. *)
Definition healthy_run : result UpgradeState * store nat :=
  run_graph_invoke healthy_env (invoke (graph healthy_env))
    (initial "/p" "net8.0") start.
Definition healthy_final : UpgradeState :=
  match healthy_run.1 with
  | Ok final => final
  | Raise _ => initial "/p" "net8.0"
  end.

(** A project of one descriptor. *)
Definition descriptor_only_tree (root : string) : list (string * list string) :=
  [(root, ["A.csproj"])].

Definition single_env : Env nat :=
  static_env descriptor_only_tree one_project_files any_registry
    (fun _ => Some rewrite_answer).

(** The same project when the descriptor cannot be read. *)

Definition unreadable_env : Env nat :=
  static_env descriptor_only_tree no_files any_registry
    (fun _ => Some rewrite_answer).

(** A descriptor that declares the same package twice, with two versions. *)
Definition twice_descriptor : string :=
  "<Project><ItemGroup>" +:+ nl
  +:+ "<PackageReference Include=" +:+ dq +:+ "Dup" +:+ dq
  +:+ " Version=" +:+ dq +:+ "1.0" +:+ dq +:+ " />" +:+ nl
  +:+ "<PackageReference Include=" +:+ dq +:+ "Other" +:+ dq
  +:+ " Version=" +:+ dq +:+ "5.0" +:+ dq +:+ " />" +:+ nl
  +:+ "<PackageReference Include=" +:+ dq +:+ "Dup" +:+ dq
  +:+ " Version=" +:+ dq +:+ "2.0" +:+ dq +:+ " />" +:+ nl
  +:+ "</ItemGroup></Project>".

(** A registry that publishes a new version between two requests: the
    [n]-th request is answered with the version [n.0.0]. *)
Definition drifting_env : Env nat :=
  {| os_walk := descriptor_only_tree;
     fs_read_text := fun p =>
       if String.eqb p "/p/A.csproj" then Some twice_descriptor else None;
     fs_open_read := no_files;
     fs_read_bytes := no_files;
     os_path_relpath := fun p root => default p (strip_prefix (root +:+ "/") p);
     gettempdir := "/tmp";
     hash_order := fun l => l;
     requests_get := fun w _ _ =>
       (Some (ok_versions [String (ascii_of_nat (48 + w)) ".0.0"]), S w);
     chat_create := fun w _ _ => (None, S w);
     jwt_encode := fun w feed => ("jwt", S w);
     json_dumps_feeds := fun _ => "";
     json_dumps_report := fun _ => "";
     zip_create := in_tmp;
     zip_write := fun _ _ _ => true;
     sre_template := fun _ _ _ => None |}.

End Samples.

(** ** The orchestrator's steps as a list *)

Module Orchestrator.
Import Py LanggraphApp.

Section Steps.
Context {W : Type} (env : Env W).

(** The seven node functions in the order of the fallback branch. *)
Definition steps : list (UpgradeState -> M W UpgradeState) :=
  [upload_node env; detect_feeds_node env; generate_jwt_node env;
   scan_packages_node env; analyze_ai_node env; upgrade_ai_node env;
   final_node].

(** Run a list of steps one after the other. *)
Definition run_steps (fs : list (UpgradeState -> M W UpgradeState))
    (state : UpgradeState) : M W UpgradeState :=
  for_each fs (fun state f => f state) state.

(** The names [names] form a path of the graph that ends in a node without
    an outgoing edge. *)
Fixpoint linked (g : graph_t (W:=W)) (names : list string) : Prop :=
  match names with
  | [] => True
  | a :: rest =>
      match rest with
      | [] => successor g a = None
      | b :: _ => successor g a = Some b /\ linked g rest
      end
  end.

(** The failure semantics as the spec words them: whenever a step raises
    while the graph is run, the run function raises as well. *)
Definition step_exceptions_propagate : Prop :=
  forall (initial_state : UpgradeState) (st : store W) e st1,
    invoke (graph env) initial_state st = (Raise e, st1) ->
    exists e' st2,
      run_graph_invoke env (invoke (graph env)) initial_state st
      = (Raise e', st2).

(** An executor object without a usable [invoke]: the call raises at once. *)
Definition no_executor : UpgradeState -> M W UpgradeState :=
  fun _ => raise (GraphError "invoke").

End Steps.
End Orchestrator.


(** ** The references of a project in scan order *)

Module ScanSpec.
Import Re Py LanggraphApp.

(** The [(name, version)] pairs of the descriptors [paths], file after file
    and, within a file, left to right. *)
Definition references {W} (env : Env W) (paths : list string)
    : list (string * string) :=
  flat_map (fun p => findall2 PKG_RE (default "" (fs_read_text env p))) paths.

(** The entries of a report filed under [name]. *)
Definition entries_for (name : string) (report : list (string * pkg_info))
    : list (string * pkg_info) :=
  filter (fun e => e.1 = name) report.

End ScanSpec.

(** ** The wire format of a rewrite block *)

Module BlockSpec.
Import PyStr.

(** One well-formed block: the start marker with the path, the content on
    the lines that follow, the end marker. *)
Definition one_block (path content : string) : string :=
  "--FILE: " +:+ path +:+ " --" +:+ nl +:+ content +:+ nl +:+ "--END FILE--".

Definition END_MARK : string := "--END FILE--".

(** The content of the last block filed under [rel]. *)
Definition last_block (rel : string) (bs : list (string * string))
    : option string :=
  snd <$> last (filter (fun b => b.1 = rel) bs).

End BlockSpec.

(** ** What the repackager is asked to write *)

Module RepackSpec.
Import PyStr Re Py FileUtils.

Definition OPEN_TAG : string := "<TargetFramework>".
Definition CLOSE_TAG : string := "</TargetFramework>".

(** The element that declares [target]. *)
Definition element (target : string) : string :=
  OPEN_TAG +:+ target +:+ CLOSE_TAG.

(** The files of a walk, directory after directory. *)
Definition files_of (walk : list (string * list string))
    : list (string * string) :=
  flat_map (fun '(r, fs) => map (fun f => (r, f)) fs) walk.

Section WithEnv.
Context {W : Type} (env : Env W) (root : string)
  (updates : gmap string string) (target : string).

(** The member [e] is what the spec asks for the file [f] of directory [r]:
    it is named by the relative path; it holds the replacement when the
    relative path is a key of [updates]; otherwise, for a descriptor, the
    original text with every one-line target-framework element replaced by
    the element of [target]; otherwise the bytes of the file. *)
Definition written (file : string * string) (e : zip_entry) : Prop :=
  let src := path_join file.1 file.2 in
  let rel := os_path_relpath env src root in
  e.1 = rel
  /\ match updates !! rel with
     | Some content => e.2 = content
     | None =>
         if endswith rel ".csproj"
         then exists orig,
                fs_open_read env src = Some orig
                /\ e.2 = sub_literal TARGET_RE (element target) orig
         else fs_read_bytes env src = Some e.2
     end.

(** The file can be served: it is replaced, or it can be read. *)
Definition servable (file : string * string) : Prop :=
  let src := path_join file.1 file.2 in
  let rel := os_path_relpath env src root in
  match updates !! rel with
  | Some _ => True
  | None =>
      if endswith rel ".csproj"
      then is_Some (fs_open_read env src)
      else is_Some (fs_read_bytes env src)
  end.

(** The same for any target, a backslash included: the member of a
    descriptor that is not replaced holds what [re.sub] returns for the text
    read, with the element of [target] as the replacement. *)
Definition written_via_sub (file : string * string) (e : zip_entry) : Prop :=
  let src := path_join file.1 file.2 in
  let rel := os_path_relpath env src root in
  e.1 = rel
  /\ match updates !! rel with
     | Some content => e.2 = content
     | None =>
         if endswith rel ".csproj"
         then exists orig,
                fs_open_read env src = Some orig
                /\ re_sub_result env TARGET_RE (element target) orig
                   = Some e.2
         else fs_read_bytes env src = Some e.2
     end.

(** The file can be served for any target: it is replaced, or it can be
    read and, for a descriptor, [re.sub] accepts the replacement. *)
Definition servable_via_sub (file : string * string) : Prop :=
  let src := path_join file.1 file.2 in
  let rel := os_path_relpath env src root in
  match updates !! rel with
  | Some _ => True
  | None =>
      if endswith rel ".csproj"
      then exists orig,
             fs_open_read env src = Some orig
             /\ is_Some (re_sub_result env TARGET_RE (element target) orig)
      else is_Some (fs_read_bytes env src)
  end.

(** The repackager could not serve the file for the archive at [zpath]: the
    file cannot be read, or the archive refuses the member the file would
    get. *)
Definition failed_on (zpath : string) (file : string * string) (e : exn)
    : Prop :=
  (~ servable file /\ e = OSError (path_join file.1 file.2))
  \/ (exists data,
        written file (os_path_relpath env (path_join file.1 file.2) root, data)
        /\ zip_write env zpath
             (os_path_relpath env (path_join file.1 file.2) root) data = false
        /\ e = ZipError (os_path_relpath env (path_join file.1 file.2) root)).

End WithEnv.
End RepackSpec.

(** ** Relative paths under the project root *)

Module PathSpec.
Import PyStr Py RepackSpec.

(** A relative path does not start at the file-system root. *)
Definition is_relative (k : string) : bool := negb (startswith k "/").

(** A path with a parent-directory component can leave the root. *)
Definition climbs (k : string) : bool :=
  String.eqb k ".." || startswith k "../" || contains k "/../"
  || endswith k "/..".

(** The weakest reading of the phrase: relative, and staying below the
    directory it is relative to. *)
Definition relative_under_root (k : string) : bool :=
  is_relative k && negb (climbs k).

(** The stronger reading: [k] is the relative path of a file of the tree. *)
Definition names_file {W} (env : Env W) (root k : string) : Prop :=
  In k (map (fun file => os_path_relpath env (path_join file.1 file.2) root)
          (files_of (os_walk env root))).

(** The invariant as the spec words it, in its weakest reading, for the
    final state of a run. *)
Definition keys_relative_under_root (final : LanggraphApp.UpgradeState) : Prop :=
  (forall k, In k (map fst (default [] (LanggraphApp.package_report final))) ->
     relative_under_root k = true)
  /\ (forall k, k ∈ dom (default ∅ (LanggraphApp.csproj_updates final)) ->
        relative_under_root k = true).

End PathSpec.

(** ** The sections of a diff block *)

Module DiffSpec.
Import PyStr.

(** The content of a block with its two sections. *)
Definition tagged (old new : string) : string :=
  "<before>" +:+ old +:+ "</before>" +:+ "<after>" +:+ new +:+ "</after>".

End DiffSpec.

(** ** The requests and events of a run *)

Module TraceSpec.
Import PyStr Py NugetHelper ResolverSpec.

Definition is_http (e : event) : bool :=
  match e with HttpGet _ _ => true | _ => false end.

Definition is_chat (e : event) : bool :=
  match e with ChatCreate _ _ => true | _ => false end.

(** The requests of one lookup in the world [w]: the private feed is asked
    when a feed is given, with the bearer token when a token is given; the
    public registry is asked, without credentials, when no feed is given or
    when the private feed gave no version list. *)
Definition requests_of {W} (env : Env W) (package_name : string)
    (feed_url token : option string) (w : W) : list event :=
  let public := HttpGet (public_url package_name) None in
  if truthy feed_url
  then
    let url := private_url (default "" feed_url) package_name in
    match versions_of (requests_get env w url (bearer token)).1 with
    | Some _ => [HttpGet url (bearer token)]
    | None => [HttpGet url (bearer token); public]
    end
  else [public].

(** A request of a lookup of [package_name]: to the public registry without
    credentials, or to the feed, when one is given, with the bearer token. *)
Definition lookup_request (feed_url token : option string)
    (package_name : string) (e : event) : Prop :=
  e = HttpGet (public_url package_name) None
  \/ (truthy feed_url = true
      /\ e = HttpGet (private_url (default "" feed_url) package_name)
               (bearer token)).

(** The names of a list in the order of their first occurrence. *)
Definition add_key (acc : list string) (name : string) : list string :=
  if existsb (String.eqb name) acc then acc else acc ++ [name].
Definition first_occurrences (names : list string) : list string :=
  fold_left add_key names [].

End TraceSpec.

(** ** Further sample worlds *)

Module MoreSamples.
Import PyStr Py NugetHelper LanggraphApp Samples.

(** A state without the key of the project root. *)
Definition rootless (target : string) : UpgradeState :=
  MkState None None None None None None None None None (Some target).

(** A project without descriptors: one directory with a text file. *)
Definition bare_tree (root : string) : list (string * list string) :=
  [(root, ["README.md"])].

Definition bare_env : Env nat :=
  static_env bare_tree no_files any_registry (fun _ => Some rewrite_answer).

(** The project of one descriptor when no registry can be reached. *)
Definition offline_env : Env nat :=
  static_env descriptor_only_tree one_project_files (fun _ => None)
    (fun _ => Some rewrite_answer).

(** The project with a feed-configuration file that cannot be read. *)
Definition locked_config_env : Env nat :=
  static_env one_project_tree
    (fun p => if String.eqb p "/p/A.csproj" then Some descriptor else None)
    any_registry (fun _ => Some rewrite_answer).

(** The sequential run of the healthy world with a feed typed in. *)
Definition feed_run : result UpgradeState * store nat :=
  run_sequential healthy_env
    (initial_with_feed "/p" "net8.0" "https://mine.example/v3") start.
Definition feed_final : UpgradeState :=
  match feed_run.1 with
  | Ok final => final
  | Raise _ => initial_with_feed "/p" "net8.0" "https://mine.example/v3"
  end.

(** The sequential run of the project without descriptors. *)
Definition bare_run : result UpgradeState * store nat :=
  run_sequential bare_env (initial "/p" "net8.0") start.
Definition bare_final : UpgradeState :=
  match bare_run.1 with
  | Ok final => final
  | Raise _ => initial "/p" "net8.0"
  end.

(** Text mode hands out every line end, CR LF or CR alone, as LF. *)
Fixpoint universal_newlines (s : string) : string :=
  match s with
  | EmptyString => EmptyString
  | String c rest =>
      if Ascii.eqb c (ascii_of_nat 13)
      then match rest with
           | String d rest' =>
               if Ascii.eqb d (ascii_of_nat 10)
               then nl +:+ universal_newlines rest'
               else nl +:+ universal_newlines rest
           | EmptyString => nl
           end
      else String c (universal_newlines rest)
  end.

Definition crlf : string := String (ascii_of_nat 13) nl.

(** A descriptor of three lines that end in [eol]. *)
Definition lined_descriptor (eol target : string) : string :=
  "<Project>" +:+ eol
  +:+ "<PropertyGroup>" +:+ RepackSpec.element target +:+ "</PropertyGroup>"
  +:+ eol +:+ "</Project>" +:+ eol.

Definition crlf_files (path : string) : option string :=
  if String.eqb path "/p/A.csproj" then Some (lined_descriptor crlf "net6.0")
  else None.

(** The project of one descriptor stored with CR LF line ends: the bytes
    are the file, and a text is what text mode makes of the bytes. *)
Definition crlf_env : Env nat :=
  {| os_walk := descriptor_only_tree;
     fs_read_text := fun p => universal_newlines <$> crlf_files p;
     fs_open_read := fun p => universal_newlines <$> crlf_files p;
     fs_read_bytes := crlf_files;
     os_path_relpath := os_path_relpath healthy_env;
     gettempdir := gettempdir healthy_env;
     hash_order := hash_order healthy_env;
     requests_get := requests_get healthy_env;
     chat_create := chat_create healthy_env;
     jwt_encode := jwt_encode healthy_env;
     json_dumps_feeds := json_dumps_feeds healthy_env;
     json_dumps_report := json_dumps_report healthy_env;
     zip_create := zip_create healthy_env;
     zip_write := zip_write healthy_env;
     sre_template := sre_template healthy_env |}.

(** The project of one descriptor when the completion service answers
    every request with a message that has no content. *)
Definition silent_env : Env nat :=
  {| os_walk := os_walk single_env;
     fs_read_text := fs_read_text single_env;
     fs_open_read := fs_open_read single_env;
     fs_read_bytes := fs_read_bytes single_env;
     os_path_relpath := os_path_relpath single_env;
     gettempdir := gettempdir single_env;
     hash_order := hash_order single_env;
     requests_get := requests_get single_env;
     chat_create := fun w _ _ => (Some None, S w);
     jwt_encode := jwt_encode single_env;
     json_dumps_feeds := json_dumps_feeds single_env;
     json_dumps_report := json_dumps_report single_env;
     zip_create := zip_create single_env;
     zip_write := zip_write single_env;
     sre_template := sre_template single_env |}.

(** The project of one descriptor when the archive refuses its members. *)
Definition full_disk_env : Env nat :=
  {| os_walk := os_walk single_env;
     fs_read_text := fs_read_text single_env;
     fs_open_read := fs_open_read single_env;
     fs_read_bytes := fs_read_bytes single_env;
     os_path_relpath := os_path_relpath single_env;
     gettempdir := gettempdir single_env;
     hash_order := hash_order single_env;
     requests_get := requests_get single_env;
     chat_create := chat_create single_env;
     jwt_encode := jwt_encode single_env;
     json_dumps_feeds := json_dumps_feeds single_env;
     json_dumps_report := json_dumps_report single_env;
     zip_create := zip_create single_env;
     zip_write := fun _ _ _ => false;
     sre_template := sre_template single_env |}.

End MoreSamples.

(** ** A descriptor as a sequence of target-framework elements *)

Module RetargetSpec.
Import PyStr RepackSpec.

(** The text made of the parts [(before, version)], each the text in front
    of an element and the version the element declares, and of the text
    behind the last element. *)
Definition assemble (parts : list (string * string)) (tail : string) : string :=
  fold_right (fun part acc => part.1 +:+ element part.2 +:+ acc) tail parts.

(** The same parts, every element declaring [target]. *)
Definition retargeted (target : string) (parts : list (string * string))
    : list (string * string) :=
  map (fun part => (part.1, target)) parts.

End RetargetSpec.
(** * Properties *)

(** ** Strings *)

Module StrFacts.
Import PyStr StrSpec.

Lemma sapp_nil_l (s : string) : "" +:+ s = s.
Proof. reflexivity. Qed.

Lemma sapp_cons (a : ascii) (s t : string) : String a s +:+ t = String a (s +:+ t).
Proof. reflexivity. Qed.

Lemma sapp_nil_r (s : string) : s +:+ "" = s.
Proof. induction s as [|a s IH]; [reflexivity|]. rewrite sapp_cons, IH. reflexivity. Qed.

Lemma sapp_assoc (s t u : string) : (s +:+ t) +:+ u = s +:+ t +:+ u.
Proof.
  induction s as [|a s IH]; [reflexivity|]. rewrite !sapp_cons, IH. reflexivity.
Qed.

Lemma slength_app (s t : string) :
  String.length (s +:+ t) = String.length s + String.length t.
Proof.
  induction s as [|a s IH]; [reflexivity|]. rewrite sapp_cons. cbn. rewrite IH.
  reflexivity.
Qed.

Lemma strip_prefix_app (p s : string) : strip_prefix p (p +:+ s) = Some s.
Proof.
  induction p as [|a p IH]; [reflexivity|].
  rewrite sapp_cons. cbn. rewrite Ascii.eqb_refl. exact IH.
Qed.

Lemma strip_prefix_Some (p s r : string) :
  strip_prefix p s = Some r -> s = p +:+ r.
Proof.
  revert s. induction p as [|a p IH]; intros s H.
  - cbn in H. inversion H. reflexivity.
  - destruct s as [|b s]; [discriminate H|]. cbn in H.
    destruct (Ascii.eqb_spec a b) as [->|]; [|discriminate H].
    rewrite sapp_cons. f_equal. apply IH. exact H.
Qed.

(** A marker at the head of [v +:+ t] lies within [v] or runs over its end. *)
Lemma strip_prefix_app_cases (m v t r : string) :
  strip_prefix m (v +:+ t) = Some r ->
  (exists r', strip_prefix m v = Some r')
  \/ (exists m2, m = v +:+ m2 /\ strip_prefix m2 t = Some r).
Proof.
  revert m. induction v as [|a v IH]; intros m H.
  - right. exists m. split; [reflexivity | exact H].
  - destruct m as [|b m].
    + left. exists (String a v). reflexivity.
    + rewrite sapp_cons in H. cbn in H. cbn [strip_prefix].
      destruct (Ascii.eqb_spec b a) as [->|]; [|discriminate H].
      destruct (IH m H) as [(r' & Hr')|(m2 & -> & Hm2)].
      * left. exists r'. exact Hr'.
      * right. exists m2. split; [reflexivity | exact Hm2].
Qed.

Lemma has_char_app (a : ascii) (s t : string) :
  has_char a (s +:+ t) = has_char a s || has_char a t.
Proof.
  induction s as [|b s IH]; [reflexivity|].
  rewrite sapp_cons. cbn. rewrite IH. apply orb_assoc.
Qed.

Lemma contains_suffix (s1 s2 m : string) :
  contains (s1 +:+ s2) m = false -> contains s2 m = false.
Proof.
  induction s1 as [|a s1 IH]; [trivial|].
  rewrite sapp_cons. cbn [contains]. intros H.
  apply orb_false_elim in H as [_ H]. apply IH. exact H.
Qed.

Lemma contains_head (s m : string) :
  contains s m = false -> strip_prefix m s = None.
Proof.
  destruct s; cbn [contains]; unfold startswith; intros H;
    apply orb_false_elim in H as [H _];
    destruct (strip_prefix m _); [discriminate H | reflexivity | discriminate H | reflexivity].
Qed.

Lemma consumed_app (v r : string) : consumed (v +:+ r) r = v.
Proof.
  unfold consumed. rewrite slength_app.
  replace (String.length v + String.length r - String.length r)
    with (String.length v) by lia.
  induction v as [|a v IH]; [destruct r; reflexivity|].
  rewrite sapp_cons. cbn. rewrite IH. reflexivity.
Qed.

(** The first occurrence of a marker. *)
Lemma split_first_Some (l s pre rest : string) :
  split_first l s = Some (pre, rest) -> s = pre +:+ l +:+ rest.
Proof.
  revert pre. induction s as [|a s IH]; intros pre H; cbn [split_first] in H.
  - destruct (strip_prefix l "") as [r|] eqn:E; [|discriminate H].
    inversion H; subst. apply strip_prefix_Some in E. exact E.
  - destruct (strip_prefix l (String a s)) as [r|] eqn:E.
    + inversion H; subst. apply strip_prefix_Some in E. exact E.
    + destruct (split_first l s) as [[p r]|] eqn:E2; [|discriminate H].
      inversion H; subst. rewrite sapp_cons. f_equal. apply IH. reflexivity.
Qed.

Lemma split_first_None_contains (l s : string) :
  contains s l = false -> split_first l s = None.
Proof.
  induction s as [|a s IH]; cbn [contains split_first]; unfold startswith;
    intros H; apply orb_false_elim in H as [H1 H2].
  - destruct (strip_prefix l ""); [discriminate H1 | reflexivity].
  - destruct (strip_prefix l (String a s)); [discriminate H1|].
    rewrite (IH H2). reflexivity.
Qed.

(** Whitespace stripping. *)
Lemma rstrip_app_space (s : string) (a : ascii) :
  is_space a = true -> rstrip (s +:+ String a "") = rstrip s.
Proof.
  intros Ha. induction s as [|b s IH].
  - rewrite sapp_nil_l. cbn [rstrip]. rewrite Ha. reflexivity.
  - rewrite sapp_cons. cbn [rstrip]. rewrite IH. reflexivity.
Qed.

Lemma lstrip_app_space (s : string) (a : ascii) :
  is_space a = true ->
  lstrip (s +:+ String a "") = lstrip s +:+ String a ""
  \/ (lstrip (s +:+ String a "") = "" /\ lstrip s = "").
Proof.
  intros Ha. induction s as [|b s IH].
  - right. rewrite sapp_nil_l. cbn [lstrip]. rewrite Ha. auto.
  - rewrite sapp_cons. cbn [lstrip]. destruct (is_space b); [exact IH|].
    left. reflexivity.
Qed.

Lemma strip_app_space (s : string) (a : ascii) :
  is_space a = true -> strip (s +:+ String a "") = strip s.
Proof.
  intros Ha. unfold strip.
  destruct (lstrip_app_space s a Ha) as [->|[-> ->]].
  - apply rstrip_app_space. exact Ha.
  - reflexivity.
Qed.

End StrFacts.

(** ** The matcher *)

Module ReFacts.
Import PyStr Re StrSpec StrFacts.

(** The equations of the matcher, for rewriting at the head of a goal. *)
Lemma rmatch_seq r1 r2 s c k :
  rmatch (Seq r1 r2) s c k = rmatch r1 s c (fun s1 c1 => rmatch r2 s1 c1 k).
Proof. reflexivity. Qed.

Lemma rmatch_star g r s c k :
  rmatch (Star g r) s c k = star_loop g (rmatch r) (String.length s) s c k.
Proof. reflexivity. Qed.

Lemma rmatch_group n r s c k :
  rmatch (Group n r) s c k
  = rmatch r s c (fun s1 c1 => k s1 ((n, consumed s s1) :: c1)).
Proof. reflexivity. Qed.

Lemma rmatch_lit_app l s c k : rmatch (Lit l) (l +:+ s) c k = k s c.
Proof. cbn [rmatch]. rewrite strip_prefix_app. reflexivity. Qed.

Lemma rmatch_lit_None l s c k :
  strip_prefix l s = None -> rmatch (Lit l) s c k = None.
Proof. cbn [rmatch]. intros ->. reflexivity. Qed.

(** One turn of a loop over a character class. *)
Lemma star_class_cons g p f a s c k :
  star_loop g (rmatch (Class p)) (S f) (String a s) c k
  = if g
    then match (if p a then star_loop g (rmatch (Class p)) f s c k else None) with
         | Some o => Some o
         | None => k (String a s) c
         end
    else match k (String a s) c with
         | Some o => Some o
         | None => if p a then star_loop g (rmatch (Class p)) f s c k else None
         end.
Proof.
  cbn [star_loop rmatch].
  assert (Hlt : (String.length s <? String.length (String a s)) = true).
  { apply Nat.ltb_lt. cbn. lia. }
  rewrite Hlt. reflexivity.
Qed.

(** A lazy loop over a class stops at the first place where what follows
    succeeds. *)
Lemma lazy_star_first p v : forall fuel rest c k o,
  String.length v <= fuel ->
  all_chars p v = true ->
  (forall v1 v2, v = v1 +:+ v2 -> v2 <> "" -> k (v2 +:+ rest) c = None) ->
  k rest c = Some o ->
  star_loop false (rmatch (Class p)) fuel (v +:+ rest) c k = Some o.
Proof.
  induction v as [|a v IH]; intros fuel rest c k o Hfuel Hall Hfail Hok.
  - rewrite sapp_nil_l. destruct fuel as [|f]; cbn [star_loop]; rewrite Hok; reflexivity.
  - destruct fuel as [|f]; [cbn in Hfuel; lia|].
    rewrite sapp_cons, star_class_cons.
    rewrite <- sapp_cons, (Hfail "" (String a v)) by (reflexivity || discriminate).
    cbn [all_chars] in Hall. apply andb_prop in Hall as [Ha Hall]. rewrite Ha.
    apply IH; [cbn in Hfuel; lia | exact Hall | | exact Hok].
    intros v1 v2 -> Hne. apply (Hfail (String a v1) v2); [reflexivity | exact Hne].
Qed.

(** A greedy loop that cannot start hands over at once. *)
Lemma greedy_star_stuck p fuel a s c k :
  p a = false ->
  star_loop true (rmatch (Class p)) fuel (String a s) c k = k (String a s) c.
Proof.
  intros Ha. destruct fuel as [|f]; [reflexivity|].
  rewrite star_class_cons, Ha. reflexivity.
Qed.

(** A greedy loop that takes one character and then suits what follows. *)
Lemma greedy_star_one p fuel a s c k o :
  p a = true ->
  star_loop true (rmatch (Class p)) fuel s c k = Some o ->
  star_loop true (rmatch (Class p)) (S fuel) (String a s) c k = Some o.
Proof.
  intros Ha Hs. rewrite star_class_cons, Ha, Hs. reflexivity.
Qed.

(** A pattern that opens with a literal matches only where the literal is. *)
Lemma match_here_lit_None l r b s :
  strip_prefix l s = None -> match_here (Seq (Lit l) r) b s = None.
Proof.
  intros H. unfold match_here. cbn [rmatch]. rewrite H. reflexivity.
Qed.

Lemma search_from_lit_None l r s :
  split_first l s = None -> search_from (Seq (Lit l) r) false s = None.
Proof.
  induction s as [|a s IH]; cbn [split_first search_from]; intros H.
  - destruct (strip_prefix l "") eqn:E; [discriminate H|].
    rewrite (match_here_lit_None _ _ _ _ E). reflexivity.
  - destruct (strip_prefix l (String a s)) eqn:E; [discriminate H|].
    rewrite (match_here_lit_None _ _ _ _ E).
    destruct (split_first l s) as [[p q]|]; [discriminate H|].
    rewrite IH by reflexivity. reflexivity.
Qed.

(** The leftmost match of such a pattern starts at the first occurrence of
    its literal, when the rest of the pattern matches there. *)
Lemma search_from_lit_first l r s pre rest c s' :
  split_first l s = Some (pre, rest) ->
  rmatch r rest [] (fun s1 c1 => Some (c1, s1)) = Some (c, s') ->
  search_from (Seq (Lit l) r) false s
  = Some {| m_skipped := pre; m_text := consumed (l +:+ rest) s';
            m_groups := c; m_rest := s' |}.
Proof.
  revert pre. induction s as [|a s IH]; intros pre Hsplit Hr;
    cbn [split_first] in Hsplit.
  - destruct (strip_prefix l "") as [r0|] eqn:E; [|discriminate Hsplit].
    inversion Hsplit; subst. cbn [search_from]. unfold match_here.
    cbn [rmatch andb]. rewrite E. rewrite Hr.
    rewrite (strip_prefix_Some _ _ _ E). reflexivity.
  - destruct (strip_prefix l (String a s)) as [r0|] eqn:E.
    + inversion Hsplit; subst. cbn [search_from]. unfold match_here.
      cbn [rmatch andb]. rewrite E. rewrite Hr.
      rewrite (strip_prefix_Some _ _ _ E). reflexivity.
    + destruct (split_first l s) as [[p q]|] eqn:E2; [|discriminate Hsplit].
      inversion Hsplit; subst. cbn [search_from].
      rewrite (match_here_lit_None _ _ _ _ E).
      rewrite (IH p eq_refl Hr). reflexivity.
Qed.

Lemma scan_fuel_eq s : scan_fuel s = S (S (2 * String.length s)).
Proof. unfold scan_fuel. lia. Qed.

End ReFacts.

(** ** Single matches *)


Module ScanOne.
Import PyStr Re StrSpec StrFacts ReFacts.

(** Before the first occurrence of a marker the marker does not start. *)
Lemma split_first_earlier l s pre rest :
  split_first l s = Some (pre, rest) ->
  forall p1 p2, pre = p1 +:+ p2 -> p2 <> "" ->
    strip_prefix l (p2 +:+ l +:+ rest) = None.
Proof.
  revert pre. induction s as [|a s IH]; intros pre H p1 p2 Hpre Hne;
    cbn [split_first] in H.
  - destruct (strip_prefix l ""); [|discriminate H].
    inversion H as [[Hp Hr]]. rewrite <- Hp in Hpre. exfalso.
    destruct p1, p2; rewrite ?sapp_nil_l, ?sapp_cons in Hpre;
      first [discriminate Hpre | contradiction].
  - destruct (strip_prefix l (String a s)) as [r0|] eqn:E.
    + inversion H as [[Hp Hr]]. rewrite <- Hp in Hpre. exfalso.
      destruct p1, p2; rewrite ?sapp_nil_l, ?sapp_cons in Hpre;
        first [discriminate Hpre | contradiction].
    + destruct (split_first l s) as [[p q]|] eqn:E2; [|discriminate H].
      inversion H as [[Hp Hr]]. subst rest. rewrite <- Hp in Hpre. clear H Hp.
      destruct p1 as [|b p1].
      * rewrite sapp_nil_l in Hpre. subst p2.
        rewrite sapp_cons. rewrite <- (split_first_Some _ _ _ _ E2). exact E.
      * rewrite sapp_cons in Hpre. inversion Hpre as [[Hb Hp]].
        apply (IH _ eq_refl p1 p2 Hp Hne).
Qed.

(** One match and nothing behind it: the whole scan. *)
Lemma finditer_single a l r s pre rest u c s' :
  split_first (String a l) s = Some (pre, rest) ->
  rest = u +:+ s' ->
  rmatch r rest [] (fun s1 c1 => Some (c1, s1)) = Some (c, s') ->
  split_first (String a l) s' = None ->
  finditer (Seq (Lit (String a l)) r) s
  = [ {| m_skipped := pre; m_text := String a l +:+ u;
         m_groups := c; m_rest := s' |} ].
Proof.
  intros Hsplit Hrest Hr Hnone.
  unfold finditer. rewrite scan_fuel_eq. cbn [scan].
  rewrite (search_from_lit_first _ _ _ _ _ _ _ Hsplit Hr).
  cbn [m_text m_rest]. rewrite Hrest, <- sapp_assoc, consumed_app.
  rewrite sapp_cons. cbn [String.length Nat.eqb].
  rewrite (search_from_lit_None _ _ _ Hnone). reflexivity.
Qed.

Lemma all_chars_any v : all_chars cls_any v = true.
Proof. induction v as [|a v IH]; [reflexivity | exact IH]. Qed.

Lemma all_chars_dot v : has_char (ascii_of_nat 10) v = false -> all_chars cls_dot v = true.
Proof.
  induction v as [|a v IH]; [reflexivity|]. cbn [has_char all_chars]. intros H.
  apply orb_false_elim in H as [Ha Hv]. rewrite (IH Hv), andb_true_r.
  unfold cls_dot, is_newline.
  destruct (Nat.eqb_spec (nat_of_ascii a) 10) as [E|]; [|reflexivity].
  assert (a = ascii_of_nat 10) as ->.
  { rewrite <- E. symmetry. apply ascii_nat_embedding. }
  rewrite Ascii.eqb_refl in Ha. discriminate Ha.
Qed.

Lemma all_chars_app p v1 v2 :
  all_chars p (v1 +:+ v2) = all_chars p v1 && all_chars p v2.
Proof.
  induction v1 as [|a v1 IH]; [reflexivity|].
  rewrite sapp_cons. cbn [all_chars]. rewrite IH. apply andb_assoc.
Qed.

(** A text that ends in [a] and is cut before a non-empty tail. *)
Lemma app_snoc_split (x : string) (a : ascii) : forall v1 v2,
  x +:+ String a "" = v1 +:+ v2 -> v2 <> "" ->
  exists x2, v2 = x2 +:+ String a "" /\ x = v1 +:+ x2.
Proof.
  induction x as [|b x IH]; intros v1 v2 H Hne.
  - rewrite sapp_nil_l in H. destruct v1 as [|c v1].
    + rewrite sapp_nil_l in H. exists "". split; [symmetry; exact H | reflexivity].
    + rewrite sapp_cons in H. inversion H as [[Hc Hv]]. exfalso.
      destruct v1, v2; rewrite ?sapp_nil_l, ?sapp_cons in Hv;
        first [discriminate Hv | contradiction].
  - destruct v1 as [|c v1].
    + rewrite sapp_nil_l in H. exists (String b x). split; [symmetry; exact H | reflexivity].
    + rewrite !sapp_cons in H. inversion H as [[Hc Hv]].
      destruct (IH v1 v2 Hv Hne) as (x2 & -> & ->).
      exists x2. split; reflexivity.
Qed.

(** A marker without [a] that does not occur in [x] does not start in
    [x +:+ a] either, whatever follows. *)
Lemma marker_not_in_suffix x m a t :
  contains x m = false -> has_char a m = false ->
  forall v1 v2, x +:+ String a "" = v1 +:+ v2 -> v2 <> "" ->
    strip_prefix m (v2 +:+ t) = None.
Proof.
  intros Hx Hm v1 v2 Hsplit Hne.
  destruct (app_snoc_split x a v1 v2 Hsplit Hne) as (x2 & -> & ->).
  apply contains_suffix in Hx. apply contains_head in Hx.
  destruct (strip_prefix m ((x2 +:+ String a "") +:+ t)) as [r|] eqn:E;
    [exfalso | reflexivity].
  rewrite sapp_assoc in E.
  apply strip_prefix_app_cases in E as [(r' & Hr')|(m2 & -> & Hm2)].
  - rewrite Hx in Hr'. discriminate Hr'.
  - destruct m2 as [|b m2].
    + rewrite sapp_nil_r in Hx.
      pose proof (strip_prefix_app x2 "") as Hs. rewrite sapp_nil_r in Hs.
      rewrite Hs in Hx. discriminate Hx.
    + rewrite sapp_cons in Hm2. cbn [strip_prefix] in Hm2.
      destruct (Ascii.eqb_spec b a) as [->|]; [|discriminate Hm2].
      rewrite has_char_app in Hm. cbn [has_char] in Hm.
      rewrite Ascii.eqb_refl, orb_true_r in Hm. discriminate Hm.
Qed.

End ScanOne.

(** ** Reasoning about the monad *)


Module PyFacts.
Import Py.
Local Open Scope py_scope.

Section Laws.
Context {W : Type}.

Lemma bind_ret_l {A B} (a : A) (f : A -> M W B) st :
  bind (ret a) f st = f a st.
Proof. reflexivity. Qed.

Lemma bind_ok_inv {A B} (m : M W A) (f : A -> M W B) st b st' :
  bind m f st = (Ok b, st') ->
  exists a st1, m st = (Ok a, st1) /\ f a st1 = (Ok b, st').
Proof.
  unfold bind. destruct (m st) as [[a|e] st1]; intros H.
  - exists a, st1. split; [reflexivity | exact H].
  - discriminate H.
Qed.

Lemma bind_ok_intro {A B} (m : M W A) (f : A -> M W B) st a st1 :
  m st = (Ok a, st1) -> bind m f st = f a st1.
Proof. unfold bind. intros ->. reflexivity. Qed.

Lemma bind_raise_intro {A B} (m : M W A) (f : A -> M W B) st e st1 :
  m st = (Raise e, st1) -> bind m f st = (Raise e, st1).
Proof. unfold bind. intros ->. reflexivity. Qed.

Lemma ok_or_ok_inv {A} (o : option A) e st a st' :
  @ok_or W A o e st = (Ok a, st') -> o = Some a /\ st' = st.
Proof.
  destruct o as [x|]; cbn; intros H; inversion H; subst; auto.
Qed.

Lemma ret_ok_inv {A} (x a : A) (st st' : store W) :
  ret x st = (Ok a, st') -> a = x /\ st' = st.
Proof. cbv [ret]. intros H; inversion H; auto. Qed.

(** A loop whose body keeps an invariant keeps it. *)
Lemma for_each_invariant {A B} (P : A -> Prop) (l : list B)
    (f : A -> B -> M W A) :
  (forall acc x st acc' st',
      In x l -> P acc -> f acc x st = (Ok acc', st') -> P acc') ->
  forall acc st acc' st',
    P acc -> for_each l f acc st = (Ok acc', st') -> P acc'.
Proof.
  induction l as [|x l IH]; intros Hf acc st acc' st' HP Hrun.
  - apply ret_ok_inv in Hrun as [-> _]. exact HP.
  - cbn [for_each] in Hrun.
    apply bind_ok_inv in Hrun as (a1 & st1 & H1 & H2).
    eapply IH; [| |exact H2].
    + intros; eapply Hf; eauto. right; assumption.
    + eapply Hf; eauto. left; reflexivity.
Qed.

Lemma for_each_app {A B} (l1 l2 : list B) (f : A -> B -> M W A) acc st :
  for_each (l1 ++ l2) f acc st
  = bind (for_each l1 f acc) (for_each l2 f) st.
Proof.
  revert acc st. induction l1 as [|x l1 IH]; intros acc st.
  - reflexivity.
  - cbn [for_each app]. unfold bind.
    destruct (f acc x st) as [[a|e] st1]; [|reflexivity].
    rewrite IH. reflexivity.
Qed.

End Laws.

End PyFacts.

(** ** The version resolver *)


Module ResolverFacts.
Import PyStr Py NugetHelper ResolverSpec PyFacts.

Lemma filter_stable_app (l1 l2 : list string) :
  filter (fun v => negb (has_char "-"%char v) = true) (l1 ++ l2)
  = filter (fun v => negb (has_char "-"%char v) = true) l1
    ++ filter (fun v => negb (has_char "-"%char v) = true) l2.
Proof. apply filter_app. Qed.

Lemma filter_unstable_nil (l : list string) :
  Forall (fun u => ~ stable u) l ->
  filter (fun v => negb (has_char "-"%char v) = true) l = [].
Proof.
  induction 1 as [|u l Hu _ IH]; [reflexivity|].
  rewrite filter_cons. destruct (decide _) as [Hd|Hd]; [|exact IH].
  exfalso. apply Hu. unfold stable.
  destruct (has_char "-"%char u); [discriminate Hd | reflexivity].
Qed.

(** Every list ends in a stable version followed by pre-releases, or is made
    of pre-releases only. *)
Lemma split_last_stable (l : list string) :
  (exists pre v post,
      l = pre ++ v :: post /\ stable v /\ Forall (fun u => ~ stable u) post)
  \/ Forall (fun u => ~ stable u) l.
Proof.
  induction l as [|a l IH]; [right; constructor|].
  destruct IH as [(pre & v & post & -> & Hv & Hpost)|Hall].
  - left. exists (a :: pre), v, post. auto.
  - destruct (has_char "-"%char a) eqn:Ha.
    + right. constructor; [|exact Hall]. unfold stable. rewrite Ha. discriminate.
    + left. exists [], a, l. auto.
Qed.

Lemma match_snoc {A B} (l : list A) (a : A) (x y : B) :
  match l ++ [a] with _ :: _ => x | [] => y end = x.
Proof. destruct l; reflexivity. Qed.

(** The expression of the source makes the choice the spec words. *)
Lemma pick_latest_chosen (vs : list string) : chosen vs (pick_latest vs).
Proof.
  unfold pick_latest.
  destruct (split_last_stable vs) as [(pre & v & post & -> & Hv & Hpost)|Hall].
  - rewrite filter_stable_app, filter_cons, (filter_unstable_nil post Hpost).
    unfold stable in Hv.
    destruct (decide _) as [_|Hd]; [|rewrite Hv in Hd; exfalso; apply Hd; reflexivity].
    rewrite match_snoc, last_snoc. constructor; assumption.
  - rewrite (filter_unstable_nil vs Hall).
    destruct (decide (vs = [])) as [->|Hne]; [constructor|].
    destruct (exists_last Hne) as (pre & v & ->).
    rewrite match_snoc, last_snoc. apply chosen_last. exact Hall.
Qed.

(** The choice is determined: it is the value of the source's expression. *)
Lemma chosen_pick_latest (vs : list string) (o : option string) :
  chosen vs o -> o = pick_latest vs.
Proof.
  intros H. unfold pick_latest. destruct H as [pre v post Hv Hpost|pre v Hall|].
  - rewrite filter_stable_app, filter_cons, (filter_unstable_nil post Hpost).
    unfold stable in Hv.
    destruct (decide _) as [_|Hd]; [|rewrite Hv in Hd; exfalso; apply Hd; reflexivity].
    rewrite match_snoc, last_snoc. reflexivity.
  - rewrite (filter_unstable_nil _ Hall), match_snoc, last_snoc. reflexivity.
  - reflexivity.
Qed.

Section WithEnv.
Context {W : Type} (env : Env W).

(** One block of the resolver: it never raises, logs its request, and
    returns the choice exactly when the lookup obtained a list. *)
Lemma lookup_block_run url auth (st : store W) :
  lookup_block env url auth st
  = (Ok (pick_latest <$> versions_of (requests_get env (world st) url auth).1),
     Store (requests_get env (world st) url auth).2
       (log st ++ [HttpGet url auth])).
Proof.
  unfold lookup_block, versions_of.
  destruct (requests_get env (world st) url auth) as [[resp|] w']; cbn [fst snd];
    [|reflexivity].
  destruct (status_code resp =? 200); [|reflexivity].
  destruct (json resp); reflexivity.
Qed.

(** The resolver as a whole: it asks the private feed when one is given,
    the public registry when that block did not return, and never raises. *)
Lemma get_latest_run package_name feed_url token (st : store W) :
  exists v st',
    get_latest_nuget_version_for_feed env package_name feed_url token st
    = (Ok v, st')
    /\ resolved env package_name feed_url token (world st) v.
Proof.
  unfold get_latest_nuget_version_for_feed, resolved.
  fold (bearer token).
  fold (private_url (default "" feed_url) package_name).
  fold (public_url package_name).
  destruct (truthy feed_url).
  - unfold bind at 1. rewrite lookup_block_run.
    set (a := requests_get env (world st) _ (bearer token)).
    destruct (versions_of a.1) as [vs|] eqn:E1; cbn [fmap option_fmap option_map].
    + eexists _, _. split; [reflexivity|]. apply pick_latest_chosen.
    + unfold bind. rewrite lookup_block_run. cbn [world].
      set (b := requests_get env a.2 (public_url package_name) None).
      destruct (versions_of b.1) as [vs|] eqn:E2;
        cbn [fmap option_fmap option_map];
        eexists _, _; (split; [reflexivity|]).
      * apply pick_latest_chosen.
      * reflexivity.
  - unfold bind. cbn [ret]. rewrite lookup_block_run.
    set (b := requests_get env (world st) (public_url package_name) None).
    destruct (versions_of b.1) as [vs|] eqn:E2;
      cbn [fmap option_fmap option_map];
      eexists _, _; (split; [reflexivity|]).
    + apply pick_latest_chosen.
    + reflexivity.
Qed.

(** A successful private lookup ends the resolver in its first block. *)
Lemma private_block_returns package_name feed token (st : store W) vs :
  feed <> "" ->
  versions_of
    (requests_get env (world st) (private_url feed package_name) (bearer token)).1
  = Some vs ->
  get_latest_nuget_version_for_feed env package_name (Some feed) token st
  = (Ok (pick_latest vs),
     Store (requests_get env (world st) (private_url feed package_name)
              (bearer token)).2
       (log st ++ [HttpGet (private_url feed package_name) (bearer token)])).
Proof.
  intros Hfeed Hvs.
  unfold get_latest_nuget_version_for_feed.
  fold (bearer token).
  assert (Ht : truthy (Some feed) = true).
  { cbn. destruct (String.eqb_spec feed ""); [contradiction | reflexivity]. }
  rewrite Ht. cbn [default from_option id].
  fold (private_url feed package_name).
  unfold bind. rewrite lookup_block_run, Hvs. reflexivity.
Qed.

End WithEnv.
End ResolverFacts.

(** ** Insertion-ordered dictionaries *)


Module DictFacts.
Import Py LanggraphApp.

Section Dict.
Context {V : Type}.
Implicit Types (d : list (string * V)) (k : string).

Lemma dict_get_setdefault_same k v d :
  dict_get k (dict_setdefault k v d) = Some (default v (dict_get k d)).
Proof.
  induction d as [|[k' v'] d IH]; cbn.
  - rewrite String.eqb_refl. reflexivity.
  - destruct (String.eqb_spec k k') as [->|Hne]; cbn.
    + rewrite String.eqb_refl. reflexivity.
    + destruct (String.eqb_spec k k'); [contradiction|]. exact IH.
Qed.

Lemma dict_get_setdefault_other k k' v d :
  k <> k' -> dict_get k' (dict_setdefault k v d) = dict_get k' d.
Proof.
  intros Hne. induction d as [|[k1 v1] d IH]; cbn.
  - destruct (String.eqb_spec k' k); [congruence | reflexivity].
  - destruct (String.eqb_spec k k1) as [->|Hk]; cbn; [reflexivity|].
    rewrite IH. reflexivity.
Qed.

Lemma dict_get_update_same k f d :
  dict_get k (dict_update k f d) = f <$> dict_get k d.
Proof.
  induction d as [|[k' v'] d IH]; cbn; [reflexivity|].
  destruct (String.eqb_spec k k') as [->|Hne]; cbn.
  - rewrite String.eqb_refl. reflexivity.
  - destruct (String.eqb_spec k k'); [contradiction|]. exact IH.
Qed.

Lemma dict_get_update_other k k' f d :
  k <> k' -> dict_get k' (dict_update k f d) = dict_get k' d.
Proof.
  intros Hne. induction d as [|[k1 v1] d IH]; cbn; [reflexivity|].
  destruct (String.eqb_spec k k1) as [->|Hk]; cbn.
  - destruct (String.eqb_spec k' k1); [congruence | reflexivity].
  - rewrite IH. reflexivity.
Qed.

Lemma dict_update_keys k f d : map fst (dict_update k f d) = map fst d.
Proof.
  induction d as [|[k' v'] d IH]; cbn; [reflexivity|].
  destruct (String.eqb k k'); cbn; [reflexivity|]. rewrite IH. reflexivity.
Qed.

Lemma dict_get_None_keys k d : dict_get k d = None <-> ~ In k (map fst d).
Proof.
  induction d as [|[k' v'] d IH]; cbn.
  - tauto.
  - destruct (String.eqb_spec k k') as [->|Hne].
    + split; [discriminate | intros H; exfalso; apply H; left; reflexivity].
    + rewrite IH. split; [intros H [E|Hin]; [congruence | tauto] | tauto].
Qed.

Lemma dict_setdefault_keys k v d :
  map fst (dict_setdefault k v d)
  = match dict_get k d with
    | Some _ => map fst d
    | None => map fst d ++ [k]
    end.
Proof.
  induction d as [|[k' v'] d IH]; cbn; [reflexivity|].
  destruct (String.eqb_spec k k') as [->|Hne]; cbn; [reflexivity|].
  rewrite IH. destruct (dict_get k d); reflexivity.
Qed.

Lemma dict_setdefault_NoDup k v d :
  NoDup (map fst d) -> NoDup (map fst (dict_setdefault k v d)).
Proof.
  intros Hd. rewrite dict_setdefault_keys.
  destruct (dict_get k d) eqn:E; [exact Hd|].
  apply dict_get_None_keys in E.
  apply NoDup_app. split; [exact Hd|]. split.
  - intros x Hx Hk. apply list_elem_of_In in Hx.
    apply list_elem_of_singleton in Hk. subst. contradiction.
  - apply NoDup_singleton.
Qed.

Lemma filter_absent_key k d :
  ~ In k (map fst d) -> filter (fun e : string * V => e.1 = k) d = [].
Proof.
  induction d as [|[k1 v1] d IH]; intros Hk; [reflexivity|].
  rewrite filter_cons. cbn [fst].
  destruct (decide (k1 = k)) as [->|Hk1].
  - exfalso. apply Hk. left. reflexivity.
  - apply IH. intros Hin. apply Hk. right. exact Hin.
Qed.

(** Under distinct keys a key that is present heads exactly one entry. *)
Lemma dict_one_entry k d v :
  NoDup (map fst d) -> dict_get k d = Some v ->
  filter (fun e : string * V => e.1 = k) d = [(k, v)].
Proof.
  induction d as [|[k' v'] d IH]; intros Hnd Hget; [discriminate Hget|].
  cbn [map fst] in Hnd. apply NoDup_cons in Hnd as [Hk' Hnd].
  cbn [dict_get] in Hget.
  rewrite filter_cons. cbn [fst].
  destruct (String.eqb_spec k k') as [->|Hne].
  - inversion Hget; subst. destruct (decide (k' = k')); [|contradiction].
    f_equal. apply filter_absent_key.
    intros Hin. apply Hk'. apply list_elem_of_In. exact Hin.
  - destruct (decide (k' = k)); [congruence|]. apply IH; assumption.
Qed.

End Dict.

(** The two statements that file a reference. *)
Lemma record_package_same name ver lat pkgs :
  dict_get name (record_package name ver lat pkgs)
  = Some (PkgInfo (default ver (current <$> dict_get name pkgs)) lat).
Proof.
  unfold record_package.
  rewrite dict_get_update_same, dict_get_setdefault_same.
  destruct (dict_get name pkgs); reflexivity.
Qed.

Lemma record_package_other name name' ver lat pkgs :
  name <> name' ->
  dict_get name' (record_package name ver lat pkgs) = dict_get name' pkgs.
Proof.
  intros Hne. unfold record_package.
  rewrite dict_get_update_other, dict_get_setdefault_other by exact Hne.
  reflexivity.
Qed.

Lemma record_package_NoDup name ver lat pkgs :
  NoDup (map fst pkgs) -> NoDup (map fst (record_package name ver lat pkgs)).
Proof.
  intros H. unfold record_package. rewrite dict_update_keys.
  apply dict_setdefault_NoDup. exact H.
Qed.

End DictFacts.

(** ** The package scan *)


Module ScanFacts.
Import PyStr Re Py NugetHelper LanggraphApp ScanSpec PyFacts DictFacts.

Section WithEnv.
Context {W : Type} (env : Env W) (state : UpgradeState).

Local Abbreviation lookup name :=
  (get_latest_nuget_version_for_feed env name (first_feed state)
     (token_of state (first_feed state))).

Lemma scan_refs_cons_inv name ver refs pkgs (st : store W) pkgs' st' :
  scan_refs env state ((name, ver) :: refs) pkgs st = (Ok pkgs', st') ->
  exists lat st1,
    lookup name st = (Ok lat, st1)
    /\ scan_refs env state refs (record_package name ver lat pkgs) st1
       = (Ok pkgs', st').
Proof.
  unfold scan_refs. cbn [for_each]. intros H.
  apply bind_ok_inv in H as (p1 & st1 & H1 & H2).
  apply bind_ok_inv in H1 as (lat & st2 & Hl & Hr).
  apply ret_ok_inv in Hr as [-> ->].
  exists lat, st2. split; assumption.
Qed.

Lemma scan_refs_app_inv l1 l2 pkgs (st : store W) pkgs' st' :
  scan_refs env state (l1 ++ l2) pkgs st = (Ok pkgs', st') ->
  exists p1 st1,
    scan_refs env state l1 pkgs st = (Ok p1, st1)
    /\ scan_refs env state l2 p1 st1 = (Ok pkgs', st').
Proof.
  unfold scan_refs. rewrite for_each_app. apply bind_ok_inv.
Qed.

Lemma scan_refs_app_intro l1 l2 pkgs (st : store W) p1 st1 :
  scan_refs env state l1 pkgs st = (Ok p1, st1) ->
  scan_refs env state (l1 ++ l2) pkgs st = scan_refs env state l2 p1 st1.
Proof.
  unfold scan_refs. intros H. rewrite for_each_app.
  apply bind_ok_intro. exact H.
Qed.

(** The scan keeps the keys of the report distinct. *)
Lemma scan_refs_NoDup refs : forall pkgs (st : store W) pkgs' st',
  NoDup (map fst pkgs) ->
  scan_refs env state refs pkgs st = (Ok pkgs', st') ->
  NoDup (map fst pkgs').
Proof.
  induction refs as [|[name ver] refs IH]; intros pkgs st pkgs' st' Hnd Hrun.
  - apply ret_ok_inv in Hrun as [-> _]. exact Hnd.
  - apply scan_refs_cons_inv in Hrun as (lat & st1 & _ & Hrest).
    eapply IH; [|exact Hrest]. apply record_package_NoDup. exact Hnd.
Qed.

(** References to other packages leave the entry of [name] alone. *)
Lemma scan_refs_absent name refs : forall pkgs (st : store W) pkgs' st',
  ~ In name (map fst refs) ->
  scan_refs env state refs pkgs st = (Ok pkgs', st') ->
  dict_get name pkgs' = dict_get name pkgs.
Proof.
  induction refs as [|[n v] refs IH]; intros pkgs st pkgs' st' Hnot Hrun.
  - apply ret_ok_inv in Hrun as [-> _]. reflexivity.
  - apply scan_refs_cons_inv in Hrun as (lat & st1 & _ & Hrest).
    rewrite (IH _ _ _ _ (fun H => Hnot (or_intror H)) Hrest).
    apply record_package_other. intros ->. apply Hnot. left. reflexivity.
Qed.

(** Once filed, the current version of [name] stays. *)
Lemma scan_refs_current name refs : forall pkgs (st : store W) pkgs' st' e,
  dict_get name pkgs = Some e ->
  scan_refs env state refs pkgs st = (Ok pkgs', st') ->
  exists e', dict_get name pkgs' = Some e' /\ current e' = current e.
Proof.
  induction refs as [|[n v] refs IH]; intros pkgs st pkgs' st' e Hget Hrun.
  - apply ret_ok_inv in Hrun as [-> _]. exists e. auto.
  - apply scan_refs_cons_inv in Hrun as (lat & st1 & _ & Hrest).
    destruct (String.eqb_spec n name) as [->|Hne].
    + destruct (IH _ _ _ _ (PkgInfo (current e) lat)
                  ltac:(rewrite record_package_same, Hget; reflexivity) Hrest)
        as (e' & He' & Hc).
      exists e'. split; [exact He' | exact Hc].
    + eapply IH; [|exact Hrest].
      rewrite record_package_other by exact Hne. exact Hget.
Qed.

(** The entry of a package after the scan of a list of references: one
    entry, with the version of the first reference and the answer of the
    lookup made for the last one. *)
Lemma scan_refs_entry refs (st : store W) pkgs st' name v1 v2 r1 r2 q1 q2 :
  scan_refs env state refs [] st = (Ok pkgs, st') ->
  refs = r1 ++ (name, v1) :: r2 -> ~ In name (map fst r1) ->
  refs = q1 ++ (name, v2) :: q2 -> ~ In name (map fst q2) ->
  exists lat pk st_mid st_mid',
    entries_for name pkgs = [(name, PkgInfo v1 lat)]
    /\ scan_refs env state q1 [] st = (Ok pk, st_mid)
    /\ lookup name st_mid = (Ok lat, st_mid').
Proof.
  intros Hrun Hr Hr1 Hq Hq2.
  assert (Hnd : NoDup (map fst pkgs)).
  { eapply scan_refs_NoDup; [|exact Hrun]. constructor. }
  (* the last reference decides [latest] *)
  pose proof Hrun as HrunQ. rewrite Hq in HrunQ.
  apply scan_refs_app_inv in HrunQ as (pk & st_mid & Hq1 & Hrest).
  apply scan_refs_cons_inv in Hrest as (lat & st_mid' & Hlook & Hrest).
  pose proof (scan_refs_absent name q2 _ _ _ _ Hq2 Hrest) as Hlast.
  rewrite record_package_same in Hlast.
  (* the first reference decides [current] *)
  pose proof Hrun as HrunR. rewrite Hr in HrunR.
  apply scan_refs_app_inv in HrunR as (p1 & st1 & Hr1run & Hrest1).
  pose proof (scan_refs_absent name r1 _ _ _ _ Hr1 Hr1run) as Hfresh.
  cbn [dict_get] in Hfresh.
  apply scan_refs_cons_inv in Hrest1 as (lat1 & st2 & _ & Hrest1).
  destruct (scan_refs_current name r2 _ _ _ _ (PkgInfo v1 lat1)
              ltac:(rewrite record_package_same, Hfresh; reflexivity) Hrest1)
    as (e' & He' & Hcur).
  rewrite Hlast in He'. inversion He' as [He]. cbn [current] in Hcur.
  rewrite <- He in Hcur. cbn [current] in Hcur.
  exists lat, pk, st_mid, st_mid'. split; [|split; assumption].
  unfold entries_for. apply dict_one_entry; [exact Hnd|].
  rewrite Hlast. rewrite Hcur. reflexivity.
Qed.

(** The two nested loops of the node file the references of all descriptors
    in scan order. *)
Lemma scan_paths_flat paths : forall pkgs0 (st : store W) pkgs st',
  for_each paths
    (fun pkgs p =>
       bind (read_text env p)
         (fun text => scan_refs env state (findall2 PKG_RE text) pkgs))
    pkgs0 st = (Ok pkgs, st') ->
  scan_refs env state (references env paths) pkgs0 st = (Ok pkgs, st').
Proof.
  induction paths as [|p paths IH]; intros pkgs0 st pkgs st' Hrun.
  - exact Hrun.
  - cbn [for_each] in Hrun.
    apply bind_ok_inv in Hrun as (p1 & st1 & Hp & Hrest).
    apply bind_ok_inv in Hp as (text & st0 & Hread & Hrefs).
    apply ok_or_ok_inv in Hread as [Hread ->].
    unfold references. cbn [flat_map]. rewrite Hread. cbn [default from_option id].
    rewrite (scan_refs_app_intro _ _ _ _ _ _ Hrefs).
    apply IH. exact Hrest.
Qed.

Lemma scan_packages_node_inv (st : store W) state' st' :
  scan_packages_node env state st = (Ok state', st') ->
  exists root pkgs,
    uploaded_file_path state = Some root
    /\ state' = set_package_report pkgs state
    /\ scan_refs env state (references env (scanned_paths env state root)) [] st
       = (Ok pkgs, st').
Proof.
  unfold scan_packages_node. intros H.
  apply bind_ok_inv in H as (root & st0 & Hroot & H).
  apply ok_or_ok_inv in Hroot as [Hroot ->].
  apply bind_ok_inv in H as (pkgs & st1 & Hscan & Hret).
  apply ret_ok_inv in Hret as [-> ->].
  exists root, pkgs. split; [exact Hroot|]. split; [reflexivity|].
  apply scan_paths_flat. exact Hscan.
Qed.

End WithEnv.
End ScanFacts.

(** ** Rewrite blocks *)


Module BlockFacts.
Import PyStr Re Blocks StrSpec BlockSpec StrFacts ReFacts ScanOne.

(** Behind a path without whitespace, the closing dashes of the start
    marker cannot begin inside the path. *)
Lemma dashes_not_in_path v t :
  no_space v = true -> v <> "" ->
  strip_prefix ("--" +:+ nl) (v +:+ String " " t) = None.
Proof.
  unfold no_space. intros Hv Hne.
  destruct v as [|a [|b [|c v]]]; [contradiction|..];
    rewrite ?sapp_cons, ?sapp_nil_l; cbn [strip_prefix String.append nl];
    change ("--" +:+ String (ascii_of_nat 10) "")
      with (String "-" (String "-" (String (ascii_of_nat 10) "")));
    cbn [strip_prefix].
  - destruct (Ascii.eqb "-" a); reflexivity.
  - destruct (Ascii.eqb "-" a); [|reflexivity].
    destruct (Ascii.eqb "-" b); reflexivity.
  - destruct (Ascii.eqb "-" a); [|reflexivity].
    destruct (Ascii.eqb "-" b); [|reflexivity].
    destruct (Ascii.eqb_spec (ascii_of_nat 10) c) as [<-|]; [|reflexivity].
    cbn in Hv. rewrite !andb_false_r in Hv. discriminate Hv.
Qed.

Lemma no_space_head a v : no_space (String a v) = true -> is_space a = false.
Proof.
  unfold no_space. cbn [all_chars]. intros H. apply andb_prop in H as [H _].
  destruct (is_space a); [discriminate H | reflexivity].
Qed.

Lemma lstrip_no_space v : no_space v = true -> lstrip v = v.
Proof.
  destruct v as [|a v]; [reflexivity|]. intros H.
  cbn [lstrip]. rewrite (no_space_head _ _ H). reflexivity.
Qed.

Lemma rstrip_no_space v : no_space v = true -> rstrip v = v.
Proof.
  induction v as [|a v IH]; [reflexivity|]. intros H.
  pose proof (no_space_head _ _ H) as Ha.
  unfold no_space in H. cbn [all_chars] in H. apply andb_prop in H as [_ H].
  cbn [rstrip]. rewrite (IH H), Ha. destruct v; reflexivity.
Qed.

Lemma strip_no_space v : no_space v = true -> strip v = v.
Proof.
  intros H. unfold strip. rewrite (lstrip_no_space v H). apply rstrip_no_space, H.
Qed.

(** The pattern behind the opening literal, on the rest of a block. *)
Lemma block_tail_match path body :
  no_space path = true -> path <> "" ->
  (forall v1 v2, body = v1 +:+ v2 -> v2 <> "" ->
     strip_prefix END_MARK (v2 +:+ END_MARK) = None) ->
  rmatch
    (Seq (Star true (Class cls_space))
       (Seq (Group 1 (Star false (Class cls_any)))
          (Seq (Star true (Class cls_space))
             (Seq (Lit ("--" +:+ nl))
                (Seq (Group 2 (Star false (Class cls_any)))
                   (Lit END_MARK))))))
    (String " " (path +:+ String " " (("--" +:+ nl) +:+ (body +:+ END_MARK))))
    [] (fun s1 c1 => Some (c1, s1))
  = Some ([(2, body); (1, path)], "").
Proof.
  intros Hpath Hne Hbody.
  set (rest2 := String " " (("--" +:+ nl) +:+ (body +:+ END_MARK))).
  rewrite rmatch_seq, rmatch_star. cbn [String.length].
  apply greedy_star_one; [reflexivity|].
  destruct path as [|a path']; [contradiction|].
  rewrite sapp_cons, greedy_star_stuck by (apply (no_space_head _ _ Hpath)).
  rewrite <- sapp_cons.
  rewrite rmatch_seq, rmatch_group, rmatch_star.
  apply lazy_star_first.
  - rewrite slength_app. lia.
  - apply all_chars_any.
  - intros v1 v2 Hsplit Hv2.
    assert (Hns : no_space v2 = true).
    { unfold no_space in *. rewrite Hsplit, all_chars_app in Hpath.
      apply andb_prop in Hpath as [_ H]. exact H. }
    destruct v2 as [|b v2]; [contradiction|].
    rewrite rmatch_seq, rmatch_star, sapp_cons.
    rewrite greedy_star_stuck by (apply (no_space_head _ _ Hns)).
    rewrite rmatch_seq. apply rmatch_lit_None.
    rewrite <- sapp_cons. unfold rest2.
    apply (dashes_not_in_path _ _ Hns Hv2).
  - rewrite consumed_app.
    rewrite rmatch_seq, rmatch_star. unfold rest2 at 1 2. cbn [String.length].
    apply greedy_star_one; [reflexivity|].
    change ("--" +:+ nl) with (String "-" ("-" +:+ nl)) at 1 2.
    rewrite !sapp_cons, greedy_star_stuck by reflexivity.
    rewrite <- !sapp_cons.
    change (String "-" ("-" +:+ nl)) with ("--" +:+ nl).
    rewrite rmatch_seq, rmatch_lit_app.
    rewrite rmatch_seq, rmatch_group, rmatch_star.
    apply lazy_star_first.
    + rewrite slength_app. lia.
    + apply all_chars_any.
    + intros v1 v2 Hsplit Hv2. apply rmatch_lit_None.
      apply (Hbody v1 v2 Hsplit Hv2).
    + rewrite consumed_app.
      rewrite <- (sapp_nil_r END_MARK) at 2. rewrite rmatch_lit_app.
      reflexivity.
Qed.

Lemma one_block_shape path content :
  one_block path content
  = String "-" "-FILE:"
    +:+ String " " (path +:+ String " "
                      (("--" +:+ nl) +:+ ((content +:+ nl) +:+ END_MARK))).
Proof.
  unfold one_block, END_MARK.
  change ("--FILE: " +:+ ?t) with ("--FILE:" +:+ String " " t).
  change (" --" +:+ ?t) with (String " " ("--" +:+ t)).
  rewrite !sapp_assoc. reflexivity.
Qed.

Lemma split_first_head l s : split_first l (l +:+ s) = Some ("", s).
Proof.
  pose proof (strip_prefix_app l s) as H.
  destruct (l +:+ s); cbn [split_first]; rewrite H; reflexivity.
Qed.

(** The pattern on a text made of one block: one match, whose groups are
    the path and the content with its line end. *)
Lemma blocks_one_block path content :
  no_space path = true -> path <> "" ->
  contains content END_MARK = false ->
  blocks (one_block path content) = [(path, strip content)].
Proof.
  intros Hpath Hne Hcontent.
  unfold blocks, BLOCK_RE.
  change "--FILE:" with (String "-" "-FILE:").
  erewrite (finditer_single "-" "-FILE:" _ (one_block path content) ""
              _ _ [(2, content +:+ nl); (1, path)] "").
  - cbn [map]. unfold grp. cbn [m_groups group Nat.eqb].
    rewrite (strip_no_space _ Hpath).
    change nl with (String (ascii_of_nat 10) "").
    rewrite strip_app_space by reflexivity. reflexivity.
  - rewrite one_block_shape. apply split_first_head.
  - symmetry. apply sapp_nil_r.
  - apply block_tail_match; [exact Hpath | exact Hne |].
    intros v1 v2 Hsplit Hv2.
    apply (marker_not_in_suffix content END_MARK (ascii_of_nat 10) END_MARK
             Hcontent eq_refl v1 v2 Hsplit Hv2).
  - reflexivity.
Qed.

(** A text without the opening literal holds no block. *)
Lemma blocks_without_marker text :
  contains text "--FILE:" = false -> blocks text = [].
Proof.
  intros H. unfold blocks, finditer. rewrite scan_fuel_eq. cbn [scan].
  unfold BLOCK_RE.
  rewrite (search_from_lit_None _ _ _ (split_first_None_contains _ _ H)).
  reflexivity.
Qed.

Section Parse.
Context {W : Type} (env : Py.Env W).
Import Py LanggraphApp PyFacts.

Lemma fold_updates_lookup (bs : list (string * string)) :
  forall (m0 : gmap string string) rel,
    fold_left (fun updates '(rel, xml) => <[rel := xml]> updates) bs m0 !! rel
    = match last_block rel bs with
      | Some xml => Some xml
      | None => m0 !! rel
      end.
Proof.
  induction bs as [|[k v] bs IH] using rev_ind; intros m0 rel.
  - reflexivity.
  - rewrite fold_left_app. cbn [fold_left].
    unfold last_block. rewrite filter_app, filter_cons, filter_nil. cbn [fst].
    destruct (decide (k = rel)) as [->|Hne].
    + rewrite lookup_insert_eq, last_snoc. reflexivity.
    + rewrite lookup_insert_ne by exact Hne. rewrite List.app_nil_r. apply IH.
Qed.

(** The parse files every block under its path, the last one winning, and
    files nothing else. *)
Lemma parse_updates_lookup preview rel :
  parse_updates preview !! rel = last_block rel (blocks preview).
Proof.
  unfold parse_updates. rewrite fold_updates_lookup, lookup_empty.
  destruct (last_block rel (blocks preview)); reflexivity.
Qed.

Lemma parse_updates_no_block preview :
  blocks preview = [] -> parse_updates preview = ∅.
Proof. unfold parse_updates. intros ->. reflexivity. Qed.

Lemma parse_updates_one_block path content :
  no_space path = true -> path <> "" ->
  contains content END_MARK = false ->
  parse_updates (one_block path content) = {[ path := strip content ]}.
Proof.
  intros Hp Hne Hc. unfold parse_updates.
  rewrite (blocks_one_block path content Hp Hne Hc). cbn [fold_left].
  apply insert_empty.
Qed.

(** The rewrite step completes whenever its files can be read and the
    service answers: parsing the answer cannot fail. *)
Lemma upgrade_ai_node_run state (st : store W) root text st1 preview w' :
  uploaded_file_path state = Some root ->
  csprojs_text env state root st = (Ok text, st1) ->
  chat_create env (world st1) (upgrade_prompt state +:+ (nl +:+ nl) +:+ text) 3500
  = (Some (Some preview), w') ->
  upgrade_ai_node env state st
  = (Ok (set_csproj_updates (parse_updates preview)
           (set_upgrade_preview preview state)),
     Store w'
       (log st1 ++ [ChatCreate (upgrade_prompt state +:+ (nl +:+ nl) +:+ text) 3500])).
Proof.
  intros Hroot Htext Hchat. unfold upgrade_ai_node, get_root.
  rewrite Hroot. cbn [ok_or]. rewrite bind_ret_l.
  rewrite (bind_ok_intro _ _ _ _ _ Htext).
  unfold bind, chat. rewrite Hchat. reflexivity.
Qed.

End Parse.
End BlockFacts.

(** ** The repackager *)


Module RepackFacts.
Import PyStr Re Py FileUtils StrSpec RepackSpec PyFacts StrFacts ReFacts ScanOne.

(** The substitution on a descriptor whose first opening tag starts a
    one-line element, with no opening tag behind it. *)
Lemma retarget_single orig pre rest v post repl :
  split_first OPEN_TAG orig = Some (pre, rest) ->
  split_first CLOSE_TAG rest = Some (v, post) ->
  has_char (ascii_of_nat 10) v = false ->
  contains post OPEN_TAG = false ->
  sub_literal TARGET_RE repl orig = pre +:+ repl +:+ post.
Proof.
  intros Hopen Hclose Hline Hpost.
  pose proof (split_first_Some _ _ _ _ Hclose) as Hrest.
  unfold sub_literal, TARGET_RE.
  change "<TargetFramework>" with (String "<" "TargetFramework>").
  erewrite (finditer_single "<" "TargetFramework>" _ orig pre rest
              (v +:+ CLOSE_TAG) [] post).
  - reflexivity.
  - exact Hopen.
  - rewrite Hrest, sapp_assoc. reflexivity.
  - rewrite Hrest. rewrite rmatch_seq, rmatch_star.
    apply lazy_star_first.
    + rewrite slength_app. lia.
    + apply all_chars_dot. exact Hline.
    + intros v1 v2 Hsplit Hv2. apply rmatch_lit_None.
      apply (split_first_earlier _ _ _ _ Hclose v1 v2 Hsplit Hv2).
    + apply rmatch_lit_app.
  - apply split_first_None_contains. exact Hpost.
Qed.

Section WithEnv.
Context {W : Type} (env : Env W) (root : string)
  (updates : gmap string string) (target : string).
Hypothesis target_plain : has_char backslash target = false.
Context (zpath : string).

Lemma re_sub_plain orig :
  re_sub TARGET_RE (OPEN_TAG +:+ target +:+ CLOSE_TAG) orig
  = Some (sub_literal TARGET_RE (element target) orig).
Proof.
  unfold re_sub, element.
  assert (H : has_char backslash (OPEN_TAG +:+ target +:+ CLOSE_TAG) = false).
  { rewrite !has_char_app, target_plain. reflexivity. }
  rewrite H. reflexivity.
Qed.

(** The substitution of a plain target never consults the template engine. *)
Lemma re_sub_call_plain orig (st : store W) :
  re_sub_call env TARGET_RE (OPEN_TAG +:+ target +:+ CLOSE_TAG) orig st
  = (Ok (sub_literal TARGET_RE (element target) orig), st).
Proof.
  unfold re_sub_call, re_sub_result. rewrite re_sub_plain. reflexivity.
Qed.

Lemma zip_add_ok name data (st : store W) u st' :
  zip_add env zpath name data st = (Ok u, st') ->
  zip_write env zpath name data = true /\ st' = st.
Proof.
  unfold zip_add. destruct (zip_write env zpath name data).
  - intros H. apply ret_ok_inv in H as [_ ->]. split; reflexivity.
  - discriminate.
Qed.

Lemma zip_add_intro name data (st : store W) :
  zip_write env zpath name data = true ->
  zip_add env zpath name data st = (Ok tt, st).
Proof. unfold zip_add. intros ->. reflexivity. Qed.

(** A member the repackager produced is the member asked for, and the
    archive took it. *)
Lemma repackage_file_written r f (st : store W) e st' :
  repackage_file env zpath root updates target r f st = (Ok e, st') ->
  written env root updates target (r, f) e /\ st' = st.
Proof.
  unfold repackage_file, written. cbn [fst snd].
  destruct (updates !! _) as [content|] eqn:Hupd.
  - intros H. apply bind_ok_inv in H as (u & st1 & Hadd & H).
    apply zip_add_ok in Hadd as [_ ->].
    apply ret_ok_inv in H as [-> ->]. auto.
  - destruct (endswith _ ".csproj").
    + intros H. apply bind_ok_inv in H as (orig & st1 & Hread & H).
      apply ok_or_ok_inv in Hread as [Hread ->].
      fold OPEN_TAG CLOSE_TAG in H.
      rewrite (bind_ok_intro _ _ _ _ _ (re_sub_call_plain orig st)) in H.
      apply bind_ok_inv in H as (u & st1 & Hadd & H).
      apply zip_add_ok in Hadd as [_ ->].
      apply ret_ok_inv in H as [-> ->].
      split; [|reflexivity]. split; [reflexivity|].
      exists orig. split; [exact Hread | reflexivity].
    + intros H. apply bind_ok_inv in H as (bytes & st1 & Hread & H).
      apply ok_or_ok_inv in Hread as [Hread ->].
      apply bind_ok_inv in H as (u & st1 & Hadd & H).
      apply zip_add_ok in Hadd as [_ ->].
      apply ret_ok_inv in H as [-> ->]. auto.
Qed.

(** The archive took every member the repackager produced. *)
Lemma repackage_file_stored r f (st : store W) e st' :
  repackage_file env zpath root updates target r f st = (Ok e, st') ->
  zip_write env zpath e.1 e.2 = true.
Proof.
  unfold repackage_file.
  destruct (updates !! _) as [content|] eqn:Hupd.
  - intros H. apply bind_ok_inv in H as (u & st1 & Hadd & H).
    apply zip_add_ok in Hadd as [Hw ->].
    apply ret_ok_inv in H as [-> _]. exact Hw.
  - destruct (endswith _ ".csproj").
    + intros H. apply bind_ok_inv in H as (orig & st1 & Hread & H).
      apply ok_or_ok_inv in Hread as [Hread ->].
      fold OPEN_TAG CLOSE_TAG in H.
      rewrite (bind_ok_intro _ _ _ _ _ (re_sub_call_plain orig st)) in H.
      apply bind_ok_inv in H as (u & st1 & Hadd & H).
      apply zip_add_ok in Hadd as [Hw ->].
      apply ret_ok_inv in H as [-> _]. exact Hw.
    + intros H. apply bind_ok_inv in H as (bytes & st1 & Hread & H).
      apply ok_or_ok_inv in Hread as [Hread ->].
      apply bind_ok_inv in H as (u & st1 & Hadd & H).
      apply zip_add_ok in Hadd as [Hw ->].
      apply ret_ok_inv in H as [-> _]. exact Hw.
Qed.

(** A file that can be served gets its member when the archive takes it. *)
Lemma repackage_file_servable r f (st : store W) :
  (forall name data, zip_write env zpath name data = true) ->
  servable env root updates (r, f) ->
  exists e, repackage_file env zpath root updates target r f st = (Ok e, st).
Proof.
  intros Hzip. unfold repackage_file, servable. cbn [fst snd].
  destruct (updates !! _) as [content|].
  - intros _. eexists.
    rewrite (bind_ok_intro _ _ _ _ _ (zip_add_intro _ _ st (Hzip _ _))).
    reflexivity.
  - destruct (endswith _ ".csproj"); intros [x Hx]; rewrite Hx; cbn [ok_or].
    + rewrite bind_ret_l. fold OPEN_TAG CLOSE_TAG.
      rewrite (bind_ok_intro _ _ _ _ _ (re_sub_call_plain x st)).
      eexists.
      rewrite (bind_ok_intro _ _ _ _ _ (zip_add_intro _ _ st (Hzip _ _))).
      reflexivity.
    + rewrite bind_ret_l. eexists.
      rewrite (bind_ok_intro _ _ _ _ _ (zip_add_intro _ _ st (Hzip _ _))).
      reflexivity.
Qed.

Local Abbreviation add_member r :=
  (fun (z : list zip_entry) (f : string) =>
     bind (repackage_file env zpath root updates target r f)
       (fun e => @ret W _ (z ++ [e]))).

Lemma inner_loop_written r fs : forall z0 (st : store W) z st',
  for_each fs (add_member r) z0 st = (Ok z, st') ->
  exists es,
    z = z0 ++ es
    /\ Forall2 (written env root updates target) (map (fun f => (r, f)) fs) es
    /\ st' = st.
Proof.
  induction fs as [|f fs IH]; intros z0 st z st' H.
  - apply ret_ok_inv in H as [-> ->]. exists []. rewrite List.app_nil_r.
    repeat split. constructor.
  - cbn [for_each] in H. apply bind_ok_inv in H as (z1 & st1 & Hf & Hrest).
    cbn beta in Hf.
    apply bind_ok_inv in Hf as (e & st2 & He & Hret).
    apply ret_ok_inv in Hret as [-> ->].
    apply repackage_file_written in He as [He ->].
    destruct (IH _ _ _ _ Hrest) as (es & -> & Hes & ->).
    exists (e :: es). rewrite <- List.app_assoc. repeat split.
    cbn [map]. constructor; assumption.
Qed.

Lemma inner_loop_servable r fs : forall z0 (st : store W),
  (forall name data, zip_write env zpath name data = true) ->
  Forall (servable env root updates) (map (fun f => (r, f)) fs) ->
  exists z, for_each fs (add_member r) z0 st = (Ok z, st).
Proof.
  induction fs as [|f fs IH]; intros z0 st Hzip Hall.
  - eexists. reflexivity.
  - cbn [map] in Hall. apply Forall_cons in Hall as [Hf Hall].
    destruct (repackage_file_servable r f st Hzip Hf) as (e & He).
    destruct (IH (z0 ++ [e]) st Hzip Hall) as (z & Hz).
    exists z. cbn [for_each].
    erewrite bind_ok_intro; [exact Hz|].
    erewrite bind_ok_intro; [reflexivity | exact He].
Qed.

Local Abbreviation add_directory :=
  (fun (z : list zip_entry) '((r, fs) : string * list string) =>
     for_each fs (add_member r) z).

Lemma outer_loop_written walk : forall z0 (st : store W) z st',
  for_each walk add_directory z0 st = (Ok z, st') ->
  exists es,
    z = z0 ++ es
    /\ Forall2 (written env root updates target) (files_of walk) es
    /\ st' = st.
Proof.
  induction walk as [|[r fs] walk IH]; intros z0 st z st' H.
  - apply ret_ok_inv in H as [-> ->]. exists []. rewrite List.app_nil_r.
    repeat split. constructor.
  - cbn [for_each] in H. apply bind_ok_inv in H as (z1 & st1 & Hd & Hrest).
    cbn beta iota in Hd.
    apply inner_loop_written in Hd as (es1 & -> & Hes1 & ->).
    destruct (IH _ _ _ _ Hrest) as (es2 & -> & Hes2 & ->).
    exists (es1 ++ es2). rewrite List.app_assoc. repeat split.
    unfold files_of. cbn [flat_map]. apply Forall2_app; assumption.
Qed.

Lemma inner_loop_stored r fs : forall z0 (st : store W) z st',
  for_each fs (add_member r) z0 st = (Ok z, st') ->
  exists es,
    z = z0 ++ es
    /\ Forall (fun e : zip_entry => zip_write env zpath e.1 e.2 = true) es.
Proof.
  induction fs as [|f fs IH]; intros z0 st z st' H.
  - apply ret_ok_inv in H as [-> ->]. exists []. rewrite List.app_nil_r.
    split; [reflexivity | constructor].
  - cbn [for_each] in H. apply bind_ok_inv in H as (z1 & st1 & Hf & Hrest).
    cbn beta in Hf.
    apply bind_ok_inv in Hf as (e & st2 & He & Hret).
    apply ret_ok_inv in Hret as [-> ->].
    apply repackage_file_stored in He.
    destruct (IH _ _ _ _ Hrest) as (es & -> & Hes).
    exists (e :: es). rewrite <- List.app_assoc.
    split; [reflexivity | constructor; assumption].
Qed.

(** The archive took every member of a completed walk. *)
Lemma outer_loop_stored walk : forall z0 (st : store W) z st',
  for_each walk add_directory z0 st = (Ok z, st') ->
  exists es,
    z = z0 ++ es
    /\ Forall (fun e : zip_entry => zip_write env zpath e.1 e.2 = true) es.
Proof.
  induction walk as [|[r fs] walk IH]; intros z0 st z st' H.
  - apply ret_ok_inv in H as [-> ->]. exists []. rewrite List.app_nil_r.
    split; [reflexivity | constructor].
  - cbn [for_each] in H. apply bind_ok_inv in H as (z1 & st1 & Hd & Hrest).
    cbn beta iota in Hd.
    apply inner_loop_stored in Hd as (es1 & -> & Hes1).
    destruct (IH _ _ _ _ Hrest) as (es2 & -> & Hes2).
    exists (es1 ++ es2). rewrite List.app_assoc.
    split; [reflexivity | apply Forall_app; split; assumption].
Qed.

Lemma outer_loop_servable walk : forall z0 (st : store W),
  (forall name data, zip_write env zpath name data = true) ->
  Forall (servable env root updates) (files_of walk) ->
  exists z, for_each walk add_directory z0 st = (Ok z, st).
Proof.
  induction walk as [|[r fs] walk IH]; intros z0 st Hzip Hall.
  - eexists. reflexivity.
  - unfold files_of in Hall. cbn [flat_map] in Hall.
    apply Forall_app in Hall as [H1 H2].
    destruct (inner_loop_servable r fs z0 st Hzip H1) as (z1 & Hz1).
    destruct (IH z1 st Hzip H2) as (z & Hz).
    exists z. cbn [for_each].
    erewrite bind_ok_intro; [exact Hz | exact Hz1].
Qed.

End WithEnv.

Section AnyTarget.
Context {W : Type} (env : Env W) (root : string)
  (updates : gmap string string) (target : string) (zpath : string).

Lemma re_sub_call_ok orig (st : store W) upd st' :
  re_sub_call env TARGET_RE (OPEN_TAG +:+ target +:+ CLOSE_TAG) orig st
  = (Ok upd, st') ->
  re_sub_result env TARGET_RE (element target) orig = Some upd /\ st' = st.
Proof.
  unfold re_sub_call, element. intros H.
  apply ok_or_ok_inv in H as [H ->]. split; [exact H | reflexivity].
Qed.

Lemma re_sub_call_intro orig (st : store W) upd :
  re_sub_result env TARGET_RE (element target) orig = Some upd ->
  re_sub_call env TARGET_RE (OPEN_TAG +:+ target +:+ CLOSE_TAG) orig st
  = (Ok upd, st).
Proof.
  unfold re_sub_call, element. intros ->. reflexivity.
Qed.

(** A member the repackager produced, for any target: it is the member
    asked for, and the archive took it. *)
Lemma repackage_file_via_sub r f (st : store W) e st' :
  repackage_file env zpath root updates target r f st = (Ok e, st') ->
  written_via_sub env root updates target (r, f) e
  /\ zip_write env zpath e.1 e.2 = true
  /\ st' = st.
Proof.
  unfold repackage_file, written_via_sub. cbn [fst snd].
  destruct (updates !! _) as [content|] eqn:Hupd.
  - intros H. apply bind_ok_inv in H as (u & st1 & Hadd & H).
    apply zip_add_ok in Hadd as [Hw ->].
    apply ret_ok_inv in H as [-> ->]. auto.
  - destruct (endswith _ ".csproj").
    + intros H. apply bind_ok_inv in H as (orig & st1 & Hread & H).
      apply ok_or_ok_inv in Hread as [Hread ->].
      fold OPEN_TAG CLOSE_TAG in H.
      apply bind_ok_inv in H as (upd & st1 & Hsub & H).
      apply re_sub_call_ok in Hsub as [Hsub ->].
      apply bind_ok_inv in H as (u & st1 & Hadd & H).
      apply zip_add_ok in Hadd as [Hw ->].
      apply ret_ok_inv in H as [-> ->].
      split; [|split; [exact Hw | reflexivity]]. split; [reflexivity|].
      exists orig. split; [exact Hread | exact Hsub].
    + intros H. apply bind_ok_inv in H as (bytes & st1 & Hread & H).
      apply ok_or_ok_inv in Hread as [Hread ->].
      apply bind_ok_inv in H as (u & st1 & Hadd & H).
      apply zip_add_ok in Hadd as [Hw ->].
      apply ret_ok_inv in H as [-> ->]. auto.
Qed.

(** A file that can be served gets its member when the archive takes it,
    for any target. *)
Lemma repackage_file_servable_via_sub r f (st : store W) :
  (forall name data, zip_write env zpath name data = true) ->
  servable_via_sub env root updates target (r, f) ->
  exists e, repackage_file env zpath root updates target r f st = (Ok e, st).
Proof.
  intros Hzip. unfold repackage_file, servable_via_sub. cbn [fst snd].
  destruct (updates !! _) as [content|].
  - intros _. eexists.
    rewrite (bind_ok_intro _ _ _ _ _ (zip_add_intro env zpath _ _ st (Hzip _ _))).
    reflexivity.
  - destruct (endswith _ ".csproj").
    + intros (orig & Hread & [upd Hsub]). rewrite Hread. cbn [ok_or].
      rewrite bind_ret_l. fold OPEN_TAG CLOSE_TAG.
      rewrite (bind_ok_intro _ _ _ _ _ (re_sub_call_intro orig st upd Hsub)).
      eexists.
      rewrite (bind_ok_intro _ _ _ _ _
                 (zip_add_intro env zpath _ _ st (Hzip _ _))).
      reflexivity.
    + intros [x Hx]. rewrite Hx. cbn [ok_or].
      rewrite bind_ret_l. eexists.
      rewrite (bind_ok_intro _ _ _ _ _
                 (zip_add_intro env zpath _ _ st (Hzip _ _))).
      reflexivity.
Qed.

Local Abbreviation add_member r :=
  (fun (z : list zip_entry) (f : string) =>
     bind (repackage_file env zpath root updates target r f)
       (fun e => @ret W _ (z ++ [e]))).

Lemma inner_loop_via_sub r fs : forall z0 (st : store W) z st',
  for_each fs (add_member r) z0 st = (Ok z, st') ->
  exists es,
    z = z0 ++ es
    /\ Forall2 (written_via_sub env root updates target)
         (map (fun f => (r, f)) fs) es
    /\ Forall (fun e : zip_entry => zip_write env zpath e.1 e.2 = true) es
    /\ st' = st.
Proof.
  induction fs as [|f fs IH]; intros z0 st z st' H.
  - apply ret_ok_inv in H as [-> ->]. exists []. rewrite List.app_nil_r.
    repeat split; constructor.
  - cbn [for_each] in H. apply bind_ok_inv in H as (z1 & st1 & Hf & Hrest).
    cbn beta in Hf.
    apply bind_ok_inv in Hf as (e & st2 & He & Hret).
    apply ret_ok_inv in Hret as [-> ->].
    apply repackage_file_via_sub in He as (He & Hw & ->).
    destruct (IH _ _ _ _ Hrest) as (es & -> & Hes & Hws & ->).
    exists (e :: es). rewrite <- List.app_assoc. repeat split.
    + cbn [map]. constructor; assumption.
    + constructor; assumption.
Qed.

Lemma inner_loop_servable_via_sub r fs : forall z0 (st : store W),
  (forall name data, zip_write env zpath name data = true) ->
  Forall (servable_via_sub env root updates target)
    (map (fun f => (r, f)) fs) ->
  exists z, for_each fs (add_member r) z0 st = (Ok z, st).
Proof.
  induction fs as [|f fs IH]; intros z0 st Hzip Hall.
  - eexists. reflexivity.
  - cbn [map] in Hall. apply Forall_cons in Hall as [Hf Hall].
    destruct (repackage_file_servable_via_sub r f st Hzip Hf) as (e & He).
    destruct (IH (z0 ++ [e]) st Hzip Hall) as (z & Hz).
    exists z. cbn [for_each].
    erewrite bind_ok_intro; [exact Hz|].
    erewrite bind_ok_intro; [reflexivity | exact He].
Qed.

Local Abbreviation add_directory :=
  (fun (z : list zip_entry) '((r, fs) : string * list string) =>
     for_each fs (add_member r) z).

Lemma outer_loop_via_sub walk : forall z0 (st : store W) z st',
  for_each walk add_directory z0 st = (Ok z, st') ->
  exists es,
    z = z0 ++ es
    /\ Forall2 (written_via_sub env root updates target) (files_of walk) es
    /\ Forall (fun e : zip_entry => zip_write env zpath e.1 e.2 = true) es
    /\ st' = st.
Proof.
  induction walk as [|[r fs] walk IH]; intros z0 st z st' H.
  - apply ret_ok_inv in H as [-> ->]. exists []. rewrite List.app_nil_r.
    repeat split; constructor.
  - cbn [for_each] in H. apply bind_ok_inv in H as (z1 & st1 & Hd & Hrest).
    cbn beta iota in Hd.
    apply inner_loop_via_sub in Hd as (es1 & -> & Hes1 & Hw1 & ->).
    destruct (IH _ _ _ _ Hrest) as (es2 & -> & Hes2 & Hw2 & ->).
    exists (es1 ++ es2). rewrite List.app_assoc. repeat split.
    + unfold files_of. cbn [flat_map]. apply Forall2_app; assumption.
    + apply Forall_app. split; assumption.
Qed.

Lemma outer_loop_servable_via_sub walk : forall z0 (st : store W),
  (forall name data, zip_write env zpath name data = true) ->
  Forall (servable_via_sub env root updates target) (files_of walk) ->
  exists z, for_each walk add_directory z0 st = (Ok z, st).
Proof.
  induction walk as [|[r fs] walk IH]; intros z0 st Hzip Hall.
  - eexists. reflexivity.
  - unfold files_of in Hall. cbn [flat_map] in Hall.
    apply Forall_app in Hall as [H1 H2].
    destruct (inner_loop_servable_via_sub r fs z0 st Hzip H1) as (z1 & Hz1).
    destruct (IH z1 st Hzip H2) as (z & Hz).
    exists z. cbn [for_each].
    erewrite bind_ok_intro; [exact Hz | exact Hz1].
Qed.

End AnyTarget.

Section Archive.
Context {W : Type} (env : Env W) (root : string)
  (updates : gmap string string) (target : string).

Local Abbreviation archive_path :=
  (path_join (gettempdir env) ("AI_Upgraded_" +:+ target +:+ ".zip")).

Local Abbreviation add_all :=
  (fun (z : list zip_entry) '((r, fs) : string * list string) =>
     for_each fs
       (fun (z : list zip_entry) (f : string) =>
          bind (repackage_file env archive_path root updates target r f)
            (fun e => @ret W _ (z ++ [e])))
       z).

(** The repackager: the archive is opened, then the loops run. *)
Lemma create_upgraded_zip_loops (st : store W) :
  create_upgraded_zip env root updates target st
  = bind (zip_open env archive_path)
      (fun _ =>
         bind (for_each (os_walk env root) add_all [])
           (fun z => ret (archive_path, z))) st.
Proof. reflexivity. Qed.

(** A completed run opened the archive and ran the loops. *)
Lemma create_upgraded_zip_ok (st : store W) zpath z st' :
  create_upgraded_zip env root updates target st = (Ok (zpath, z), st') ->
  zip_create env archive_path = true
  /\ zpath = archive_path
  /\ for_each (os_walk env root) add_all [] st = (Ok z, st').
Proof.
  rewrite create_upgraded_zip_loops. unfold zip_open.
  destruct (zip_create env archive_path); [|discriminate].
  rewrite bind_ret_l. intros H.
  apply bind_ok_inv in H as (z1 & st1 & Hloop & Hret).
  apply ret_ok_inv in Hret as [Hret ->]. inversion Hret; subst.
  repeat split. exact Hloop.
Qed.

(** With the archive open, the repackager is its loops. *)
Lemma create_upgraded_zip_opened (st : store W) :
  zip_create env archive_path = true ->
  create_upgraded_zip env root updates target st
  = bind (for_each (os_walk env root) add_all [])
      (fun z => ret (archive_path, z)) st.
Proof.
  intros Hopen. rewrite create_upgraded_zip_loops. unfold zip_open.
  rewrite Hopen. reflexivity.
Qed.

(** Without the archive nothing is read: the repackager raises at once. *)
Lemma create_upgraded_zip_closed (st : store W) :
  zip_create env archive_path = false ->
  create_upgraded_zip env root updates target st
  = (Raise (OSError archive_path), st).
Proof.
  intros Hopen. rewrite create_upgraded_zip_loops. unfold zip_open, bind.
  rewrite Hopen. reflexivity.
Qed.

End Archive.
End RepackFacts.

(** ** The scenario of one descriptor *)

Module RepackScenario.
Import PyStr Re Py FileUtils StrSpec RepackSpec PyFacts StrFacts ReFacts ScanOne
  BlockFacts RepackFacts.

(** A marker whose first character does not occur in [v] occurs first
    behind [v]. *)
Lemma split_first_fresh a l v rest :
  has_char a v = false ->
  split_first (String a l) (v +:+ String a l +:+ rest) = Some (v, rest).
Proof.
  induction v as [|b v IH]; intros Hv.
  - rewrite sapp_nil_l. apply split_first_head.
  - cbn [has_char] in Hv. apply orb_false_elim in Hv as [Hb Hv].
    rewrite sapp_cons. cbn [split_first strip_prefix].
    rewrite Ascii.eqb_sym, Hb. rewrite (IH Hv). reflexivity.
Qed.

(** A marker whose first character does not come back inside it, and which
    does not occur in [pre], occurs first behind [pre]. *)
Lemma split_first_clean a l pre rest :
  has_char a l = false ->
  contains pre (String a l) = false ->
  split_first (String a l) (pre +:+ String a l +:+ rest) = Some (pre, rest).
Proof.
  intros Hl. induction pre as [|b pre IH]; intros Hpre.
  - rewrite sapp_nil_l. apply split_first_head.
  - cbn [contains] in Hpre. apply orb_false_elim in Hpre as [Hhead Hpre].
    assert (Hno : strip_prefix (String a l)
                    (String b pre +:+ String a l +:+ rest) = None).
    { destruct (strip_prefix (String a l) (String b pre +:+ String a l +:+ rest))
        as [r|] eqn:E; [exfalso | reflexivity].
      apply strip_prefix_app_cases in E as [(r' & Hr')|(m2 & Hm & Hm2)].
      - unfold startswith in Hhead. rewrite Hr' in Hhead. discriminate Hhead.
      - destruct m2 as [|c m2].
        + rewrite sapp_nil_r in Hm. unfold startswith in Hhead.
          rewrite Hm in Hhead.
          pose proof (strip_prefix_app (String b pre) "") as Hs.
          rewrite sapp_nil_r in Hs. rewrite Hs in Hhead. discriminate Hhead.
        + rewrite sapp_cons in Hm, Hm2. cbn [strip_prefix] in Hm2.
          destruct (Ascii.eqb_spec c a) as [->|]; [|discriminate Hm2].
          inversion Hm as [[Hb Hl']]. rewrite Hl', has_char_app in Hl.
          cbn [has_char] in Hl. rewrite <- Hb in Hl.
          rewrite Ascii.eqb_refl, orb_true_r in Hl. discriminate Hl. }
    rewrite sapp_cons in Hno |- *. cbn [split_first]. rewrite Hno.
    rewrite (IH Hpre). reflexivity.
Qed.

Section WithEnv.
Context {W : Type} (env : Env W).

(** The scenario of one descriptor and no replacement, for any text around
    the declared element and any target without escapes, when the archive
    can be created and takes its member. *)
Lemma one_descriptor_retargeted root target r f pre post (st : store W) :
  has_char backslash target = false ->
  zip_create env
    (path_join (gettempdir env) ("AI_Upgraded_" +:+ target +:+ ".zip")) = true ->
  (forall name data,
      zip_write env
        (path_join (gettempdir env) ("AI_Upgraded_" +:+ target +:+ ".zip"))
        name data = true) ->
  os_walk env root = [(r, [f])] ->
  endswith (os_path_relpath env (path_join r f) root) ".csproj" = true ->
  fs_open_read env (path_join r f)
  = Some (pre +:+ element "net6.0" +:+ post) ->
  contains pre OPEN_TAG = false ->
  contains post OPEN_TAG = false ->
  create_upgraded_zip env root ∅ target st
  = (Ok (path_join (gettempdir env) ("AI_Upgraded_" +:+ target +:+ ".zip"),
         [(os_path_relpath env (path_join r f) root,
           pre +:+ element target +:+ post)]),
     st).
Proof.
  intros Htarget Hcreate Hzip Hwalk Hext Hread Hpre Hpost.
  set (zpath := path_join (gettempdir env)
                  ("AI_Upgraded_" +:+ target +:+ ".zip")) in *.
  assert (Hopen : split_first OPEN_TAG (pre +:+ element "net6.0" +:+ post)
                  = Some (pre, "net6.0" +:+ CLOSE_TAG +:+ post)).
  { unfold element. rewrite sapp_assoc.
    apply (split_first_clean "<" "TargetFramework>"); [reflexivity | exact Hpre]. }
  assert (Hsub : sub_literal TARGET_RE (element target)
                   (pre +:+ element "net6.0" +:+ post)
                 = pre +:+ element target +:+ post).
  { apply (retarget_single _ pre _ "net6.0" post (element target) Hopen).
    - unfold CLOSE_TAG.
      apply (split_first_fresh "<" "/TargetFramework>" "net6.0" post).
      reflexivity.
    - reflexivity.
    - exact Hpost. }
  assert (Hfile : repackage_file env zpath root ∅ target r f st
                  = (Ok (os_path_relpath env (path_join r f) root,
                         pre +:+ element target +:+ post), st)).
  { unfold repackage_file. rewrite lookup_empty, Hext, Hread. cbn [ok_or].
    rewrite bind_ret_l. fold OPEN_TAG CLOSE_TAG.
    rewrite (bind_ok_intro _ _ _ _ _
               (re_sub_call_plain env target Htarget _ st)).
    rewrite Hsub.
    rewrite (bind_ok_intro _ _ _ _ _
               (zip_add_intro env zpath _ _ st (Hzip _ _))).
    reflexivity. }
  rewrite (create_upgraded_zip_opened env root ∅ target st Hcreate).
  rewrite Hwalk. cbn [for_each].
  fold zpath. unfold bind. rewrite Hfile. reflexivity.
Qed.

End WithEnv.
End RepackScenario.

(** ** The orchestrator *)


Module OrchestratorFacts.
Import PyStr Py NugetHelper LanggraphApp Orchestrator PyFacts.

Section WithEnv.
Context {W : Type} (env : Env W).

Lemma run_sequential_steps state (st : store W) :
  run_sequential env state st = run_steps (steps env) state st.
Proof. reflexivity. Qed.

(** A list of steps stops at the first one that raises. *)
Lemma run_steps_raise pre f post state (st : store W) s1 st1 e st2 :
  run_steps pre state st = (Ok s1, st1) ->
  f s1 st1 = (Raise e, st2) ->
  run_steps (pre ++ f :: post) state st = (Raise e, st2).
Proof.
  intros Hpre Hf. unfold run_steps in *.
  rewrite for_each_app. rewrite (bind_ok_intro _ _ _ _ _ Hpre).
  cbn [for_each]. apply bind_raise_intro. exact Hf.
Qed.

(** The executor on a path of the graph runs the functions registered under
    the names of the path, one after the other. *)
Lemma run_from_chain (g : graph_t) : forall names fns fuel state (st : store W),
  Forall2 (fun n f => dict_get n (g_nodes g) = Some f) names fns ->
  linked g names ->
  names <> [] ->
  length names <= fuel ->
  run_from g fuel (hd "" names) state st = run_steps fns state st.
Proof.
  induction names as [|a names IH]; intros fns fuel state st Hnodes Hlinked Hne Hfuel;
    [contradiction|].
  destruct fuel as [|fuel]; [cbn in Hfuel; lia|].
  apply Forall2_cons_inv_l in Hnodes as (f & fns' & Hf & Hnodes & ->).
  cbn [hd run_from]. rewrite Hf. cbn [ok_or]. rewrite bind_ret_l.
  unfold run_steps. cbn [for_each]. unfold bind at 1 2.
  destruct (f state st) as [[s1|e] st1]; [|reflexivity].
  destruct names as [|b names].
  - cbn [linked] in Hlinked. rewrite Hlinked.
    apply Forall2_nil_inv_l in Hnodes as ->. reflexivity.
  - cbn [linked] in Hlinked. destruct Hlinked as [Hab Hrest]. rewrite Hab.
    apply (IH fns' fuel s1 st1 Hnodes Hrest); [discriminate|].
    cbn [length] in Hfuel |- *. lia.
Qed.

(** What [run_graph_invoke] does with an executor that raised. *)
Lemma run_graph_invoke_fallback graph_obj state (st : store W) e st1 :
  graph_obj state st = (Raise e, st1) ->
  run_graph_invoke env graph_obj state st = run_sequential env state st1.
Proof. unfold run_graph_invoke, try_except. intros ->. reflexivity. Qed.

Lemma run_graph_invoke_done graph_obj state (st : store W) r st1 :
  graph_obj state st = (Ok r, st1) ->
  run_graph_invoke env graph_obj state st = (Ok r, st1).
Proof. unfold run_graph_invoke, try_except. intros ->. reflexivity. Qed.

End WithEnv.
End OrchestratorFacts.

(** ** Completed runs *)

Module RunFacts.
Import Py LanggraphApp PyFacts.

(** A state handed back by the run function was computed by a sequential
    run of the seven steps, from the store the run started in or from the
    one a failed attempt of the executor left. *)
Lemma run_graph_invoke_complete {W} (env : Env W) initial_state
    (st : store W) final st' :
  run_graph_invoke env (invoke (graph env)) initial_state st = (Ok final, st') ->
  exists st0, run_sequential env initial_state st0 = (Ok final, st').
Proof.
  unfold run_graph_invoke, try_except.
  change (invoke (graph env) initial_state st)
    with (run_sequential env initial_state st).
  destruct (run_sequential env initial_state st) as [[s|e] st1] eqn:E.
  - intros H. inversion H; subst. exists st. exact E.
  - intros H. exists st1. exact H.
Qed.

End RunFacts.

(** ** The keys of the report and of the updates *)


Module KeyFacts.
Import PyStr Re Py NugetHelper LanggraphApp Blocks ScanSpec BlockSpec
  PyFacts DictFacts ScanFacts BlockFacts.

Lemma record_package_keys name ver lat pkgs k :
  In k (map fst (record_package name ver lat pkgs)) ->
  In k (map fst pkgs) \/ k = name.
Proof.
  unfold record_package. rewrite dict_update_keys, dict_setdefault_keys.
  destruct (dict_get name pkgs); [auto|].
  rewrite in_app_iff. cbn. intros [H|[H|[]]]; auto.
Qed.

Section WithEnv.
Context {W : Type} (env : Env W).

(** The keys of the report are names of scanned references. *)
Lemma scan_refs_keys state refs : forall pkgs (st : store W) pkgs' st' k,
  scan_refs env state refs pkgs st = (Ok pkgs', st') ->
  In k (map fst pkgs') ->
  In k (map fst pkgs) \/ In k (map fst refs).
Proof.
  induction refs as [|[n v] refs IH]; intros pkgs st pkgs' st' k Hrun Hk.
  - apply ret_ok_inv in Hrun as [-> _]. auto.
  - apply scan_refs_cons_inv in Hrun as (lat & st1 & _ & Hrest).
    destruct (IH _ _ _ _ k Hrest Hk) as [H|H].
    + apply record_package_keys in H as [H| ->]; [auto|].
      right. left. reflexivity.
    + right. right. exact H.
Qed.

(** The keys of the updates are paths of recognized blocks. *)
Lemma last_block_is_Some rel bs :
  is_Some (last_block rel bs) <-> In rel (map fst bs).
Proof.
  unfold last_block. induction bs as [|[k v] bs IH] using rev_ind.
  - cbn. split; [intros [x Hx]; discriminate Hx | intros []].
  - rewrite filter_app, filter_cons, filter_nil, map_app, in_app_iff.
    cbn [fst map In].
    destruct (decide (k = rel)) as [->|Hne].
    + rewrite last_snoc. cbn. split; [auto | intros _; eexists; reflexivity].
    + rewrite List.app_nil_r, IH. split; [auto|].
      intros [H|[H|[]]]; [exact H | contradiction].
Qed.

Lemma parse_updates_dom preview k :
  k ∈ dom (parse_updates preview) <-> In k (map fst (blocks preview)).
Proof.
  rewrite elem_of_dom, parse_updates_lookup. apply last_block_is_Some.
Qed.

(** What each node leaves behind when it completes. *)
Lemma upload_node_inv state (st : store W) state' st' :
  upload_node env state st = (Ok state', st') ->
  exists root,
    uploaded_file_path state = Some root
    /\ state' = set_csproj_paths (collect_csproj_files env root) state.
Proof.
  unfold upload_node, get_root. intros H.
  apply bind_ok_inv in H as (root & st1 & Hroot & H).
  apply ok_or_ok_inv in Hroot as [Hroot ->].
  apply ret_ok_inv in H as [-> _]. exists root. auto.
Qed.

Lemma detect_feeds_node_inv state (st : store W) state' st' :
  detect_feeds_node env state st = (Ok state', st') ->
  exists feeds, state' = set_private_feeds feeds state.
Proof.
  unfold detect_feeds_node. intros H.
  apply bind_ok_inv in H as (root & st1 & _ & H).
  apply bind_ok_inv in H as (feeds & st2 & _ & H).
  apply ret_ok_inv in H as [-> _]. exists feeds. reflexivity.
Qed.

Lemma generate_jwt_node_inv state (st : store W) state' st' :
  generate_jwt_node env state st = (Ok state', st') ->
  exists tokens, state' = set_feed_tokens tokens state.
Proof.
  unfold generate_jwt_node. intros H.
  apply bind_ok_inv in H as (tokens & st1 & _ & H).
  apply ret_ok_inv in H as [-> _]. exists tokens. reflexivity.
Qed.

Lemma analyze_ai_node_inv state (st : store W) state' st' :
  analyze_ai_node env state st = (Ok state', st') ->
  exists content, state' = set_analysis_report content state.
Proof.
  unfold analyze_ai_node. intros H.
  apply bind_ok_inv in H as (root & st1 & _ & H).
  apply bind_ok_inv in H as (text & st2 & _ & H).
  apply bind_ok_inv in H as (content & st3 & _ & H).
  apply ret_ok_inv in H as [-> _]. exists content. reflexivity.
Qed.

Lemma upgrade_ai_node_inv state (st : store W) state' st' :
  upgrade_ai_node env state st = (Ok state', st') ->
  exists preview,
    state' = set_csproj_updates (parse_updates preview)
               (set_upgrade_preview preview state).
Proof.
  unfold upgrade_ai_node. intros H.
  apply bind_ok_inv in H as (root & st1 & _ & H).
  apply bind_ok_inv in H as (text & st2 & _ & H).
  apply bind_ok_inv in H as (answer & st3 & _ & H).
  destruct answer as [preview|]; [|discriminate H].
  apply ret_ok_inv in H as [-> _]. exists preview. reflexivity.
Qed.

(** After the upload step the scan reads the collected descriptors. *)
Lemma scanned_paths_collected state root :
  csproj_paths state = Some (collect_csproj_files env root) ->
  scanned_paths env state root = collect_csproj_files env root.
Proof.
  unfold scanned_paths. intros ->.
  destruct (collect_csproj_files env root); reflexivity.
Qed.

(** A completed run: where the report and the updates come from. *)
Lemma run_sequential_inv initial_state (st : store W) final st' :
  run_sequential env initial_state st = (Ok final, st') ->
  exists root report preview st_scan st_scanned,
    uploaded_file_path initial_state = Some root
    /\ package_report final = Some report
    /\ upgrade_preview final = Some preview
    /\ csproj_updates final = Some (parse_updates preview)
    /\ scan_refs env
         (set_feed_tokens (default ∅ (feed_tokens final))
            (set_private_feeds (default [] (private_feeds final))
               (set_csproj_paths (collect_csproj_files env root) initial_state)))
         (references env (collect_csproj_files env root)) [] st_scan
       = (Ok report, st_scanned).
Proof.
  unfold run_sequential. intros H.
  apply bind_ok_inv in H as (s1 & st1 & H1 & H).
  apply bind_ok_inv in H as (s2 & st2 & H2 & H).
  apply bind_ok_inv in H as (s3 & st3 & H3 & H).
  apply bind_ok_inv in H as (s4 & st4 & H4 & H).
  apply bind_ok_inv in H as (s5 & st5 & H5 & H).
  apply bind_ok_inv in H as (s6 & st6 & H6 & H).
  apply bind_ok_inv in H as (s7 & st7 & H7 & H).
  apply ret_ok_inv in H as [-> ->].
  apply ret_ok_inv in H7 as [-> ->].
  apply upload_node_inv in H1 as (root & Hroot & ->).
  apply detect_feeds_node_inv in H2 as (feeds & ->).
  apply generate_jwt_node_inv in H3 as (tokens & ->).
  apply scan_packages_node_inv in H4 as (root' & pkgs & Hroot' & -> & Hscan).
  apply analyze_ai_node_inv in H5 as (content & ->).
  apply upgrade_ai_node_inv in H6 as (preview & ->).
  cbn in Hroot'. rewrite Hroot in Hroot'. inversion Hroot'; subst root'.
  rewrite scanned_paths_collected in Hscan by reflexivity.
  exists root, pkgs, preview, st3, st4.
  repeat split; try reflexivity; try exact Hroot. exact Hscan.
Qed.

End WithEnv.
End KeyFacts.

(** ** The diff extractor of the stand-alone variant *)

Module DiffFacts.
Import PyStr Re Blocks N StrSpec BlockSpec DiffSpec StrFacts ReFacts ScanOne
  BlockFacts RepackScenario.

Lemma strip_prefix_app_l m s1 s2 r :
  strip_prefix m s1 = Some r -> strip_prefix m (s1 +:+ s2) = Some (r +:+ s2).
Proof.
  intros H. apply strip_prefix_Some in H. rewrite H, sapp_assoc.
  apply strip_prefix_app.
Qed.

Lemma contains_prefix (s1 s2 m : string) :
  contains (s1 +:+ s2) m = false -> contains s1 m = false.
Proof.
  induction s1 as [|a s1 IH].
  - rewrite sapp_nil_l. cbn [contains]. unfold startswith. intros H.
    destruct (strip_prefix m "") as [r|] eqn:E; [|reflexivity].
    apply (strip_prefix_app_l _ _ s2) in E. rewrite sapp_nil_l in E.
    apply contains_head in H. rewrite H in E. discriminate E.
  - rewrite sapp_cons. cbn [contains]. unfold startswith. intros H.
    apply orb_false_elim in H as [Hh Ht]. rewrite (IH Ht), orb_false_r.
    destruct (strip_prefix m (String a s1)) as [r|] eqn:E; [|reflexivity].
    apply (strip_prefix_app_l _ _ s2) in E. rewrite sapp_cons in E.
    rewrite E in Hh. discriminate Hh.
Qed.

Lemma lstrip_suffix s : exists t, s = t +:+ lstrip s.
Proof.
  induction s as [|a s [t IH]]; [exists ""; reflexivity|].
  cbn [lstrip]. destruct (is_space a).
  - exists (String a t). rewrite sapp_cons. f_equal. exact IH.
  - exists "". reflexivity.
Qed.

Lemma rstrip_prefix s : exists t, s = rstrip s +:+ t.
Proof.
  induction s as [|a s [t IH]]; [exists ""; reflexivity|].
  cbn [rstrip]. destruct (rstrip s) as [|b r] eqn:E.
  - destruct (is_space a).
    + exists (String a s). reflexivity.
    + exists s. reflexivity.
  - exists t. rewrite sapp_cons. f_equal. exact IH.
Qed.

(** Stripping brings no marker in. *)
Lemma contains_strip s m : contains s m = false -> contains (strip s) m = false.
Proof.
  intros H. unfold strip.
  destruct (lstrip_suffix s) as [t Ht]. rewrite Ht in H.
  apply contains_suffix in H.
  destruct (rstrip_prefix (lstrip s)) as [u Hu]. rewrite Hu in H.
  apply contains_prefix in H. exact H.
Qed.

Lemma rstrip_app_nonspace s a :
  is_space a = false -> rstrip (s +:+ String a "") = s +:+ String a "".
Proof.
  intros Ha. induction s as [|b s IH].
  - rewrite sapp_nil_l. cbn [rstrip]. rewrite Ha. reflexivity.
  - rewrite sapp_cons. cbn [rstrip]. rewrite IH.
    destruct (s +:+ String a "") eqn:E; [|reflexivity].
    destruct s; rewrite ?sapp_nil_l, ?sapp_cons in E; discriminate E.
Qed.

Lemma strip_tagged old new : strip (tagged old new) = tagged old new.
Proof.
  unfold strip, tagged.
  change ("<before>" +:+ ?t) with (String "<" ("before>" +:+ t)).
  cbn [lstrip]. change (is_space "<") with false. cbn iota.
  change (String "<" ("before>" +:+ ?t)) with ("<before>" +:+ t).
  change "</after>" with ("</after" +:+ String ">" "").
  rewrite <- !sapp_assoc. apply rstrip_app_nonspace. reflexivity.
Qed.

(** A section: behind its opening tag, the group runs to the first closing
    tag. *)
Lemma search_section a l close pre body rest text :
  split_first (String a l) text = Some (pre, body +:+ close +:+ rest) ->
  split_first close (body +:+ close +:+ rest) = Some (body, rest) ->
  grp 1 <$> search (Seq (Lit (String a l))
                      (Seq (Group 1 (Star false (Class cls_any))) (Lit close))) text
  = Some body.
Proof.
  intros Hopen Hclose. unfold search.
  rewrite (search_from_lit_first (String a l) _ text pre
             (body +:+ close +:+ rest) [(1, body)] rest Hopen).
  - reflexivity.
  - rewrite rmatch_seq, rmatch_group, rmatch_star.
    apply lazy_star_first.
    + rewrite slength_app. lia.
    + apply all_chars_any.
    + intros v1 v2 Hsplit Hv2. apply rmatch_lit_None.
      apply (split_first_earlier _ _ _ _ Hclose v1 v2 Hsplit Hv2).
    + rewrite consumed_app. apply rmatch_lit_app.
Qed.

(** The extractor of [n.py] on one block with both sections. *)
Lemma extract_diffs_tagged path old new :
  no_space path = true -> path <> "" ->
  contains (tagged old new) END_MARK = false ->
  contains old "</before>" = false ->
  contains ("<before>" +:+ old +:+ "</before>") "<after>" = false ->
  contains new "</after>" = false ->
  extract_diffs_from_markdown (one_block path (tagged old new))
  = [(path, strip old, strip new)].
Proof.
  intros Hpath Hne Hend Hold Hmid Hnew.
  unfold extract_diffs_from_markdown.
  rewrite (blocks_one_block path _ Hpath Hne Hend), strip_tagged.
  cbn [flat_map]. rewrite List.app_nil_r. unfold diff_of_block.
  assert (Hb : grp 1 <$> search BEFORE_RE (tagged old new) = Some old).
  { apply (search_section "<" "before>" "</before>" ""
             old ("<after>" +:+ new +:+ "</after>")).
    - apply split_first_head.
    - apply (split_first_clean "<" "/before>"); [reflexivity | exact Hold]. }
  assert (Ha : grp 1 <$> search AFTER_RE (tagged old new) = Some new).
  { apply (search_section "<" "after>" "</after>"
             ("<before>" +:+ old +:+ "</before>") new "").
    - unfold tagged. rewrite <- !sapp_assoc. rewrite !sapp_assoc.
      rewrite <- (sapp_assoc "<before>"), <- (sapp_assoc ("<before>" +:+ old)).
      rewrite (sapp_assoc "<before>" old).
      apply (split_first_clean "<" "after>"); [reflexivity | exact Hmid].
    - apply (split_first_clean "<" "/after>"); [reflexivity | exact Hnew]. }
  destruct (search BEFORE_RE (tagged old new)) as [mb|]; [|discriminate Hb].
  destruct (search AFTER_RE (tagged old new)) as [ma|]; [|discriminate Ha].
  cbn in Hb, Ha. inversion Hb as [Hb']. inversion Ha as [Ha'].
  reflexivity.
Qed.

(** A block without one of the sections adds nothing. *)
Lemma extract_diffs_missing path content :
  no_space path = true -> path <> "" ->
  contains content END_MARK = false ->
  contains content "<before>" = false \/ contains content "<after>" = false ->
  extract_diffs_from_markdown (one_block path content) = [].
Proof.
  intros Hpath Hne Hend Hmiss.
  unfold extract_diffs_from_markdown.
  rewrite (blocks_one_block path _ Hpath Hne Hend).
  cbn [flat_map]. rewrite List.app_nil_r. unfold diff_of_block, search.
  destruct Hmiss as [H|H]; apply contains_strip in H;
    apply split_first_None_contains in H.
  - unfold BEFORE_RE. rewrite (search_from_lit_None _ _ _ H). reflexivity.
  - unfold AFTER_RE at 1. rewrite (search_from_lit_None "<after>" _ _ H).
    destruct (search_from BEFORE_RE false (strip content)); reflexivity.
Qed.

End DiffFacts.

(** ** The embedding at work on small inputs *)

Module Checks.
Import PyStr Re Py NugetHelper FileUtils Blocks LanggraphApp.

(** The scanner reports empty matches the way [re] does since Python 3.7:
    [re.findall(r'\s*', 'a b')] is the list of four matches below. *)
Example scan_empty_matches :
  map m_text (finditer (Star true (Class cls_space)) "a b") = [""; " "; ""; ""].
Proof. vm_compute. reflexivity. Qed.

Example lazy_group_takes_least :
  grp 1 <$> search (Seq (Lit "<") (Seq (Group 1 (Star false (Class cls_any)))
                                     (Lit ">"))) "<a><b>"
  = Some "a".
Proof. vm_compute. reflexivity. Qed.

Example greedy_group_takes_most :
  grp 1 <$> search (Seq (Lit "<") (Seq (Group 1 (Star true (Class cls_any)))
                                     (Lit ">"))) "<a><b>"
  = Some "a><b".
Proof. vm_compute. reflexivity. Qed.

(** Without [re.S] the dot stops at a line end: an element spread over two
    lines is not matched. *)
Example dot_stops_at_line_end :
  search TARGET_RE ("<TargetFramework>net6.0" +:+ nl +:+ "</TargetFramework>")
  = None.
Proof. vm_compute. reflexivity. Qed.

Example strip_both_ends :
  strip (String (ascii_of_nat 9) " a b " +:+ nl) = "a b".
Proof. vm_compute. reflexivity. Qed.

Example feeds_of_sample_config :
  findall1 FEED_RE Samples.feed_config = ["https://corp.example/nuget"].
Proof. vm_compute. reflexivity. Qed.

Example references_of_sample_descriptor :
  findall2 PKG_RE Samples.twice_descriptor
  = [("Dup", "1.0"); ("Other", "5.0"); ("Dup", "2.0")].
Proof. vm_compute. reflexivity. Qed.

(** A reference without a version attribute is passed over. *)
Example reference_without_version :
  findall2 PKG_RE ("<PackageReference Include=" +:+ dq +:+ "Lonely" +:+ dq +:+ " />")
  = [].
Proof. vm_compute. reflexivity. Qed.

(** Without a feed typed in by the user, the feed of the configuration file
    is discovered. *)
Example discovery_without_user_feed :
  (detect_feeds_node Samples.healthy_env (Samples.initial "/p" "net8.0")
     Samples.start).1
  = Ok (set_private_feeds ["https://corp.example/nuget"]
          (Samples.initial "/p" "net8.0")).
Proof. vm_compute. reflexivity. Qed.

(** Two blocks for one path: the later one is kept. *)
Example later_block_wins :
  parse_updates (BlockSpec.one_block "a.csproj" "one" +:+ nl
                 +:+ BlockSpec.one_block "a.csproj" "two")
  = {[ "a.csproj" := "two" ]}.
Proof. vm_compute. reflexivity. Qed.

End Checks.
(** * The specification, statement by statement *)

(** C1. The executor on the registered graph and the sequential run of the
    seven node functions (upload, detect_feeds, gen_jwt, scan_pkgs,
    analyze_ai, upgrade_ai, final) give the same outcome, final state and
    world, from every initial state and every world. The run function
    therefore hands back the state of the sequential run whichever strategy
    it takes: the executor's when the executor completes, the fallback's
    when the executor is not usable. *)
Theorem graph_and_sequential_agree :
  forall W (env : Py.Env W) (initial_state : LanggraphApp.UpgradeState)
         (st : Py.store W),
    LanggraphApp.invoke (LanggraphApp.graph env) initial_state st
    = LanggraphApp.run_sequential env initial_state st
    /\ LanggraphApp.run_graph_invoke env
         (LanggraphApp.invoke (LanggraphApp.graph env)) initial_state st
       = Py.try_except (LanggraphApp.run_sequential env initial_state)
           (LanggraphApp.run_sequential env initial_state) st
    /\ LanggraphApp.run_graph_invoke env Orchestrator.no_executor
         initial_state st
       = LanggraphApp.run_sequential env initial_state st.
Proof.
  intros W env initial_state st. split; [|split; reflexivity].
  rewrite OrchestratorFacts.run_sequential_steps.
  unfold LanggraphApp.invoke. cbn [LanggraphApp.graph LanggraphApp.g_entry
    LanggraphApp.set_entry_point LanggraphApp.add_edge LanggraphApp.add_node
    Py.ok_or].
  rewrite PyFacts.bind_ret_l.
  apply (OrchestratorFacts.run_from_chain (LanggraphApp.graph env)
           ["upload"; "detect_feeds"; "gen_jwt"; "scan_pkgs"; "analyze_ai";
            "upgrade_ai"; "final"]).
  - unfold Orchestrator.steps. repeat constructor.
  - cbn [Orchestrator.linked]. repeat split.
  - discriminate.
  - unfold LanggraphApp.recursion_limit. cbn [length]. lia.
Qed.

(** C2, as stated, fails. In a world whose completion service fails once,
    the analysis step raises while the executor runs the graph; the run
    function catches that exception, runs the seven steps again, and hands
    back a completed state. *)
Lemma step_exception_is_caught :
  match Orchestrator.run_steps
          [LanggraphApp.upload_node (Samples.flaky_env 2);
           LanggraphApp.detect_feeds_node (Samples.flaky_env 2);
           LanggraphApp.generate_jwt_node (Samples.flaky_env 2);
           LanggraphApp.scan_packages_node (Samples.flaky_env 2)]
          (Samples.initial "/p" "net8.0") Samples.start with
  | (Py.Ok s4, st4) =>
      (LanggraphApp.analyze_ai_node (Samples.flaky_env 2) s4 st4).1
      = Py.Raise Py.ServiceError
  | (Py.Raise _, _) => False
  end
  /\ (LanggraphApp.invoke (LanggraphApp.graph (Samples.flaky_env 2))
        (Samples.initial "/p" "net8.0") Samples.start).1
     = Py.Raise Py.ServiceError
  /\ match LanggraphApp.run_graph_invoke (Samples.flaky_env 2)
             (LanggraphApp.invoke (LanggraphApp.graph (Samples.flaky_env 2)))
             (Samples.initial "/p" "net8.0") Samples.start with
     | (Py.Ok final, _) =>
         LanggraphApp.analysis_report final
         = Some (Some Samples.rewrite_answer)
         /\ LanggraphApp.upgrade_preview final = Some Samples.rewrite_answer
     | (Py.Raise _, _) => False
     end
  /\ ~ Orchestrator.step_exceptions_propagate (Samples.flaky_env 2).
Proof.
  split; [vm_compute; reflexivity|].
  split; [vm_compute; reflexivity|].
  split; [vm_compute; split; reflexivity|].
  intros Hspec.
  destruct (Hspec (Samples.initial "/p" "net8.0") Samples.start
              Py.ServiceError
              (LanggraphApp.invoke (LanggraphApp.graph (Samples.flaky_env 2))
                 (Samples.initial "/p" "net8.0") Samples.start).2)
    as (e' & st2 & Hraise).
  - vm_compute. reflexivity.
  - vm_compute in Hraise. discriminate Hraise.
Qed.

(** C2, amended. An exception raised while the executor runs is caught by
    the run function, which then runs the seven steps sequentially; an
    exception raised by a step of that sequential run is not caught: it is
    the outcome of the run, and no state is returned. *)
Theorem fallback_exception_propagates :
  forall W (env : Py.Env W)
         (graph_obj : LanggraphApp.UpgradeState -> Py.M W LanggraphApp.UpgradeState)
         (initial_state : LanggraphApp.UpgradeState) (st : Py.store W)
         e0 st1 pre f post s1 st2 e st3,
    graph_obj initial_state st = (Py.Raise e0, st1) ->
    Orchestrator.steps env = pre ++ f :: post ->
    Orchestrator.run_steps pre initial_state st1 = (Py.Ok s1, st2) ->
    f s1 st2 = (Py.Raise e, st3) ->
    LanggraphApp.run_graph_invoke env graph_obj initial_state st
    = (Py.Raise e, st3).
Proof.
  intros W env graph_obj initial_state st e0 st1 pre f post s1 st2 e st3
    Hexec Hsplit Hpre Hf.
  rewrite (OrchestratorFacts.run_graph_invoke_fallback env _ _ _ _ _ Hexec).
  rewrite OrchestratorFacts.run_sequential_steps, Hsplit.
  eapply OrchestratorFacts.run_steps_raise; eassumption.
Qed.

Lemma fallback_exception_propagates_witness :
  LanggraphApp.run_graph_invoke Samples.unreadable_env
    (LanggraphApp.invoke (LanggraphApp.graph Samples.unreadable_env))
    (Samples.initial "/p" "net8.0") Samples.start
  = (Py.Raise (Py.OSError "/p/A.csproj"), Py.Store 0 []).
Proof.
  eapply (fallback_exception_propagates nat Samples.unreadable_env
            (LanggraphApp.invoke (LanggraphApp.graph Samples.unreadable_env))
            (Samples.initial "/p" "net8.0") Samples.start
            (Py.OSError "/p/A.csproj") (Py.Store 0 [])
            [LanggraphApp.upload_node Samples.unreadable_env;
             LanggraphApp.detect_feeds_node Samples.unreadable_env;
             LanggraphApp.generate_jwt_node Samples.unreadable_env]
            (LanggraphApp.scan_packages_node Samples.unreadable_env)
            [LanggraphApp.analyze_ai_node Samples.unreadable_env;
             LanggraphApp.upgrade_ai_node Samples.unreadable_env;
             LanggraphApp.final_node]).
  - vm_compute. reflexivity.
  - reflexivity.
  - vm_compute. reflexivity.
  - vm_compute. reflexivity.
Defined.

(** C3, as stated, fails. In the sample world the run completes; the report
    is keyed by the package name Newtonsoft.Json, which is the path of no
    file of the tree, and the updates are keyed by /etc/hosts, the path the
    service wrote in its block, which is not relative. *)
Lemma keys_are_not_paths_under_root :
  Samples.healthy_run.1 = Py.Ok Samples.healthy_final
  /\ LanggraphApp.package_report Samples.healthy_final
     = Some [("Newtonsoft.Json", Py.PkgInfo "12.0.1" (Some "13.0.3"))]
  /\ ~ PathSpec.names_file Samples.healthy_env "/p" "Newtonsoft.Json"
  /\ LanggraphApp.csproj_updates Samples.healthy_final
     = Some {[ "/etc/hosts" := "<Project />" ]}
  /\ PathSpec.relative_under_root "/etc/hosts" = false
  /\ ~ PathSpec.keys_relative_under_root Samples.healthy_final.
Proof.
  assert (Hupd : LanggraphApp.csproj_updates Samples.healthy_final
                 = Some {[ "/etc/hosts" := "<Project />" ]})
    by (vm_compute; reflexivity).
  split; [vm_compute; reflexivity|].
  split; [vm_compute; reflexivity|].
  split; [vm_compute; intros [H|[H|[]]]; discriminate H|].
  split; [exact Hupd|].
  split; [vm_compute; reflexivity|].
  intros [_ Hkeys].
  specialize (Hkeys "/etc/hosts"). rewrite Hupd in Hkeys.
  cbn [default from_option id] in Hkeys.
  rewrite dom_singleton_L in Hkeys.
  specialize (Hkeys ltac:(apply elem_of_singleton; reflexivity)).
  vm_compute in Hkeys. discriminate Hkeys.
Qed.

(** C3, amended. After every complete run, every key of [package_report] is
    a package name, the Include attribute of a reference matched in one of
    the collected descriptors, and the keys of [csproj_updates] are exactly
    the stripped paths of the blocks recognized in [upgrade_preview]. *)
Theorem keys_are_names_and_block_paths :
  forall W (env : Py.Env W) (initial_state final : LanggraphApp.UpgradeState)
         (st st' : Py.store W),
    LanggraphApp.run_graph_invoke env
      (LanggraphApp.invoke (LanggraphApp.graph env)) initial_state st
    = (Py.Ok final, st') ->
    exists root report preview updates,
      LanggraphApp.uploaded_file_path initial_state = Some root
      /\ LanggraphApp.package_report final = Some report
      /\ LanggraphApp.upgrade_preview final = Some preview
      /\ LanggraphApp.csproj_updates final = Some updates
      /\ (forall k, In k (map fst report) ->
            In k (map fst (ScanSpec.references env
                             (NugetHelper.collect_csproj_files env root))))
      /\ (forall k, k ∈ dom updates <-> In k (map fst (Blocks.blocks preview))).
Proof.
  intros W env initial_state final st st' Hrun.
  apply RunFacts.run_graph_invoke_complete in Hrun as (st0 & Hrun).
  apply KeyFacts.run_sequential_inv in Hrun
    as (root & report & preview & st_scan & st_scanned
        & Hroot & Hreport & Hpreview & Hupdates & Hscan).
  exists root, report, preview, (LanggraphApp.parse_updates preview).
  repeat (split; [assumption|]). split.
  - intros k Hk.
    destruct (KeyFacts.scan_refs_keys env _ _ _ _ _ _ k Hscan Hk) as [[]|H].
    exact H.
  - intros k. apply KeyFacts.parse_updates_dom.
Qed.

Lemma keys_are_names_and_block_paths_witness :
  exists root report preview updates,
    LanggraphApp.uploaded_file_path (Samples.initial "/p" "net8.0") = Some root
    /\ LanggraphApp.package_report Samples.healthy_final = Some report
    /\ LanggraphApp.upgrade_preview Samples.healthy_final = Some preview
    /\ LanggraphApp.csproj_updates Samples.healthy_final = Some updates
    /\ (forall k, In k (map fst report) ->
          In k (map fst (ScanSpec.references Samples.healthy_env
                           (NugetHelper.collect_csproj_files Samples.healthy_env
                              root))))
    /\ (forall k, k ∈ dom updates <-> In k (map fst (Blocks.blocks preview))).
Proof.
  apply (keys_are_names_and_block_paths nat Samples.healthy_env
           (Samples.initial "/p" "net8.0") Samples.healthy_final Samples.start
           Samples.healthy_run.2).
  vm_compute. reflexivity.
Defined.

(** C4. The extractor the pipeline imports returns the empty list for every
    text, also for a block with both sections, where the spec asks for the
    tuple of the path and the two texts. The extractor of the same name in
    the stand-alone variant does what the spec asks: one tuple for a block
    with both sections, nothing for a block that lacks one. *)
Theorem imported_diff_extractor_is_a_stub :
  (forall t, FileUtils.extract_diffs_from_markdown t = [])
  /\ FileUtils.extract_diffs_from_markdown
       (BlockSpec.one_block "src/A.csproj" (DiffSpec.tagged "OLD" "NEW")) = []
  /\ N.extract_diffs_from_markdown
       (BlockSpec.one_block "src/A.csproj" (DiffSpec.tagged "OLD" "NEW"))
     = [("src/A.csproj", "OLD", "NEW")]
  /\ (forall path old new,
        StrSpec.no_space path = true -> path <> "" ->
        PyStr.contains (DiffSpec.tagged old new) BlockSpec.END_MARK = false ->
        PyStr.contains old "</before>" = false ->
        PyStr.contains ("<before>" +:+ old +:+ "</before>") "<after>" = false ->
        PyStr.contains new "</after>" = false ->
        N.extract_diffs_from_markdown
          (BlockSpec.one_block path (DiffSpec.tagged old new))
        = [(path, PyStr.strip old, PyStr.strip new)])
  /\ (forall path content,
        StrSpec.no_space path = true -> path <> "" ->
        PyStr.contains content BlockSpec.END_MARK = false ->
        PyStr.contains content "<before>" = false
        \/ PyStr.contains content "<after>" = false ->
        N.extract_diffs_from_markdown (BlockSpec.one_block path content) = []).
Proof.
  split; [reflexivity|].
  split; [reflexivity|].
  split; [vm_compute; reflexivity|].
  split.
  - exact DiffFacts.extract_diffs_tagged.
  - exact DiffFacts.extract_diffs_missing.
Qed.

(** C5. For every package name, feed and token the resolver returns without
    raising, and its answer is the choice the spec words: the last version
    without a pre-release separator when the list it obtained has one, else
    the last version of that list; the private feed answers when its lookup
    succeeds, otherwise the public registry, and when both lookups fail the
    answer is absent. The two lists of the spec give 1.2.0 and 2.0.0-rc1. *)
Theorem resolve_latest_prefers_stable :
  (forall W (env : Py.Env W) package_name feed_url token (st : Py.store W),
      exists v st',
        NugetHelper.get_latest_nuget_version_for_feed env package_name feed_url
          token st = (Py.Ok v, st')
        /\ ResolverSpec.resolved env package_name feed_url token (Py.world st) v)
  /\ NugetHelper.pick_latest ["1.0.0"; "1.1.0-beta"; "1.2.0"] = Some "1.2.0"
  /\ NugetHelper.pick_latest ["2.0.0-rc1"] = Some "2.0.0-rc1"
  /\ (NugetHelper.get_latest_nuget_version_for_feed Samples.example_env "Mixed"
        None None Samples.start).1 = Py.Ok (Some "1.2.0")
  /\ (NugetHelper.get_latest_nuget_version_for_feed Samples.example_env "OnlyRc"
        None None Samples.start).1 = Py.Ok (Some "2.0.0-rc1")
  /\ (NugetHelper.get_latest_nuget_version_for_feed Samples.example_env "Unknown"
        (Some "https://feed.example") None Samples.start).1 = Py.Ok None.
Proof.
  split; [intros; apply ResolverFacts.get_latest_run|].
  repeat split; vm_compute; reflexivity.
Qed.

(** C6. The parse of a rewrite response files every recognized block under
    its stripped path, a later block replacing an earlier one of the same
    path, and files nothing else. A response made of one well-formed block
    yields the one entry of that block: for [src/A.csproj] with content [X]
    the mapping is [{src/A.csproj: X}]. A response without recognized block
    yields the empty mapping, and the step completes: it is no error. *)
Theorem rewrite_response_parse :
  (forall preview rel xml,
      In (rel, xml) (Blocks.blocks preview) ->
      is_Some (LanggraphApp.parse_updates preview !! rel))
  /\ (forall preview rel,
        LanggraphApp.parse_updates preview !! rel
        = BlockSpec.last_block rel (Blocks.blocks preview))
  /\ (forall path content,
        StrSpec.no_space path = true -> path <> "" ->
        PyStr.contains content BlockSpec.END_MARK = false ->
        LanggraphApp.parse_updates (BlockSpec.one_block path content)
        = {[ path := PyStr.strip content ]})
  /\ LanggraphApp.parse_updates (BlockSpec.one_block "src/A.csproj" "X")
     = {[ "src/A.csproj" := "X" ]}
  /\ (forall preview,
        Blocks.blocks preview = [] -> LanggraphApp.parse_updates preview = ∅)
  /\ (forall preview,
        PyStr.contains preview "--FILE:" = false ->
        LanggraphApp.parse_updates preview = ∅)
  /\ (forall W (env : Py.Env W) state (st : Py.store W) root text st1 preview w',
        LanggraphApp.uploaded_file_path state = Some root ->
        LanggraphApp.csprojs_text env state root st = (Py.Ok text, st1) ->
        Py.chat_create env (Py.world st1)
          (LanggraphApp.upgrade_prompt state +:+ (PyStr.nl +:+ PyStr.nl) +:+ text)
          3500 = (Some (Some preview), w') ->
        exists state' st',
          LanggraphApp.upgrade_ai_node env state st = (Py.Ok state', st')
          /\ LanggraphApp.upgrade_preview state' = Some preview
          /\ LanggraphApp.csproj_updates state'
             = Some (LanggraphApp.parse_updates preview)).
Proof.
  split.
  { intros preview rel xml Hin. rewrite BlockFacts.parse_updates_lookup.
    apply KeyFacts.last_block_is_Some. apply in_map_iff.
    exists (rel, xml). split; [reflexivity | exact Hin]. }
  split; [exact BlockFacts.parse_updates_lookup|].
  split; [exact BlockFacts.parse_updates_one_block|].
  split; [apply (BlockFacts.parse_updates_one_block "src/A.csproj" "X");
          [reflexivity | discriminate | reflexivity]|].
  split; [exact BlockFacts.parse_updates_no_block|].
  split.
  - intros preview H. apply BlockFacts.parse_updates_no_block.
    apply BlockFacts.blocks_without_marker. exact H.
  - intros W env state st root text st1 preview w' Hroot Htext Hchat.
    eexists _, _. split.
    + apply (BlockFacts.upgrade_ai_node_run env state st root text st1 preview w'
               Hroot Htext Hchat).
    + split; reflexivity.
Qed.

Lemma rewrite_response_parse_witness :
  LanggraphApp.parse_updates
    (BlockSpec.one_block "src/My.App/My.App.csproj" "<Project Sdk='x' />")
  = {[ "src/My.App/My.App.csproj" := "<Project Sdk='x' />" ]}.
Proof.
  apply (proj1 (proj2 (proj2 rewrite_response_parse))
           "src/My.App/My.App.csproj" "<Project Sdk='x' />").
  - reflexivity.
  - discriminate.
  - reflexivity.
Defined.

(** C7, as stated, fails. A descriptor stored with CR LF line ends is
    archived with LF line ends: the copy is the text that text mode reads
    from the file, the declared value replaced, and not the file with the
    declared value replaced. And for the target net8.0/x, with every file of
    the tree readable, nothing is written: the archive cannot be created in
    the temporary directory, and the repackager raises. *)
Lemma repackager_reads_text_and_needs_the_archive :
  Py.fs_read_bytes MoreSamples.crlf_env "/p/A.csproj"
  = Some (MoreSamples.lined_descriptor MoreSamples.crlf "net6.0")
  /\ FileUtils.create_upgraded_zip MoreSamples.crlf_env "/p" ∅ "net8.0"
       Samples.start
     = (Py.Ok ("/tmp/AI_Upgraded_net8.0.zip",
               [("A.csproj", MoreSamples.lined_descriptor PyStr.nl "net8.0")]),
        Samples.start)
  /\ MoreSamples.lined_descriptor PyStr.nl "net8.0"
     <> MoreSamples.lined_descriptor MoreSamples.crlf "net8.0"
  /\ PyStr.has_char FileUtils.backslash "net8.0/x" = false
  /\ Forall (RepackSpec.servable Samples.single_env "/p" ∅)
       (RepackSpec.files_of (Py.os_walk Samples.single_env "/p"))
  /\ FileUtils.create_upgraded_zip Samples.single_env "/p" ∅ "net8.0/x"
       Samples.start
     = (Py.Raise (Py.OSError "/tmp/AI_Upgraded_net8.0/x.zip"), Samples.start).
Proof.
  split; [reflexivity|].
  split; [vm_compute; reflexivity|].
  split; [vm_compute; discriminate|].
  split; [reflexivity|].
  split; [repeat constructor; vm_compute; eexists; reflexivity|].
  vm_compute. reflexivity.
Qed.

(** C7, amended. For every tree, replacement mapping and target version
    without a backslash: when the archive AI_Upgraded_<target>.zip can be
    created in the temporary directory and takes every member, and every file
    that is not replaced can be read, the repackager completes, and the
    archive holds one member per file of the walk, in walk order, named by
    the path of the file relative to the root: the replacement verbatim when
    that path is a key of the mapping; otherwise, for a descriptor, the text
    that text mode reads from the file, with every one-line target-framework
    element replaced by the element of the target version; otherwise the
    bytes of the file. Whenever the repackager completes, the archive is that
    file, it was created, it took each of these members, and the world is as
    it was. When the archive cannot be created the repackager raises before
    any file is read. A descriptor whose text declares net6.0 once, with no
    replacement, is archived as that text declaring the target version, the
    text around the element unchanged. A target with a backslash is a
    template for the substitution: the member of a descriptor then holds
    what the substitution returns for the text read, and the repackager
    completes when, besides, the substitution accepts the template. *)
Theorem repackager_writes :
  (forall W (env : Py.Env W) root updates target (st : Py.store W),
      PyStr.has_char FileUtils.backslash target = false ->
      Py.zip_create env
        (Py.path_join (Py.gettempdir env) ("AI_Upgraded_" +:+ target +:+ ".zip"))
      = true ->
      (forall name data,
          Py.zip_write env
            (Py.path_join (Py.gettempdir env)
               ("AI_Upgraded_" +:+ target +:+ ".zip")) name data = true) ->
      Forall (RepackSpec.servable env root updates)
        (RepackSpec.files_of (Py.os_walk env root)) ->
      exists z,
        FileUtils.create_upgraded_zip env root updates target st
        = (Py.Ok (Py.path_join (Py.gettempdir env)
                    ("AI_Upgraded_" +:+ target +:+ ".zip"), z), st)
        /\ Forall2 (RepackSpec.written env root updates target)
             (RepackSpec.files_of (Py.os_walk env root)) z)
  /\ (forall W (env : Py.Env W) root updates target (st st' : Py.store W) zpath z,
        PyStr.has_char FileUtils.backslash target = false ->
        FileUtils.create_upgraded_zip env root updates target st
        = (Py.Ok (zpath, z), st') ->
        zpath = Py.path_join (Py.gettempdir env)
                  ("AI_Upgraded_" +:+ target +:+ ".zip")
        /\ Py.zip_create env zpath = true
        /\ Forall2 (RepackSpec.written env root updates target)
             (RepackSpec.files_of (Py.os_walk env root)) z
        /\ Forall (fun e : FileUtils.zip_entry =>
                     Py.zip_write env zpath e.1 e.2 = true) z
        /\ st' = st)
  /\ (forall W (env : Py.Env W) root updates target (st : Py.store W),
        Py.zip_create env
          (Py.path_join (Py.gettempdir env)
             ("AI_Upgraded_" +:+ target +:+ ".zip")) = false ->
        FileUtils.create_upgraded_zip env root updates target st
        = (Py.Raise
             (Py.OSError
                (Py.path_join (Py.gettempdir env)
                   ("AI_Upgraded_" +:+ target +:+ ".zip"))), st))
  /\ (forall orig pre rest v post target,
        StrSpec.split_first RepackSpec.OPEN_TAG orig = Some (pre, rest) ->
        StrSpec.split_first RepackSpec.CLOSE_TAG rest = Some (v, post) ->
        PyStr.has_char (ascii_of_nat 10) v = false ->
        PyStr.contains post RepackSpec.OPEN_TAG = false ->
        Re.sub_literal FileUtils.TARGET_RE (RepackSpec.element target) orig
        = pre +:+ RepackSpec.element target +:+ post)
  /\ (forall W (env : Py.Env W) root target r f pre post (st : Py.store W),
        PyStr.has_char FileUtils.backslash target = false ->
        Py.zip_create env
          (Py.path_join (Py.gettempdir env)
             ("AI_Upgraded_" +:+ target +:+ ".zip")) = true ->
        (forall name data,
            Py.zip_write env
              (Py.path_join (Py.gettempdir env)
                 ("AI_Upgraded_" +:+ target +:+ ".zip")) name data = true) ->
        Py.os_walk env root = [(r, [f])] ->
        PyStr.endswith (Py.os_path_relpath env (Py.path_join r f) root) ".csproj"
        = true ->
        Py.fs_open_read env (Py.path_join r f)
        = Some (pre +:+ RepackSpec.element "net6.0" +:+ post) ->
        PyStr.contains pre RepackSpec.OPEN_TAG = false ->
        PyStr.contains post RepackSpec.OPEN_TAG = false ->
        FileUtils.create_upgraded_zip env root ∅ target st
        = (Py.Ok (Py.path_join (Py.gettempdir env)
                    ("AI_Upgraded_" +:+ target +:+ ".zip"),
                  [(Py.os_path_relpath env (Py.path_join r f) root,
                    pre +:+ RepackSpec.element target +:+ post)]),
           st))
  /\ (forall W (env : Py.Env W) root updates target (st : Py.store W),
        Py.zip_create env
          (Py.path_join (Py.gettempdir env)
             ("AI_Upgraded_" +:+ target +:+ ".zip")) = true ->
        (forall name data,
            Py.zip_write env
              (Py.path_join (Py.gettempdir env)
                 ("AI_Upgraded_" +:+ target +:+ ".zip")) name data = true) ->
        Forall (RepackSpec.servable_via_sub env root updates target)
          (RepackSpec.files_of (Py.os_walk env root)) ->
        exists z,
          FileUtils.create_upgraded_zip env root updates target st
          = (Py.Ok (Py.path_join (Py.gettempdir env)
                      ("AI_Upgraded_" +:+ target +:+ ".zip"), z), st)
          /\ Forall2 (RepackSpec.written_via_sub env root updates target)
               (RepackSpec.files_of (Py.os_walk env root)) z)
  /\ (forall W (env : Py.Env W) root updates target (st st' : Py.store W) zpath z,
        FileUtils.create_upgraded_zip env root updates target st
        = (Py.Ok (zpath, z), st') ->
        zpath = Py.path_join (Py.gettempdir env)
                  ("AI_Upgraded_" +:+ target +:+ ".zip")
        /\ Py.zip_create env zpath = true
        /\ Forall2 (RepackSpec.written_via_sub env root updates target)
             (RepackSpec.files_of (Py.os_walk env root)) z
        /\ Forall (fun e : FileUtils.zip_entry =>
                     Py.zip_write env zpath e.1 e.2 = true) z
        /\ st' = st).
Proof.
  split; [|split; [|split; [|split; [|split; [|split]]]]].
  - intros W env root updates target st Htarget Hcreate Hzip Hall.
    destruct (RepackFacts.outer_loop_servable env root updates target Htarget
                _ (Py.os_walk env root) [] st Hzip Hall) as (z & Hz).
    exists z.
    rewrite (RepackFacts.create_upgraded_zip_opened env root updates target st
               Hcreate).
    rewrite (PyFacts.bind_ok_intro _ _ _ _ _ Hz). split; [reflexivity|].
    destruct (RepackFacts.outer_loop_written env root updates target Htarget
                _ _ _ _ _ _ Hz) as (es & -> & Hes & _).
    exact Hes.
  - intros W env root updates target st st' zpath z Htarget Hrun.
    apply RepackFacts.create_upgraded_zip_ok in Hrun as (Hcreate & -> & Hloop).
    split; [reflexivity|]. split; [exact Hcreate|].
    destruct (RepackFacts.outer_loop_written env root updates target Htarget
                _ _ _ _ _ _ Hloop) as (es & Hz & Hes & Hst).
    destruct (RepackFacts.outer_loop_stored env root updates target Htarget
                _ _ _ _ _ _ Hloop) as (es' & Hz' & Hes').
    cbn [app] in Hz, Hz'. subst. repeat split; assumption.
  - intros W env root updates target st.
    apply RepackFacts.create_upgraded_zip_closed.
  - intros orig pre rest v post target.
    apply RepackFacts.retarget_single.
  - intros W env root target r f pre post st.
    apply RepackScenario.one_descriptor_retargeted.
  - intros W env root updates target st Hcreate Hzip Hall.
    destruct (RepackFacts.outer_loop_servable_via_sub env root updates target
                _ (Py.os_walk env root) [] st Hzip Hall) as (z & Hz).
    exists z.
    rewrite (RepackFacts.create_upgraded_zip_opened env root updates target st
               Hcreate).
    rewrite (PyFacts.bind_ok_intro _ _ _ _ _ Hz). split; [reflexivity|].
    destruct (RepackFacts.outer_loop_via_sub env root updates target
                _ _ _ _ _ _ Hz) as (es & -> & Hes & _).
    exact Hes.
  - intros W env root updates target st st' zpath z Hrun.
    apply RepackFacts.create_upgraded_zip_ok in Hrun as (Hcreate & -> & Hloop).
    split; [reflexivity|]. split; [exact Hcreate|].
    destruct (RepackFacts.outer_loop_via_sub env root updates target
                _ _ _ _ _ _ Hloop) as (es & Hz & Hes & Hws & Hst).
    cbn [app] in Hz. subst. repeat split; assumption.
Qed.

Lemma repackager_writes_witness :
  (exists z,
      FileUtils.create_upgraded_zip Samples.healthy_env "/p" ∅ "net8.0"
        Samples.start
      = (Py.Ok (Py.path_join (Py.gettempdir Samples.healthy_env)
                  ("AI_Upgraded_" +:+ "net8.0" +:+ ".zip"), z), Samples.start)
      /\ Forall2 (RepackSpec.written Samples.healthy_env "/p" ∅ "net8.0")
           (RepackSpec.files_of (Py.os_walk Samples.healthy_env "/p")) z)
  /\ FileUtils.create_upgraded_zip Samples.single_env "/p" ∅ "net8.0/x"
       Samples.start
     = (Py.Raise
          (Py.OSError
             (Py.path_join (Py.gettempdir Samples.single_env)
                ("AI_Upgraded_" +:+ "net8.0/x" +:+ ".zip"))), Samples.start)
  /\ FileUtils.create_upgraded_zip Samples.single_env "/p" ∅ "net9.0-preview"
       Samples.start
     = (Py.Ok (Py.path_join (Py.gettempdir Samples.single_env)
                 ("AI_Upgraded_" +:+ "net9.0-preview" +:+ ".zip"),
               [(Py.os_path_relpath Samples.single_env
                   (Py.path_join "/p" "A.csproj") "/p",
                 "<Project><PropertyGroup>"
                 +:+ RepackSpec.element "net9.0-preview"
                 +:+ Samples.descriptor_tail)]),
        Samples.start).
Proof.
  split; [|split].
  - apply (proj1 repackager_writes nat Samples.healthy_env "/p" ∅ "net8.0"
             Samples.start).
    + reflexivity.
    + reflexivity.
    + intros name data. reflexivity.
    + repeat constructor; vm_compute; eexists; reflexivity.
  - apply (proj1 (proj2 (proj2 repackager_writes)) nat Samples.single_env "/p"
             ∅ "net8.0/x" Samples.start).
    reflexivity.
  - apply (proj1 (proj2 (proj2 (proj2 (proj2 repackager_writes)))) nat
             Samples.single_env "/p" "net9.0-preview" "/p" "A.csproj"
             "<Project><PropertyGroup>" Samples.descriptor_tail Samples.start).
    + reflexivity.
    + reflexivity.
    + intros name data. reflexivity.
    + reflexivity.
    + reflexivity.
    + reflexivity.
    + reflexivity.
    + reflexivity.
Defined.

(** The archive of the sample project, member by member. *)
Example repackage_sample_project :
  FileUtils.create_upgraded_zip Samples.healthy_env "/p" ∅ "net8.0" Samples.start
  = (Py.Ok ("/tmp/AI_Upgraded_net8.0.zip",
            [("A.csproj", Samples.descriptor_for "net8.0");
             ("NuGet.Config", Samples.feed_config)]),
     Samples.start).
Proof. vm_compute. reflexivity. Qed.

(** C8. With a non-empty [user_feed_url] the feed-detection step completes
    and [private_feeds] of the state it returns is the one-element list of
    that URL, whatever the tree holds: no file is read, the world is left as
    it was, and every other key of the state keeps its value. *)
Theorem user_feed_overrides_discovery :
  forall W (env : Py.Env W) (state : LanggraphApp.UpgradeState) root url
         (st : Py.store W),
    LanggraphApp.uploaded_file_path state = Some root ->
    LanggraphApp.user_feed_url state = Some url ->
    url <> "" ->
    exists state',
      LanggraphApp.detect_feeds_node env state st = (Py.Ok state', st)
      /\ LanggraphApp.private_feeds state' = Some [url]
      /\ LanggraphApp.uploaded_file_path state' = Some root
      /\ LanggraphApp.user_feed_url state' = Some url
      /\ LanggraphApp.feed_tokens state' = LanggraphApp.feed_tokens state
      /\ LanggraphApp.csproj_paths state' = LanggraphApp.csproj_paths state
      /\ LanggraphApp.package_report state' = LanggraphApp.package_report state
      /\ LanggraphApp.analysis_report state'
         = LanggraphApp.analysis_report state
      /\ LanggraphApp.upgrade_preview state'
         = LanggraphApp.upgrade_preview state
      /\ LanggraphApp.csproj_updates state' = LanggraphApp.csproj_updates state
      /\ LanggraphApp.target_version state' = LanggraphApp.target_version state.
Proof.
  intros W env state root url st Hroot Hurl Hne.
  exists (LanggraphApp.set_private_feeds [url] state). split.
  - unfold LanggraphApp.detect_feeds_node, LanggraphApp.get_root.
    rewrite Hroot, Hurl. cbn.
    destruct (String.eqb_spec url ""); [contradiction | reflexivity].
  - cbn. rewrite Hroot, Hurl. repeat split; reflexivity.
Qed.

Lemma user_feed_overrides_discovery_witness :
  exists state',
    LanggraphApp.detect_feeds_node Samples.healthy_env
      (Samples.initial_with_feed "/p" "net8.0" "https://mine.example/v3")
      Samples.start
    = (Py.Ok state', Samples.start)
    /\ LanggraphApp.private_feeds state' = Some ["https://mine.example/v3"]
    /\ LanggraphApp.uploaded_file_path state' = Some "/p"
    /\ LanggraphApp.target_version state' = Some "net8.0".
Proof.
  destruct (user_feed_overrides_discovery nat Samples.healthy_env
              (Samples.initial_with_feed "/p" "net8.0" "https://mine.example/v3")
              "/p" "https://mine.example/v3" Samples.start)
    as (state' & Hrun & Hfeeds & Hroot & _ & _ & _ & _ & _ & _ & _ & Htarget).
  - reflexivity.
  - reflexivity.
  - discriminate.
  - exists state'. repeat split; assumption.
Defined.

(** C9. When the private feed answers 200 with an empty version list, the
    resolver returns absent from the private-feed block: the only request it
    made is the one to the private feed, the public registry is not asked. *)
Theorem empty_private_list_stops_lookup :
  forall W (env : Py.Env W) package_name feed token (st : Py.store W) resp w1 j,
    feed <> "" ->
    Py.requests_get env (Py.world st)
      (ResolverSpec.private_url feed package_name) (ResolverSpec.bearer token)
    = (Some resp, w1) ->
    Py.status_code resp = 200 ->
    Py.json resp = Some j ->
    default [] (j !! "versions") = [] ->
    NugetHelper.get_latest_nuget_version_for_feed env package_name (Some feed)
      token st
    = (Py.Ok None,
       Py.Store w1
         (Py.log st ++ [Py.HttpGet (ResolverSpec.private_url feed package_name)
                          (ResolverSpec.bearer token)])).
Proof.
  intros W env package_name feed token st resp w1 j Hfeed Hget Hstatus Hjson Hvs.
  rewrite (ResolverFacts.private_block_returns env package_name feed token st []).
  - rewrite Hget. reflexivity.
  - exact Hfeed.
  - rewrite Hget. cbn [fst]. unfold ResolverSpec.versions_of.
    rewrite Hstatus, Hjson. cbn. rewrite Hvs. reflexivity.
Qed.

Lemma empty_private_list_stops_lookup_witness :
  NugetHelper.get_latest_nuget_version_for_feed Samples.empty_private_env
    "Serilog" (Some "https://feed.example/") (Some "t0") Samples.start
  = (Py.Ok None,
     Py.Store 1
       [Py.HttpGet "https://feed.example/v3-flatcontainer/serilog/index.json"
          (Some "Bearer t0")]).
Proof.
  apply (empty_private_list_stops_lookup nat Samples.empty_private_env
           "Serilog" "https://feed.example/" (Some "t0") Samples.start
           (Samples.ok_versions []) 1 {[ "versions" := [] ]}).
  - discriminate.
  - reflexivity.
  - reflexivity.
  - reflexivity.
  - reflexivity.
Defined.

(** C10. When a package name is declared in several references of the
    scanned descriptors, the report of the scan holds exactly one entry for
    it: its current version is the version of the first reference in scan
    order, and its latest value is the answer of the lookup made for the
    last reference of that name, in the world the scan had reached then. *)
Theorem duplicate_reference_entry :
  forall W (env : Py.Env W) (state state' : LanggraphApp.UpgradeState)
         (st st' : Py.store W) root name v1 v2 r1 r2 q1 q2,
    LanggraphApp.uploaded_file_path state = Some root ->
    LanggraphApp.scan_packages_node env state st = (Py.Ok state', st') ->
    ScanSpec.references env (LanggraphApp.scanned_paths env state root)
    = r1 ++ (name, v1) :: r2 ->
    ~ In name (map fst r1) ->
    ScanSpec.references env (LanggraphApp.scanned_paths env state root)
    = q1 ++ (name, v2) :: q2 ->
    ~ In name (map fst q2) ->
    exists report lat pk st_mid st_mid',
      LanggraphApp.package_report state' = Some report
      /\ ScanSpec.entries_for name report = [(name, Py.PkgInfo v1 lat)]
      /\ LanggraphApp.scan_refs env state q1 [] st = (Py.Ok pk, st_mid)
      /\ NugetHelper.get_latest_nuget_version_for_feed env name
           (LanggraphApp.first_feed state)
           (LanggraphApp.token_of state (LanggraphApp.first_feed state)) st_mid
         = (Py.Ok lat, st_mid').
Proof.
  intros W env state state' st st' root name v1 v2 r1 r2 q1 q2
    Hroot Hrun Hr Hr1 Hq Hq2.
  apply ScanFacts.scan_packages_node_inv in Hrun
    as (root' & pkgs & Hroot' & -> & Hscan).
  rewrite Hroot in Hroot'. inversion Hroot'; subst root'.
  destruct (ScanFacts.scan_refs_entry env state _ _ _ _ name v1 v2 r1 r2 q1 q2
              Hscan Hr Hr1 Hq Hq2)
    as (lat & pk & st_mid & st_mid' & Hentry & Hq1 & Hlook).
  exists pkgs, lat, pk, st_mid, st_mid'.
  split; [reflexivity|]. split; [exact Hentry|]. split; assumption.
Qed.

Lemma duplicate_reference_entry_witness :
  exists report lat pk st_mid st_mid',
    LanggraphApp.package_report
      (LanggraphApp.set_package_report
         [("Dup", Py.PkgInfo "1.0" (Some "2.0.0"));
          ("Other", Py.PkgInfo "5.0" (Some "1.0.0"))]
         (Samples.initial "/p" "net8.0")) = Some report
    /\ ScanSpec.entries_for "Dup" report = [("Dup", Py.PkgInfo "1.0" lat)]
    /\ LanggraphApp.scan_refs Samples.drifting_env (Samples.initial "/p" "net8.0")
         [("Dup", "1.0"); ("Other", "5.0")] [] Samples.start
       = (Py.Ok pk, st_mid)
    /\ NugetHelper.get_latest_nuget_version_for_feed Samples.drifting_env "Dup"
         (LanggraphApp.first_feed (Samples.initial "/p" "net8.0"))
         (LanggraphApp.token_of (Samples.initial "/p" "net8.0")
            (LanggraphApp.first_feed (Samples.initial "/p" "net8.0"))) st_mid
       = (Py.Ok lat, st_mid').
Proof.
  apply (duplicate_reference_entry nat Samples.drifting_env
           (Samples.initial "/p" "net8.0") _ Samples.start
           (Py.Store 3
              [Py.HttpGet "https://api.nuget.org/v3-flatcontainer/dup/index.json" None;
               Py.HttpGet "https://api.nuget.org/v3-flatcontainer/other/index.json" None;
               Py.HttpGet "https://api.nuget.org/v3-flatcontainer/dup/index.json" None])
           "/p" "Dup" "1.0" "2.0"
           [] [("Other", "5.0"); ("Dup", "2.0")]
           [("Dup", "1.0"); ("Other", "5.0")] []).
  - reflexivity.
  - vm_compute. reflexivity.
  - vm_compute. reflexivity.
  - intros [].
  - vm_compute. reflexivity.
  - intros [].
Defined.

(** * Further properties of the code *)

(** ** Stores and logs of the nodes *)

Module NodeFacts.
Import PyStr Py NugetHelper LanggraphApp PyFacts TraceSpec.
Local Open Scope py_scope.

Section WithEnv.
Context {W : Type} (env : Env W).

Lemma for_each_pure {A B} (l : list B) (f : A -> B -> M W A) :
  (forall acc x st r st', In x l -> f acc x st = (r, st') -> st' = st) ->
  forall acc st r st', for_each l f acc st = (r, st') -> st' = st.
Proof.
  induction l as [|x l IH]; intros Hf acc st r st' H.
  - cbv [for_each ret] in H. inversion H. reflexivity.
  - cbn [for_each] in H. unfold bind in H.
    destruct (f acc x st) as [[a|e] st1] eqn:E.
    + apply Hf in E; [|left; reflexivity]. subst st1.
      eapply IH; [|exact H]. intros; eapply Hf; eauto. right; assumption.
    + apply Hf in E; [|left; reflexivity]. inversion H. subst. reflexivity.
Qed.

Lemma read_text_pure path (st : store W) r st' :
  read_text env path st = (r, st') -> st' = st.
Proof.
  unfold read_text, ok_or. destruct (fs_read_text env path);
    cbv [ret raise]; intros H; inversion H; reflexivity.
Qed.

Lemma get_root_missing state (st : store W) :
  uploaded_file_path state = None ->
  get_root state st = (Raise (KeyError "uploaded_file_path"), st).
Proof. unfold get_root. intros ->. reflexivity. Qed.

Lemma get_root_present state root (st : store W) :
  uploaded_file_path state = Some root ->
  get_root state st = (Ok root, st).
Proof. unfold get_root. intros ->. reflexivity. Qed.

Lemma csprojs_text_pure state root (st : store W) r st' :
  csprojs_text env state root st = (r, st') -> st' = st.
Proof.
  unfold csprojs_text. apply for_each_pure.
  intros acc x st0 r0 st0' _. unfold bind.
  destruct (read_text env x st0) as [[t|e] st1] eqn:E;
    apply read_text_pure in E; subst st1; cbv [ret];
    intros H; inversion H; reflexivity.
Qed.

Lemma detect_private_feeds_pure root (st : store W) r st' :
  detect_private_feeds env root st = (r, st') -> st' = st.
Proof.
  unfold detect_private_feeds, bind.
  match goal with |- context [for_each ?l ?f ?a st] =>
    assert (Hpure : forall acc st0 r0 st0',
               for_each l f acc st0 = (r0, st0') -> st0' = st0);
    [|destruct (for_each l f a st) as [[x|e] st1] eqn:E;
      apply Hpure in E; subst st1; cbv [ret];
      intros H; inversion H; reflexivity] end.
  apply for_each_pure.
  intros acc [r0 files] st0 r1 st0' _. apply for_each_pure.
  intros acc1 f st2 r2 st2' _.
  destruct (String.eqb (lower f) "nuget.config").
  - unfold bind.
    destruct (read_text env (path_join r0 f) st2) as [[t|e3] st3] eqn:E3;
      apply read_text_pure in E3; subst st3; cbv [ret];
      intros H; inversion H; reflexivity.
  - cbv [ret]. intros H; inversion H; reflexivity.
Qed.

Lemma upload_node_pure state (st : store W) r st' :
  upload_node env state st = (r, st') -> st' = st.
Proof.
  unfold upload_node, get_root, ok_or, bind.
  destruct (uploaded_file_path state); cbv [ret raise];
    intros H; inversion H; reflexivity.
Qed.

Lemma detect_feeds_node_pure state (st : store W) r st' :
  detect_feeds_node env state st = (r, st') -> st' = st.
Proof.
  unfold detect_feeds_node, get_root, ok_or.
  destruct (uploaded_file_path state) as [root|];
    [|cbv [bind raise]; intros H; inversion H; reflexivity].
  rewrite bind_ret_l.
  destruct (truthy (user_feed_url state)).
  - cbv [bind ret]. intros H; inversion H; reflexivity.
  - unfold bind.
    destruct (detect_private_feeds env root st) as [[x|e] st1] eqn:E;
      apply detect_private_feeds_pure in E; subst st1; cbv [ret];
      intros H; inversion H; reflexivity.
Qed.

Lemma chat_run content n (st : store W) :
  chat env content n st
  = (match (chat_create env (world st) content n).1 with
     | Some answer => Ok answer
     | None => Raise ServiceError
     end,
     Store (chat_create env (world st) content n).2
       (log st ++ [ChatCreate content n])).
Proof.
  unfold chat. destruct (chat_create env (world st) content n) as [[t|] w'];
    reflexivity.
Qed.

Lemma jwt_loop feeds : forall (tokens0 : gmap string string) (st : store W),
  exists tokens st',
    for_each feeds
      (fun (tokens : gmap string string) feed =>
         do jwt <- generate_jwt_token_for_feed env feed;
         ret (<[feed := jwt]> tokens))
      tokens0 st = (Ok tokens, st')
    /\ dom tokens =@{gset string} dom tokens0 ∪ list_to_set feeds
    /\ log st' = log st ++ map JwtIssued feeds.
Proof.
  induction feeds as [|feed feeds IH]; intros tokens0 st.
  - exists tokens0, st. split; [reflexivity|]. split.
    + cbn [list_to_set]. rewrite union_empty_r_L. reflexivity.
    + cbn [map]. rewrite List.app_nil_r. reflexivity.
  - cbn [for_each].
    destruct (jwt_encode env (world st) feed) as [tok w'] eqn:E.
    destruct (IH (<[feed := tok]> tokens0)
                (Store w' (log st ++ [JwtIssued feed])))
      as (tokens & st' & Hrun & Hdom & Hlog).
    exists tokens, st'. split; [|split].
    + rewrite <- Hrun. unfold bind at 1. unfold bind at 1.
      unfold generate_jwt_token_for_feed. rewrite E. reflexivity.
    + rewrite Hdom, dom_insert_L. cbn [list_to_set].
      rewrite (comm_L (∪) {[feed]}), <- (assoc_L (∪)). reflexivity.
    + rewrite Hlog. cbn [log map]. rewrite <- List.app_assoc. reflexivity.
Qed.

Lemma generate_jwt_node_run state (st : store W) :
  exists tokens st',
    generate_jwt_node env state st = (Ok (set_feed_tokens tokens state), st')
    /\ dom tokens =@{gset string} list_to_set (default [] (private_feeds state))
    /\ log st' = log st ++ map JwtIssued (default [] (private_feeds state)).
Proof.
  destruct (jwt_loop (default [] (private_feeds state)) ∅ st)
    as (tokens & st' & Hrun & Hdom & Hlog).
  exists tokens, st'. split; [|split].
  - unfold generate_jwt_node. rewrite (bind_ok_intro _ _ _ _ _ Hrun).
    reflexivity.
  - rewrite Hdom, dom_empty_L, union_empty_l_L. reflexivity.
  - exact Hlog.
Qed.

End WithEnv.
End NodeFacts.

(** ** The requests of the resolver and of the scan *)

Module TraceFacts.
Import PyStr Re Py NugetHelper LanggraphApp ResolverSpec ScanSpec TraceSpec
  PyFacts ResolverFacts ScanFacts NodeFacts.
Local Open Scope py_scope.

Section WithEnv.
Context {W : Type} (env : Env W).

Lemma get_latest_trace package_name feed_url token (st : store W) :
  exists v st',
    get_latest_nuget_version_for_feed env package_name feed_url token st
    = (Ok v, st')
    /\ log st' = log st ++ requests_of env package_name feed_url token (world st).
Proof.
  unfold get_latest_nuget_version_for_feed, requests_of.
  fold (bearer token).
  fold (private_url (default "" feed_url) package_name).
  fold (public_url package_name).
  destruct (truthy feed_url).
  - unfold bind at 1. rewrite lookup_block_run.
    set (a := requests_get env (world st) _ (bearer token)).
    destruct (versions_of a.1) as [vs|] eqn:E1; cbn [fmap option_fmap option_map].
    + eexists _, _. split; reflexivity.
    + unfold bind. rewrite lookup_block_run. cbn [world log].
      set (b := requests_get env a.2 (public_url package_name) None).
      destruct (versions_of b.1) as [vs|] eqn:E2;
        cbn [fmap option_fmap option_map];
        eexists _, _; (split; [reflexivity|]); cbn [log];
        rewrite <- List.app_assoc; reflexivity.
  - unfold bind. cbn [ret]. rewrite lookup_block_run.
    set (b := requests_get env (world st) (public_url package_name) None).
    destruct (versions_of b.1) as [vs|] eqn:E2;
      cbn [fmap option_fmap option_map];
      eexists _, _; (split; reflexivity).
Qed.


Lemma requests_of_shape package_name feed_url token (w : W) :
  Forall (lookup_request feed_url token package_name)
    (requests_of env package_name feed_url token w)
  /\ 1 <= length (requests_of env package_name feed_url token w) <= 2.
Proof.
  unfold requests_of, lookup_request.
  destruct (truthy feed_url) eqn:Ht.
  - destruct (versions_of _); cbn [length]; (split; [|lia]);
      repeat (apply List.Forall_cons || apply List.Forall_nil);
      first [left; reflexivity | right; split; reflexivity].
  - cbn [length]. split; [|lia].
    apply List.Forall_cons; [left; reflexivity | apply List.Forall_nil].
Qed.

Lemma scan_refs_total state refs : forall pkgs (st : store W),
  exists pkgs' st', scan_refs env state refs pkgs st = (Ok pkgs', st').
Proof.
  induction refs as [|[name ver] refs IH]; intros pkgs st.
  - exists pkgs, st. reflexivity.
  - destruct (get_latest_run env name (first_feed state)
                (token_of state (first_feed state)) st)
      as (lat & st1 & Hl & _).
    destruct (IH (record_package name ver lat pkgs) st1) as (p' & st' & Hr).
    exists p', st'. rewrite <- Hr. unfold scan_refs. cbn [for_each].
    unfold bind at 1. unfold bind at 1. rewrite Hl. reflexivity.
Qed.

Lemma scan_refs_trace state refs : forall pkgs (st : store W) pkgs' st',
  scan_refs env state refs pkgs st = (Ok pkgs', st') ->
  exists evs,
    log st' = log st ++ evs
    /\ Forall (fun e => exists name,
                 In name (map fst refs)
                 /\ lookup_request (first_feed state)
                      (token_of state (first_feed state)) name e) evs
    /\ length refs <= length evs <= 2 * length refs.
Proof.
  induction refs as [|[name ver] refs IH]; intros pkgs st pkgs' st' H.
  - apply ret_ok_inv in H as [_ ->]. exists []. rewrite List.app_nil_r.
    split; [reflexivity|]. split; [constructor|]. cbn [length]. lia.
  - apply scan_refs_cons_inv in H as (lat & st1 & Hl & Hrest).
    destruct (get_latest_trace name (first_feed state)
                (token_of state (first_feed state)) st)
      as (v & st1' & Hl' & Hlog).
    rewrite Hl in Hl'. inversion Hl'; subst v st1'. clear Hl'.
    apply IH in Hrest as (evs & Hlog' & Hall & Hlen).
    destruct (requests_of_shape name (first_feed state)
                (token_of state (first_feed state)) (world st))
      as [Hshape Hn].
    set (r := requests_of env name (first_feed state)
                (token_of state (first_feed state)) (world st)) in *.
    exists (r ++ evs). split; [|split].
    + rewrite Hlog', Hlog, List.app_assoc. reflexivity.
    + apply Forall_app. split.
      * eapply List.Forall_impl; [|exact Hshape]. intros e He. cbv beta in He.
        exists name. split; [left; reflexivity | exact He].
      * eapply List.Forall_impl; [|exact Hall]. intros e (n & Hin & He).
        exists n. split; [right; exact Hin | exact He].
    + rewrite List.length_app. cbn [length]. lia.
Qed.

Lemma scan_refs_public_trace state refs : forall pkgs (st : store W) pkgs' st',
  truthy (first_feed state) = false ->
  scan_refs env state refs pkgs st = (Ok pkgs', st') ->
  log st' = log st ++ map (fun r => HttpGet (public_url r.1) None) refs.
Proof.
  induction refs as [|[name ver] refs IH]; intros pkgs st pkgs' st' Hf H.
  - apply ret_ok_inv in H as [_ ->]. cbn [map]. rewrite List.app_nil_r.
    reflexivity.
  - apply scan_refs_cons_inv in H as (lat & st1 & Hl & Hrest).
    destruct (get_latest_trace name (first_feed state)
                (token_of state (first_feed state)) st)
      as (v & st1' & Hl' & Hlog).
    rewrite Hl in Hl'. inversion Hl'; subst v st1'. clear Hl'.
    apply (IH _ _ _ _ Hf) in Hrest. rewrite Hrest, Hlog.
    unfold requests_of. rewrite Hf. cbn [map fst].
    rewrite <- List.app_assoc. reflexivity.
Qed.

End WithEnv.
End TraceFacts.

(** ** The shape of a complete run *)

Module RunShape.
Import PyStr Re Py NugetHelper LanggraphApp ResolverSpec ScanSpec TraceSpec
  PyFacts ScanFacts KeyFacts NodeFacts TraceFacts.
Local Open Scope py_scope.

Section WithEnv.
Context {W : Type} (env : Env W).

Lemma analyze_ai_node_log state (st : store W) state' st' :
  analyze_ai_node env state st = (Ok state', st') ->
  exists prompt, log st' = log st ++ [ChatCreate prompt 3000].
Proof.
  unfold analyze_ai_node. intros H.
  apply bind_ok_inv in H as (root & st0 & Hroot & H).
  apply ok_or_ok_inv in Hroot as [Hroot ->].
  apply bind_ok_inv in H as (text & st1 & Ht & H).
  apply csprojs_text_pure in Ht. subst st1.
  apply bind_ok_inv in H as (content & st2 & Hc & H).
  apply ret_ok_inv in H as [_ ->].
  rewrite chat_run in Hc. inversion Hc. eexists. reflexivity.
Qed.

Lemma upgrade_ai_node_log state (st : store W) state' st' :
  upgrade_ai_node env state st = (Ok state', st') ->
  exists prompt, log st' = log st ++ [ChatCreate prompt 3500].
Proof.
  unfold upgrade_ai_node. intros H.
  apply bind_ok_inv in H as (root & st0 & Hroot & H).
  apply ok_or_ok_inv in Hroot as [Hroot ->].
  apply bind_ok_inv in H as (text & st1 & Ht & H).
  apply csprojs_text_pure in Ht. subst st1.
  apply bind_ok_inv in H as (content & st2 & Hc & H).
  destruct content as [preview|]; [|discriminate H].
  apply ret_ok_inv in H as [_ ->].
  rewrite chat_run in Hc. inversion Hc. eexists. reflexivity.
Qed.

Lemma detect_feeds_node_user state (st : store W) state' st' :
  truthy (user_feed_url state) = true ->
  detect_feeds_node env state st = (Ok state', st') ->
  state' = set_private_feeds [default "" (user_feed_url state)] state.
Proof.
  unfold detect_feeds_node. intros Hu H. rewrite Hu in H.
  apply bind_ok_inv in H as (root & st0 & Hroot & H).
  apply bind_ok_inv in H as (feeds & st1 & Hf & H).
  apply ret_ok_inv in Hf as [-> ->].
  apply ret_ok_inv in H as [-> _]. reflexivity.
Qed.

(** The intermediate states and stores of a complete sequential run. *)
Lemma run_sequential_shape initial_state (st : store W) final st' :
  run_sequential env initial_state st = (Ok final, st') ->
  exists root feeds tokens pkgs content preview st3 st4 st5,
    let s1 := set_csproj_paths (collect_csproj_files env root) initial_state in
    let s2 := set_private_feeds feeds s1 in
    let s3 := set_feed_tokens tokens s2 in
    let s4 := set_package_report pkgs s3 in
    let s5 := set_analysis_report content s4 in
    uploaded_file_path initial_state = Some root
    /\ detect_feeds_node env s1 st = (Ok s2, st)
    /\ generate_jwt_node env s2 st = (Ok s3, st3)
    /\ scan_packages_node env s3 st3 = (Ok s4, st4)
    /\ analyze_ai_node env s4 st4 = (Ok s5, st5)
    /\ upgrade_ai_node env s5 st5 = (Ok final, st')
    /\ final = set_csproj_updates (parse_updates preview)
                 (set_upgrade_preview preview s5).
Proof.
  unfold run_sequential. intros H.
  apply bind_ok_inv in H as (s1 & st1 & H1 & H).
  apply bind_ok_inv in H as (s2 & st2 & H2 & H).
  apply bind_ok_inv in H as (s3 & st3 & H3 & H).
  apply bind_ok_inv in H as (s4 & st4 & H4 & H).
  apply bind_ok_inv in H as (s5 & st5 & H5 & H).
  apply bind_ok_inv in H as (s6 & st6 & H6 & H).
  apply bind_ok_inv in H as (s7 & st7 & H7 & H).
  apply ret_ok_inv in H as [-> ->].
  apply ret_ok_inv in H7 as [-> ->].
  pose proof (upload_node_pure env _ _ _ _ H1) as ->.
  pose proof (detect_feeds_node_pure env _ _ _ _ H2) as ->.
  apply upload_node_inv in H1 as (root & Hroot & ->).
  pose proof H2 as H2'. apply detect_feeds_node_inv in H2' as (feeds & ->).
  pose proof H3 as H3'. apply generate_jwt_node_inv in H3' as (tokens & ->).
  pose proof H4 as H4'.
  apply scan_packages_node_inv in H4' as (root' & pkgs & _ & -> & _).
  pose proof H5 as H5'. apply analyze_ai_node_inv in H5' as (content & ->).
  pose proof H6 as H6'. apply upgrade_ai_node_inv in H6' as (preview & Hfin).
  exists root, feeds, tokens, pkgs, content, preview, st3, st4, st5.
  cbv zeta. repeat split; assumption.
Qed.

End WithEnv.
End RunShape.

(** ** The nodes and the run function *)

(** X1. The token step never fails. In the state it returns, [feed_tokens]
    is a mapping that holds a token under every private feed of the state
    and under no other key, and every other key of the state keeps its
    value; the issuer is asked once per feed of the list, in the order of
    the list. *)
Theorem jwt_node_issues_one_token_per_feed :
  forall W (env : Py.Env W) (state : LanggraphApp.UpgradeState)
         (st : Py.store W),
    exists tokens state' st',
      LanggraphApp.generate_jwt_node env state st = (Py.Ok state', st')
      /\ LanggraphApp.feed_tokens state' = Some tokens
      /\ state' = LanggraphApp.set_feed_tokens tokens state
      /\ LanggraphApp.private_feeds state' = LanggraphApp.private_feeds state
      /\ dom tokens
         =@{gset string}
         list_to_set (default [] (LanggraphApp.private_feeds state))
      /\ Py.log st'
         = Py.log st
           ++ map Py.JwtIssued (default [] (LanggraphApp.private_feeds state)).
Proof.
  intros W env state st.
  destruct (NodeFacts.jwt_loop env
              (default [] (LanggraphApp.private_feeds state)) ∅ st)
    as (tokens & st' & Hrun & Hdom & Hlog).
  exists tokens, (LanggraphApp.set_feed_tokens tokens state), st'.
  split; [|split; [|split; [|split; [|split]]]].
  - unfold LanggraphApp.generate_jwt_node.
    rewrite (PyFacts.bind_ok_intro _ _ _ _ _ Hrun). reflexivity.
  - reflexivity.
  - reflexivity.
  - reflexivity.
  - rewrite Hdom, dom_empty_L, union_empty_l_L. reflexivity.
  - exact Hlog.
Qed.

(** X2. A state without the key of the project root: each of the five steps
    that read the root raises the key error and touches nothing, and so does
    the sequential run. When the executor fails on such a state, for
    whatever reason, the run function raises the key error of the fallback
    in place of the executor's exception. *)
Theorem missing_root_is_a_key_error :
  forall W (env : Py.Env W)
         (graph_obj : LanggraphApp.UpgradeState
                      -> Py.M W LanggraphApp.UpgradeState)
         (state : LanggraphApp.UpgradeState) (st : Py.store W) e st1,
    LanggraphApp.uploaded_file_path state = None ->
    graph_obj state st = (Py.Raise e, st1) ->
    LanggraphApp.upload_node env state st
    = (Py.Raise (Py.KeyError "uploaded_file_path"), st)
    /\ LanggraphApp.detect_feeds_node env state st
       = (Py.Raise (Py.KeyError "uploaded_file_path"), st)
    /\ LanggraphApp.scan_packages_node env state st
       = (Py.Raise (Py.KeyError "uploaded_file_path"), st)
    /\ LanggraphApp.analyze_ai_node env state st
       = (Py.Raise (Py.KeyError "uploaded_file_path"), st)
    /\ LanggraphApp.upgrade_ai_node env state st
       = (Py.Raise (Py.KeyError "uploaded_file_path"), st)
    /\ LanggraphApp.run_sequential env state st
       = (Py.Raise (Py.KeyError "uploaded_file_path"), st)
    /\ LanggraphApp.run_graph_invoke env graph_obj state st
       = (Py.Raise (Py.KeyError "uploaded_file_path"), st1).
Proof.
  intros W env graph_obj state st e st1 Hroot Hexec.
  assert (Hup : forall st0 : Py.store W,
             LanggraphApp.upload_node env state st0
             = (Py.Raise (Py.KeyError "uploaded_file_path"), st0)).
  { intros st0. unfold LanggraphApp.upload_node.
    apply PyFacts.bind_raise_intro, NodeFacts.get_root_missing, Hroot. }
  assert (Hseq : forall st0 : Py.store W,
             LanggraphApp.run_sequential env state st0
             = (Py.Raise (Py.KeyError "uploaded_file_path"), st0)).
  { intros st0. unfold LanggraphApp.run_sequential.
    apply PyFacts.bind_raise_intro, Hup. }
  repeat split.
  - apply Hup.
  - unfold LanggraphApp.detect_feeds_node.
    apply PyFacts.bind_raise_intro, NodeFacts.get_root_missing, Hroot.
  - unfold LanggraphApp.scan_packages_node.
    apply PyFacts.bind_raise_intro, NodeFacts.get_root_missing, Hroot.
  - unfold LanggraphApp.analyze_ai_node.
    apply PyFacts.bind_raise_intro, NodeFacts.get_root_missing, Hroot.
  - unfold LanggraphApp.upgrade_ai_node.
    apply PyFacts.bind_raise_intro, NodeFacts.get_root_missing, Hroot.
  - apply Hseq.
  - rewrite (OrchestratorFacts.run_graph_invoke_fallback env _ _ _ _ _ Hexec).
    apply Hseq.
Qed.

Lemma missing_root_is_a_key_error_witness :
  LanggraphApp.run_graph_invoke Samples.healthy_env Orchestrator.no_executor
    (MoreSamples.rootless "net8.0") Samples.start
  = (Py.Raise (Py.KeyError "uploaded_file_path"), Samples.start).
Proof.
  apply (missing_root_is_a_key_error nat Samples.healthy_env
           Orchestrator.no_executor (MoreSamples.rootless "net8.0")
           Samples.start (Py.GraphError "invoke") Samples.start).
  - reflexivity.
  - reflexivity.
Defined.

(** X3. A complete sequential run leaves the three keys the caller set as
    they were, and its final state holds every key a step writes: the
    descriptor paths, which are the descriptors collected under the root,
    the feeds, the tokens, the report, the analysis, the preview and the
    replacement mapping. *)
Theorem complete_run_keeps_inputs_and_fills_outputs :
  forall W (env : Py.Env W) (initial_state final : LanggraphApp.UpgradeState)
         (st st' : Py.store W),
    LanggraphApp.run_sequential env initial_state st = (Py.Ok final, st') ->
    LanggraphApp.uploaded_file_path final
    = LanggraphApp.uploaded_file_path initial_state
    /\ LanggraphApp.user_feed_url final
       = LanggraphApp.user_feed_url initial_state
    /\ LanggraphApp.target_version final
       = LanggraphApp.target_version initial_state
    /\ (exists root,
          LanggraphApp.uploaded_file_path initial_state = Some root
          /\ LanggraphApp.csproj_paths final
             = Some (NugetHelper.collect_csproj_files env root))
    /\ is_Some (LanggraphApp.private_feeds final)
    /\ is_Some (LanggraphApp.feed_tokens final)
    /\ is_Some (LanggraphApp.package_report final)
    /\ is_Some (LanggraphApp.analysis_report final)
    /\ is_Some (LanggraphApp.upgrade_preview final)
    /\ is_Some (LanggraphApp.csproj_updates final).
Proof.
  intros W env initial_state final st st' H.
  apply RunShape.run_sequential_shape in H
    as (root & feeds & tokens & pkgs & content & preview & st3 & st4 & st5
        & Hroot & _ & _ & _ & _ & _ & ->).
  cbn. repeat split; try (eexists; reflexivity).
  exists root. split; [exact Hroot | reflexivity].
Qed.

Lemma complete_run_keeps_inputs_and_fills_outputs_witness :
  LanggraphApp.uploaded_file_path Samples.healthy_final = Some "/p"
  /\ LanggraphApp.user_feed_url Samples.healthy_final = None
  /\ LanggraphApp.target_version Samples.healthy_final = Some "net8.0"
  /\ (exists root,
        LanggraphApp.uploaded_file_path (Samples.initial "/p" "net8.0")
        = Some root
        /\ LanggraphApp.csproj_paths Samples.healthy_final
           = Some (NugetHelper.collect_csproj_files Samples.healthy_env root))
  /\ is_Some (LanggraphApp.private_feeds Samples.healthy_final)
  /\ is_Some (LanggraphApp.feed_tokens Samples.healthy_final)
  /\ is_Some (LanggraphApp.package_report Samples.healthy_final)
  /\ is_Some (LanggraphApp.analysis_report Samples.healthy_final)
  /\ is_Some (LanggraphApp.upgrade_preview Samples.healthy_final)
  /\ is_Some (LanggraphApp.csproj_updates Samples.healthy_final).
Proof.
  apply (complete_run_keeps_inputs_and_fills_outputs nat Samples.healthy_env
           (Samples.initial "/p" "net8.0") Samples.healthy_final
           Samples.start Samples.healthy_run.2).
  vm_compute. reflexivity.
Defined.

(** X4. After a complete sequential run the keys of the token mapping are
    exactly the private feeds of the final state. When the caller gave a
    feed URL, that URL is the only feed and the only key. *)
Theorem complete_run_has_a_token_per_feed :
  forall W (env : Py.Env W) (initial_state final : LanggraphApp.UpgradeState)
         (st st' : Py.store W),
    LanggraphApp.run_sequential env initial_state st = (Py.Ok final, st') ->
    dom (default ∅ (LanggraphApp.feed_tokens final))
    =@{gset string}
    list_to_set (default [] (LanggraphApp.private_feeds final))
    /\ (Py.truthy (LanggraphApp.user_feed_url initial_state) = true ->
        LanggraphApp.private_feeds final
        = Some [default "" (LanggraphApp.user_feed_url initial_state)]).
Proof.
  intros W env initial_state final st st' H.
  apply RunShape.run_sequential_shape in H
    as (root & feeds & tokens & pkgs & content & preview & st3 & st4 & st5
        & Hroot & Hdetect & Hjwt & _ & _ & _ & ->).
  cbn [LanggraphApp.feed_tokens LanggraphApp.private_feeds
       LanggraphApp.set_csproj_updates LanggraphApp.set_upgrade_preview
       LanggraphApp.set_analysis_report LanggraphApp.set_package_report
       LanggraphApp.set_feed_tokens LanggraphApp.set_private_feeds
       default from_option id].
  split.
  - destruct (NodeFacts.generate_jwt_node_run env
                (LanggraphApp.set_private_feeds feeds
                   (LanggraphApp.set_csproj_paths
                      (NugetHelper.collect_csproj_files env root)
                      initial_state)) st)
      as (tokens' & st3' & Hrun & Hdom & _).
    rewrite Hjwt in Hrun. inversion Hrun as [[Htok Hst]]. subst.
    exact Hdom.
  - intros Hu.
    apply RunShape.detect_feeds_node_user in Hdetect; [|exact Hu].
    apply (f_equal LanggraphApp.private_feeds) in Hdetect. cbn in Hdetect.
    exact Hdetect.
Qed.

Lemma complete_run_has_a_token_per_feed_witness :
  dom (default ∅ (LanggraphApp.feed_tokens MoreSamples.feed_final))
  =@{gset string}
  list_to_set (default [] (LanggraphApp.private_feeds MoreSamples.feed_final))
  /\ LanggraphApp.private_feeds MoreSamples.feed_final
     = Some ["https://mine.example/v3"].
Proof.
  destruct (complete_run_has_a_token_per_feed nat Samples.healthy_env
              (Samples.initial_with_feed "/p" "net8.0"
                 "https://mine.example/v3")
              MoreSamples.feed_final Samples.start MoreSamples.feed_run.2)
    as [Hdom Hfeed].
  - vm_compute. reflexivity.
  - split; [exact Hdom | apply Hfeed; reflexivity].
Defined.

(** ** The events of a complete run *)

Module RunTrace.
Import PyStr Re Py NugetHelper LanggraphApp ResolverSpec ScanSpec TraceSpec
  PyFacts ScanFacts KeyFacts NodeFacts TraceFacts RunShape.
Local Open Scope py_scope.

Section WithEnv.
Context {W : Type} (env : Env W).

Lemma run_sequential_events initial_state (st : store W) final st' :
  run_sequential env initial_state st = (Ok final, st') ->
  exists root pkgs st3 st4 prompt1 prompt2,
    uploaded_file_path initial_state = Some root
    /\ package_report final = Some pkgs
    /\ log st3
       = log st ++ map JwtIssued (default [] (private_feeds final))
    /\ scan_refs env
         (set_feed_tokens (default ∅ (feed_tokens final))
            (set_private_feeds (default [] (private_feeds final))
               (set_csproj_paths (collect_csproj_files env root) initial_state)))
         (references env (collect_csproj_files env root)) [] st3
       = (Ok pkgs, st4)
    /\ log st' = log st4 ++ [ChatCreate prompt1 3000; ChatCreate prompt2 3500].
Proof.
  intros H.
  apply run_sequential_shape in H
    as (root & feeds & tokens & pkgs & content & preview & st3 & st4 & st5
        & Hroot & _ & Hjwt & Hscan & Han & Hup & ->).
  destruct (generate_jwt_node_run env
              (set_private_feeds feeds
                 (set_csproj_paths (collect_csproj_files env root)
                    initial_state)) st)
    as (tokens' & st3' & Hrun & _ & Hlog3).
  rewrite Hjwt in Hrun. inversion Hrun as [[Htok Hst]]. subst.
  apply scan_packages_node_inv in Hscan as (root' & pkgs' & Hroot' & Hp & Hscan).
  apply (f_equal package_report) in Hp. cbn in Hp. inversion Hp; subst pkgs'.
  cbn in Hroot'. rewrite Hroot in Hroot'. inversion Hroot'; subst root'.
  rewrite scanned_paths_collected in Hscan by reflexivity.
  apply analyze_ai_node_log in Han as (p1 & Hl5).
  apply upgrade_ai_node_log in Hup as (p2 & Hl6).
  exists root, pkgs, st3', st4, p1, p2. cbn.
  repeat split; try assumption.
  rewrite Hl6, Hl5, <- List.app_assoc. reflexivity.
Qed.

End WithEnv.
End RunTrace.

(** X5. The order of the effects of a complete sequential run: first one
    token per private feed, then the registry requests of the scan, then
    the two completion requests, the analysis with a budget of 3000 tokens
    and the rewrite with 3500. The scan sends between one and two requests
    per package reference; each goes to the public registry without
    credentials or to the first private feed with that feed's token. *)
Theorem complete_run_effects_in_order :
  forall W (env : Py.Env W) (initial_state final : LanggraphApp.UpgradeState)
         (st st' : Py.store W),
    LanggraphApp.run_sequential env initial_state st = (Py.Ok final, st') ->
    exists root requests prompt1 prompt2,
      LanggraphApp.uploaded_file_path initial_state = Some root
      /\ Py.log st'
         = Py.log st
           ++ map Py.JwtIssued (default [] (LanggraphApp.private_feeds final))
           ++ requests
           ++ [Py.ChatCreate prompt1 3000; Py.ChatCreate prompt2 3500]
      /\ Forall
           (fun e =>
              exists name,
                In name
                  (map fst
                     (ScanSpec.references env
                        (NugetHelper.collect_csproj_files env root)))
                /\ TraceSpec.lookup_request (LanggraphApp.first_feed final)
                     (LanggraphApp.token_of final
                        (LanggraphApp.first_feed final))
                     name e)
           requests
      /\ length (ScanSpec.references env
                   (NugetHelper.collect_csproj_files env root))
         <= length requests
         <= 2 * length (ScanSpec.references env
                          (NugetHelper.collect_csproj_files env root)).
Proof.
  intros W env initial_state final st st' H.
  pose proof (RunShape.run_sequential_shape env _ _ _ _ H)
    as (root0 & feeds & tokens & pkgs0 & content & preview & st3' & st4' & st5
        & _ & _ & _ & _ & _ & _ & Hfinal).
  apply RunTrace.run_sequential_events in H
    as (root & pkgs & st3 & st4 & p1 & p2 & Hroot & _ & Hl3 & Hscan & Hl).
  apply TraceFacts.scan_refs_trace in Hscan as (evs & Hl4 & Hall & Hlen).
  exists root, evs, p1, p2. split; [exact Hroot|]. split; [|split].
  - rewrite Hl, Hl4, Hl3. rewrite <- !List.app_assoc. reflexivity.
  - subst final. exact Hall.
  - exact Hlen.
Qed.

Lemma complete_run_effects_in_order_witness :
  exists root requests prompt1 prompt2,
    LanggraphApp.uploaded_file_path
      (Samples.initial_with_feed "/p" "net8.0" "https://mine.example/v3")
    = Some root
    /\ Py.log MoreSamples.feed_run.2
       = Py.log Samples.start
         ++ map Py.JwtIssued
              (default [] (LanggraphApp.private_feeds MoreSamples.feed_final))
         ++ requests
         ++ [Py.ChatCreate prompt1 3000; Py.ChatCreate prompt2 3500]
    /\ Forall
         (fun e =>
            exists name,
              In name
                (map fst
                   (ScanSpec.references Samples.healthy_env
                      (NugetHelper.collect_csproj_files Samples.healthy_env
                         root)))
              /\ TraceSpec.lookup_request
                   (LanggraphApp.first_feed MoreSamples.feed_final)
                   (LanggraphApp.token_of MoreSamples.feed_final
                      (LanggraphApp.first_feed MoreSamples.feed_final))
                   name e)
         requests
    /\ length (ScanSpec.references Samples.healthy_env
                 (NugetHelper.collect_csproj_files Samples.healthy_env root))
       <= length requests
       <= 2 * length (ScanSpec.references Samples.healthy_env
                        (NugetHelper.collect_csproj_files Samples.healthy_env
                           root)).
Proof.
  apply (complete_run_effects_in_order nat Samples.healthy_env
           (Samples.initial_with_feed "/p" "net8.0" "https://mine.example/v3")
           MoreSamples.feed_final Samples.start MoreSamples.feed_run.2).
  vm_compute. reflexivity.
Defined.

(** X6. A project without descriptors: a complete sequential run reports
    no package, sends no registry request, and still asks the completion
    service twice. *)
Theorem run_without_descriptors :
  forall W (env : Py.Env W) (initial_state final : LanggraphApp.UpgradeState)
         (st st' : Py.store W) root,
    LanggraphApp.run_sequential env initial_state st = (Py.Ok final, st') ->
    LanggraphApp.uploaded_file_path initial_state = Some root ->
    NugetHelper.collect_csproj_files env root = [] ->
    LanggraphApp.csproj_paths final = Some []
    /\ LanggraphApp.package_report final = Some []
    /\ exists prompt1 prompt2,
         Py.log st'
         = Py.log st
           ++ map Py.JwtIssued (default [] (LanggraphApp.private_feeds final))
           ++ [Py.ChatCreate prompt1 3000; Py.ChatCreate prompt2 3500].
Proof.
  intros W env initial_state final st st' root H Hroot Hnone.
  pose proof (RunShape.run_sequential_shape env _ _ _ _ H)
    as (root0 & feeds & tokens & pkgs0 & content & preview & st3' & st4' & st5
        & Hroot0 & _ & _ & _ & _ & _ & Hfinal).
  rewrite Hroot in Hroot0. inversion Hroot0; subst root0.
  apply RunTrace.run_sequential_events in H
    as (root1 & pkgs & st3 & st4 & p1 & p2 & Hroot1 & Hpk & Hl3 & Hscan & Hl).
  rewrite Hroot in Hroot1. inversion Hroot1; subst root1.
  rewrite Hnone in Hscan. cbn [ScanSpec.references flat_map] in Hscan.
  apply PyFacts.ret_ok_inv in Hscan as [-> ->].
  split; [|split; [exact Hpk|]].
  - subst final. cbn. rewrite Hnone. reflexivity.
  - exists p1, p2. rewrite Hl, Hl3, <- List.app_assoc. reflexivity.
Qed.

Lemma run_without_descriptors_witness :
  LanggraphApp.csproj_paths MoreSamples.bare_final = Some []
  /\ LanggraphApp.package_report MoreSamples.bare_final = Some []
  /\ exists prompt1 prompt2,
       Py.log MoreSamples.bare_run.2
       = Py.log Samples.start
         ++ map Py.JwtIssued
              (default [] (LanggraphApp.private_feeds MoreSamples.bare_final))
         ++ [Py.ChatCreate prompt1 3000; Py.ChatCreate prompt2 3500].
Proof.
  apply (run_without_descriptors nat MoreSamples.bare_env
           (Samples.initial "/p" "net8.0") MoreSamples.bare_final
           Samples.start MoreSamples.bare_run.2 "/p").
  - vm_compute. reflexivity.
  - reflexivity.
  - reflexivity.
Defined.

(** ** The version resolver *)

(** X7. The requests of one lookup. The resolver always returns. With a
    feed URL it asks the private feed first, with the bearer token when a
    token is given, and asks the public registry only when the feed gave no
    version list; the public request never carries credentials. Without a
    feed URL it sends the public request alone, whatever the token. *)
Theorem resolver_requests :
  forall W (env : Py.Env W) (package_name : string)
         (feed_url token : option string) (st : Py.store W),
    exists v st',
      NugetHelper.get_latest_nuget_version_for_feed env package_name feed_url
        token st = (Py.Ok v, st')
      /\ Py.log st'
         = Py.log st
           ++ TraceSpec.requests_of env package_name feed_url token
                (Py.world st)
      /\ (Py.truthy feed_url = false ->
          Py.log st'
          = Py.log st
            ++ [Py.HttpGet (ResolverSpec.public_url package_name) None])
      /\ (forall vs,
            Py.truthy feed_url = true ->
            ResolverSpec.versions_of
              (Py.requests_get env (Py.world st)
                 (ResolverSpec.private_url (default "" feed_url) package_name)
                 (ResolverSpec.bearer token)).1 = Some vs ->
            v = NugetHelper.pick_latest vs
            /\ Py.log st'
               = Py.log st
                 ++ [Py.HttpGet
                       (ResolverSpec.private_url (default "" feed_url)
                          package_name)
                       (ResolverSpec.bearer token)]).
Proof.
  intros W env package_name feed_url token st.
  destruct (TraceFacts.get_latest_trace env package_name feed_url token st)
    as (v & st' & Hrun & Hlog).
  exists v, st'. split; [exact Hrun|]. split; [exact Hlog|]. split.
  - intros Hf. rewrite Hlog. unfold TraceSpec.requests_of. rewrite Hf.
    reflexivity.
  - intros vs Hf Hvs. split.
    + destruct feed_url as [feed|]; [|discriminate Hf].
      assert (Hne : feed <> "").
      { intros ->. discriminate Hf. }
      cbn [default from_option id] in Hvs.
      rewrite (ResolverFacts.private_block_returns env package_name feed
                 token st vs Hne Hvs) in Hrun.
      inversion Hrun. reflexivity.
    + rewrite Hlog. unfold TraceSpec.requests_of. rewrite Hf, Hvs.
      reflexivity.
Qed.

(** X8. The choice among the versions of a registry answer. Nothing is
    chosen exactly when the list is empty, and a chosen version is always
    one of the list. Publishing a stable version makes it the chosen one.
    Publishing a pre-release leaves the choice as it was when the list has
    a stable version, and becomes the choice when it has none. *)
Theorem pick_latest_under_publication :
  forall (vs : list string) (new : string),
    (NugetHelper.pick_latest vs = None <-> vs = [])
    /\ (forall v, NugetHelper.pick_latest vs = Some v -> In v vs)
    /\ (ResolverSpec.stable new ->
        NugetHelper.pick_latest (vs ++ [new]) = Some new)
    /\ (~ ResolverSpec.stable new ->
        Exists ResolverSpec.stable vs ->
        NugetHelper.pick_latest (vs ++ [new]) = NugetHelper.pick_latest vs)
    /\ (~ ResolverSpec.stable new ->
        Forall (fun u => ~ ResolverSpec.stable u) vs ->
        NugetHelper.pick_latest (vs ++ [new]) = Some new).
Proof.
  intros vs new.
  pose proof (ResolverFacts.pick_latest_chosen vs) as Hc.
  split; [|split; [|split; [|split]]].
  - split.
    + intros Hn. rewrite Hn in Hc. inversion Hc; reflexivity.
    + intros ->. reflexivity.
  - intros v Hv. rewrite Hv in Hc. inversion Hc; subst.
    + apply in_or_app. right. left. reflexivity.
    + apply in_or_app. right. left. reflexivity.
  - intros Hs. symmetry. apply ResolverFacts.chosen_pick_latest.
    apply ResolverSpec.chosen_stable; [exact Hs | constructor].
  - intros Hn Hex.
    destruct (ResolverFacts.split_last_stable vs)
      as [(pre & v & post & -> & Hv & Hpost) | Hall].
    + transitivity (Some v).
      * symmetry. apply ResolverFacts.chosen_pick_latest.
        rewrite <- List.app_assoc. cbn [app].
        apply ResolverSpec.chosen_stable; [exact Hv|].
        apply Forall_app. split; [exact Hpost|].
        apply List.Forall_cons; [exact Hn | apply List.Forall_nil].
      * apply ResolverFacts.chosen_pick_latest.
        apply ResolverSpec.chosen_stable; assumption.
    + exfalso. apply List.Exists_exists in Hex as (x & Hin & Hx).
      rewrite List.Forall_forall in Hall. exact (Hall x Hin Hx).
  - intros Hn Hall. symmetry. apply ResolverFacts.chosen_pick_latest.
    apply ResolverSpec.chosen_last.
    apply Forall_app. split; [exact Hall|].
    apply List.Forall_cons; [exact Hn | apply List.Forall_nil].
Qed.

(** ** The package scan *)

Module ScanMore.
Import PyStr Re Py NugetHelper LanggraphApp ResolverSpec ScanSpec TraceSpec
  PyFacts DictFacts ResolverFacts ScanFacts NodeFacts TraceFacts.
Local Open Scope py_scope.

Lemma existsb_dict_get {V} k (d : list (string * V)) :
  existsb (String.eqb k) (map fst d)
  = match dict_get k d with Some _ => true | None => false end.
Proof.
  induction d as [|[k' v'] d IH]; [reflexivity|].
  cbn [map fst existsb dict_get].
  destruct (String.eqb k k'); [reflexivity | exact IH].
Qed.

Lemma record_package_adds_key name ver lat pkgs :
  map fst (record_package name ver lat pkgs) = add_key (map fst pkgs) name.
Proof.
  unfold record_package, add_key.
  rewrite dict_update_keys, dict_setdefault_keys, existsb_dict_get.
  destruct (dict_get name pkgs); reflexivity.
Qed.

Section WithEnv.
Context {W : Type} (env : Env W) (state : UpgradeState).

Lemma scan_refs_key_order refs : forall pkgs (st : store W) pkgs' st',
  scan_refs env state refs pkgs st = (Ok pkgs', st') ->
  map fst pkgs' = fold_left add_key (map fst refs) (map fst pkgs).
Proof.
  induction refs as [|[name ver] refs IH]; intros pkgs st pkgs' st' H.
  - apply ret_ok_inv in H as [-> _]. reflexivity.
  - apply scan_refs_cons_inv in H as (lat & st1 & _ & Hrest).
    apply IH in Hrest. rewrite Hrest, record_package_adds_key. reflexivity.
Qed.

Local Abbreviation scan_body :=
  (fun pkgs p =>
     bind (read_text env p)
       (fun text => scan_refs env state (findall2 PKG_RE text) pkgs)).

Lemma scan_paths_total paths : forall pkgs0 (st : store W),
  (forall p, In p paths -> is_Some (fs_read_text env p)) ->
  exists pkgs st', for_each paths scan_body pkgs0 st = (Ok pkgs, st').
Proof.
  induction paths as [|p paths IH]; intros pkgs0 st Hread.
  - exists pkgs0, st. reflexivity.
  - destruct (Hread p (or_introl eq_refl)) as [text Ht].
    destruct (scan_refs_total env state (findall2 PKG_RE text) pkgs0 st)
      as (p1 & st1 & H1).
    destruct (IH p1 st1) as (pkgs & st' & Hrest).
    { intros q Hq. apply Hread. right. exact Hq. }
    exists pkgs, st'. cbn [for_each]. unfold bind at 1. unfold bind at 1.
    unfold read_text at 1. rewrite Ht. cbn [ok_or ret]. rewrite H1.
    exact Hrest.
Qed.

Lemma scan_paths_raise paths : forall pkgs0 (st : store W) e st',
  for_each paths scan_body pkgs0 st = (Raise e, st') ->
  exists p, In p paths /\ fs_read_text env p = None /\ e = OSError p.
Proof.
  induction paths as [|p paths IH]; intros pkgs0 st e st' H.
  - discriminate H.
  - cbn [for_each] in H. unfold bind at 1 in H. unfold bind at 1 in H.
    unfold read_text at 1 in H.
    destruct (fs_read_text env p) as [text|] eqn:Ht; cbn [ok_or ret raise] in H.
    + destruct (scan_refs_total env state (findall2 PKG_RE text) pkgs0 st)
        as (p1 & st1 & H1).
      rewrite H1 in H. apply IH in H as (q & Hq & Hnone & He).
      exists q. split; [right; exact Hq | split; assumption].
    + inversion H. exists p. split; [left; reflexivity|].
      split; [exact Ht | reflexivity].
Qed.

End WithEnv.
End ScanMore.

(** X9. The keys of the report of the scan are the names of the package
    references of the scanned descriptors, each once, in the order of
    their first occurrence. *)
Theorem report_keys_in_order_of_first_reference :
  forall W (env : Py.Env W) (state state' : LanggraphApp.UpgradeState)
         (st st' : Py.store W),
    LanggraphApp.scan_packages_node env state st = (Py.Ok state', st') ->
    exists root,
      LanggraphApp.uploaded_file_path state = Some root
      /\ map fst (default [] (LanggraphApp.package_report state'))
         = TraceSpec.first_occurrences
             (map fst
                (ScanSpec.references env
                   (LanggraphApp.scanned_paths env state root)))
      /\ NoDup (map fst (default [] (LanggraphApp.package_report state'))).
Proof.
  intros W env state state' st st' H.
  apply ScanFacts.scan_packages_node_inv in H
    as (root & pkgs & Hroot & -> & Hscan).
  exists root. split; [exact Hroot|].
  cbn [LanggraphApp.package_report LanggraphApp.set_package_report
       default from_option id].
  split.
  - apply ScanMore.scan_refs_key_order in Hscan. exact Hscan.
  - apply ScanFacts.scan_refs_NoDup in Hscan; [exact Hscan | constructor].
Qed.

Lemma report_keys_in_order_of_first_reference_witness :
  exists root,
    LanggraphApp.uploaded_file_path (Samples.initial "/p" "net8.0") = Some root
    /\ map fst
         (default []
            (LanggraphApp.package_report
               (LanggraphApp.set_package_report
                  [("Dup", Py.PkgInfo "1.0" (Some "2.0.0"));
                   ("Other", Py.PkgInfo "5.0" (Some "1.0.0"))]
                  (Samples.initial "/p" "net8.0"))))
       = TraceSpec.first_occurrences
           (map fst
              (ScanSpec.references Samples.drifting_env
                 (LanggraphApp.scanned_paths Samples.drifting_env
                    (Samples.initial "/p" "net8.0") root)))
    /\ NoDup
         (map fst
            (default []
               (LanggraphApp.package_report
                  (LanggraphApp.set_package_report
                     [("Dup", Py.PkgInfo "1.0" (Some "2.0.0"));
                      ("Other", Py.PkgInfo "5.0" (Some "1.0.0"))]
                     (Samples.initial "/p" "net8.0"))))).
Proof.
  eapply (report_keys_in_order_of_first_reference nat Samples.drifting_env
            (Samples.initial "/p" "net8.0") _ Samples.start).
  vm_compute. reflexivity.
Defined.

(** X10. A scan without a usable private feed (no feed list, an empty
    list, or an empty first URL) sends exactly one request per package
    reference, in scan order, to the public registry and without
    credentials. A package referenced twice is looked up twice: nothing is
    cached. *)
Theorem scan_without_feed_asks_public_registry :
  forall W (env : Py.Env W) (state state' : LanggraphApp.UpgradeState)
         (st st' : Py.store W),
    Py.truthy (LanggraphApp.first_feed state) = false ->
    LanggraphApp.scan_packages_node env state st = (Py.Ok state', st') ->
    exists root,
      LanggraphApp.uploaded_file_path state = Some root
      /\ Py.log st'
         = Py.log st
           ++ map (fun r => Py.HttpGet (ResolverSpec.public_url r.1) None)
                (ScanSpec.references env
                   (LanggraphApp.scanned_paths env state root)).
Proof.
  intros W env state state' st st' Hf H.
  apply ScanFacts.scan_packages_node_inv in H
    as (root & pkgs & Hroot & _ & Hscan).
  exists root. split; [exact Hroot|].
  exact (TraceFacts.scan_refs_public_trace env state _ _ _ _ _ Hf Hscan).
Qed.

Lemma scan_without_feed_asks_public_registry_witness :
  exists root,
    LanggraphApp.uploaded_file_path (Samples.initial "/p" "net8.0") = Some root
    /\ Py.log
         (Py.Store 3
            [Py.HttpGet "https://api.nuget.org/v3-flatcontainer/dup/index.json"
               None;
             Py.HttpGet "https://api.nuget.org/v3-flatcontainer/other/index.json"
               None;
             Py.HttpGet "https://api.nuget.org/v3-flatcontainer/dup/index.json"
               None])
       = Py.log Samples.start
         ++ map (fun r => Py.HttpGet (ResolverSpec.public_url r.1) None)
              (ScanSpec.references Samples.drifting_env
                 (LanggraphApp.scanned_paths Samples.drifting_env
                    (Samples.initial "/p" "net8.0") root)).
Proof.
  eapply (scan_without_feed_asks_public_registry nat Samples.drifting_env
            (Samples.initial "/p" "net8.0") _ Samples.start).
  - reflexivity.
  - vm_compute. reflexivity.
Defined.

(** X11. Registry failures never fail the scan. When the state has a root
    and every scanned descriptor can be read, the scan completes, whatever
    the registries answer and even when every request fails: the state it
    returns holds a report under [package_report] and is the given state in
    every other key. *)
Theorem scan_survives_registry_failures :
  forall W (env : Py.Env W) (state : LanggraphApp.UpgradeState)
         (st : Py.store W) root,
    LanggraphApp.uploaded_file_path state = Some root ->
    (forall p, In p (LanggraphApp.scanned_paths env state root) ->
               is_Some (Py.fs_read_text env p)) ->
    exists pkgs state' st',
      LanggraphApp.scan_packages_node env state st = (Py.Ok state', st')
      /\ LanggraphApp.package_report state' = Some pkgs
      /\ state' = LanggraphApp.set_package_report pkgs state
      /\ LanggraphApp.uploaded_file_path state' = Some root
      /\ LanggraphApp.csproj_paths state' = LanggraphApp.csproj_paths state
      /\ LanggraphApp.private_feeds state' = LanggraphApp.private_feeds state
      /\ LanggraphApp.feed_tokens state' = LanggraphApp.feed_tokens state.
Proof.
  intros W env state st root Hroot Hread.
  destruct (ScanMore.scan_paths_total env state
              (LanggraphApp.scanned_paths env state root) [] st Hread)
    as (pkgs & st' & Hrun).
  exists pkgs, (LanggraphApp.set_package_report pkgs state), st'.
  split.
  - unfold LanggraphApp.scan_packages_node.
    rewrite (PyFacts.bind_ok_intro _ _ _ _ _
               (NodeFacts.get_root_present state root st Hroot)).
    rewrite (PyFacts.bind_ok_intro _ _ _ _ _ Hrun). reflexivity.
  - cbn. rewrite Hroot. repeat split.
Qed.

Lemma scan_survives_registry_failures_witness :
  exists pkgs state' st',
    LanggraphApp.scan_packages_node MoreSamples.offline_env
      (Samples.initial "/p" "net8.0") Samples.start
    = (Py.Ok state', st')
    /\ LanggraphApp.package_report state' = Some pkgs
    /\ state'
       = LanggraphApp.set_package_report pkgs (Samples.initial "/p" "net8.0")
    /\ LanggraphApp.uploaded_file_path state' = Some "/p"
    /\ LanggraphApp.csproj_paths state'
       = LanggraphApp.csproj_paths (Samples.initial "/p" "net8.0")
    /\ LanggraphApp.private_feeds state'
       = LanggraphApp.private_feeds (Samples.initial "/p" "net8.0")
    /\ LanggraphApp.feed_tokens state'
       = LanggraphApp.feed_tokens (Samples.initial "/p" "net8.0").
Proof.
  apply (scan_survives_registry_failures nat MoreSamples.offline_env
           (Samples.initial "/p" "net8.0") Samples.start "/p").
  - reflexivity.
  - intros p [<-|[]]. exists Samples.descriptor. reflexivity.
Defined.

(** X12. The only ways the scan fails: the state has no root, which is the
    key error, or a scanned descriptor cannot be read, which is the error
    of that file. *)
Theorem scan_fails_only_on_root_or_unreadable_descriptor :
  forall W (env : Py.Env W) (state : LanggraphApp.UpgradeState)
         (st st' : Py.store W) e,
    LanggraphApp.scan_packages_node env state st = (Py.Raise e, st') ->
    (LanggraphApp.uploaded_file_path state = None
     /\ e = Py.KeyError "uploaded_file_path")
    \/ (exists root p,
          LanggraphApp.uploaded_file_path state = Some root
          /\ In p (LanggraphApp.scanned_paths env state root)
          /\ Py.fs_read_text env p = None
          /\ e = Py.OSError p).
Proof.
  intros W env state st st' e H.
  unfold LanggraphApp.scan_packages_node, LanggraphApp.get_root in H.
  destruct (LanggraphApp.uploaded_file_path state) as [root|] eqn:Hroot.
  - right. cbn [Py.ok_or] in H. rewrite PyFacts.bind_ret_l in H.
    unfold Py.bind at 1 in H.
    match type of H with
    | context [Py.for_each ?l ?f ?a st] =>
        destruct (Py.for_each l f a st) as [[pkgs|e1] st1] eqn:E
    end.
    + discriminate H.
    + inversion H; subst e1 st1.
      apply (ScanMore.scan_paths_raise env state) in E
        as (p & Hin & Hnone & He).
      exists root, p. repeat split; assumption.
  - left. cbn [Py.ok_or] in H. inversion H. split; reflexivity.
Qed.

Lemma scan_fails_only_on_root_or_unreadable_descriptor_witness :
  (LanggraphApp.uploaded_file_path (Samples.initial "/p" "net8.0") = None
   /\ Py.OSError "/p/A.csproj" = Py.KeyError "uploaded_file_path")
  \/ (exists root p,
        LanggraphApp.uploaded_file_path (Samples.initial "/p" "net8.0")
        = Some root
        /\ In p (LanggraphApp.scanned_paths Samples.unreadable_env
                   (Samples.initial "/p" "net8.0") root)
        /\ Py.fs_read_text Samples.unreadable_env p = None
        /\ Py.OSError "/p/A.csproj" = Py.OSError p).
Proof.
  apply (scan_fails_only_on_root_or_unreadable_descriptor nat
           Samples.unreadable_env (Samples.initial "/p" "net8.0")
           Samples.start Samples.start (Py.OSError "/p/A.csproj")).
  reflexivity.
Defined.

(** ** Feed discovery and descriptor collection *)

Module DiscoveryFacts.
Import PyStr Re Py NugetHelper PyFacts StrFacts NodeFacts.
Local Open Scope py_scope.

Lemma endswith_app_r (a s p : string) :
  endswith s p = true -> endswith (a +:+ s) p = true.
Proof.
  intros H. induction a as [|c a IH].
  - rewrite sapp_nil_l. exact H.
  - rewrite sapp_cons. cbn [endswith]. rewrite IH. apply orb_true_r.
Qed.

Lemma endswith_path_join (r f p : string) :
  endswith f p = true -> endswith (path_join r f) p = true.
Proof.
  intros H. unfold path_join.
  destruct (startswith f "/"); [exact H|].
  destruct (String.eqb r "" || endswith r "/").
  - apply endswith_app_r. exact H.
  - apply endswith_app_r, endswith_app_r. exact H.
Qed.

Section WithEnv.
Context {W : Type} (env : Env W).

(** The value [u] is declared by a readable feed-configuration file of the
    walk [walk]. *)
Local Abbreviation declared_in walk u :=
  (exists r files f text,
      In (r, files) walk /\ In f files
      /\ lower f = "nuget.config"
      /\ fs_read_text env (path_join r f) = Some text
      /\ In u (findall1 FEED_RE text)).

Local Abbreviation config_body r :=
  (fun feeds f =>
     if String.eqb (lower f) "nuget.config"
     then bind (read_text env (path_join r f))
            (fun txt => ret (feeds ++ findall1 FEED_RE txt))
     else ret feeds).

Lemma config_files_ok r files : forall feeds0 (st : store W) feeds st',
  for_each files (config_body r) feeds0 st = (Ok feeds, st') ->
  forall u,
    In u feeds
    <-> In u feeds0
        \/ exists f text,
             In f files /\ lower f = "nuget.config"
             /\ fs_read_text env (path_join r f) = Some text
             /\ In u (findall1 FEED_RE text).
Proof.
  induction files as [|f files IH]; intros feeds0 st feeds st' H u.
  - apply ret_ok_inv in H as [-> _]. split; [auto|].
    intros [Hu|(f & t & [] & _)]. exact Hu.
  - cbn [for_each] in H. apply bind_ok_inv in H as (a1 & st1 & H1 & H).
    pose proof (IH _ _ _ _ H u) as Hiff. clear IH. rewrite Hiff.

    destruct (String.eqb_spec (lower f) "nuget.config") as [Hlow|Hlow].
    + apply bind_ok_inv in H1 as (txt & st2 & Hr & Hret).
      apply ret_ok_inv in Hret as [-> _].
      unfold read_text in Hr. apply ok_or_ok_inv in Hr as [Hr _].
      rewrite in_app_iff. split.
      * intros [[Hu|Hu]|(g & t & Hg & Hl & Ht & Hu)].
        -- left. exact Hu.
        -- right. exists f, txt. repeat split; try assumption. left; reflexivity.
        -- right. exists g, t. repeat split; try assumption. right; exact Hg.
      * intros [Hu|(g & t & [<-|Hg] & Hl & Ht & Hu)].
        -- left. left. exact Hu.
        -- left. right. rewrite Hr in Ht. inversion Ht; subst t. exact Hu.
        -- right. exists g, t. repeat split; assumption.
    + apply ret_ok_inv in H1 as [-> _]. split.
      * intros [Hu|(g & t & Hg & Hl & Ht & Hu)].
        -- left. exact Hu.
        -- right. exists g, t. repeat split; try assumption. right; exact Hg.
      * intros [Hu|(g & t & [<-|Hg] & Hl & Ht & Hu)].
        -- left. exact Hu.
        -- contradiction.
        -- right. exists g, t. repeat split; assumption.
Qed.

Lemma config_walk_ok walk : forall feeds0 (st : store W) feeds st',
  for_each walk
    (fun feeds '(r, files) => for_each files (config_body r) feeds)
    feeds0 st = (Ok feeds, st') ->
  forall u, In u feeds <-> In u feeds0 \/ declared_in walk u.
Proof.
  induction walk as [|[r files] walk IH]; intros feeds0 st feeds st' H u.
  - apply ret_ok_inv in H as [-> _]. split; [auto|].
    intros [Hu|(r & fs & f & t & [] & _)]. exact Hu.
  - cbn [for_each] in H. apply bind_ok_inv in H as (a1 & st1 & H1 & H).
    pose proof (IH _ _ _ _ H u) as Hiff. clear IH. rewrite Hiff.
    pose proof (config_files_ok _ _ _ _ _ _ H1 u) as Hin. rewrite Hin.
    split.
    + intros [[Hu|(f & t & Hf & Hl & Ht & Hu)]
             |(r' & fs & f & t & Hd & Hf & Hl & Ht & Hu)].
      * left. exact Hu.
      * right. exists r, files, f, t. repeat split; try assumption.
        left; reflexivity.
      * right. exists r', fs, f, t. repeat split; try assumption.
        right; exact Hd.
    + intros [Hu|(r' & fs & f & t & [Hd|Hd] & Hf & Hl & Ht & Hu)].
      * left. left. exact Hu.
      * inversion Hd; subst r' fs. left. right. exists f, t.
        repeat split; assumption.
      * right. exists r', fs, f, t. repeat split; assumption.
Qed.

Lemma config_files_raise r files : forall feeds0 (st : store W) e st',
  for_each files (config_body r) feeds0 st = (Raise e, st') ->
  exists f,
    In f files /\ lower f = "nuget.config"
    /\ fs_read_text env (path_join r f) = None
    /\ e = OSError (path_join r f).
Proof.
  induction files as [|f files IH]; intros feeds0 st e st' H.
  - discriminate H.
  - cbn [for_each] in H. unfold bind at 1 in H.
    destruct (String.eqb_spec (lower f) "nuget.config") as [Hlow|Hlow].
    + unfold bind at 1 in H. unfold read_text at 1 in H.
      destruct (fs_read_text env (path_join r f)) as [txt|] eqn:Ht;
        cbn [ok_or ret raise] in H.
      * apply IH in H as (g & Hg & Hl & Hn & He).
        exists g. split; [right; exact Hg|]. repeat split; assumption.
      * inversion H. exists f. split; [left; reflexivity|].
        split; [exact Hlow|]. split; [exact Ht | reflexivity].
    + cbn [ret] in H. apply IH in H as (g & Hg & Hl & Hn & He).
      exists g. split; [right; exact Hg|]. repeat split; assumption.
Qed.

Lemma config_walk_raise walk : forall feeds0 (st : store W) e st',
  for_each walk
    (fun feeds '(r, files) => for_each files (config_body r) feeds)
    feeds0 st = (Raise e, st') ->
  exists r files f,
    In (r, files) walk /\ In f files /\ lower f = "nuget.config"
    /\ fs_read_text env (path_join r f) = None
    /\ e = OSError (path_join r f).
Proof.
  induction walk as [|[r files] walk IH]; intros feeds0 st e st' H.
  - discriminate H.
  - cbn [for_each] in H. unfold bind at 1 in H.
    destruct (for_each files (config_body r) feeds0 st) as [[a1|e1] st1] eqn:E.
    + apply IH in H as (r' & fs & g & Hd & Hg & Hl & Hn & He).
      exists r', fs, g. split; [right; exact Hd|]. repeat split; assumption.
    + inversion H; subst e1 st1.
      apply config_files_raise in E as (g & Hg & Hl & Hn & He).
      exists r, files, g. split; [left; reflexivity|].
      repeat split; assumption.
Qed.

End WithEnv.
End DiscoveryFacts.

(** X13. What feed discovery returns. The list has no duplicates, and its
    elements are exactly the values declared by the files of the tree whose
    name is nuget.config in any letter case. Discovery touches neither the
    network nor the log. (The order of [list(set(...))] is a permutation of
    the values, which is all that is assumed of it.) *)
Theorem discovered_feeds_are_the_declared_values :
  forall W (env : Py.Env W) (project_root : string) (feeds : list string)
         (st st' : Py.store W),
    (forall l, Permutation (Py.hash_order env l) l) ->
    NugetHelper.detect_private_feeds env project_root st = (Py.Ok feeds, st') ->
    NoDup feeds
    /\ st' = st
    /\ forall u,
         In u feeds
         <-> exists r files f text,
               In (r, files) (Py.os_walk env project_root)
               /\ In f files
               /\ PyStr.lower f = "nuget.config"
               /\ Py.fs_read_text env (Py.path_join r f) = Some text
               /\ In u (Re.findall1 NugetHelper.FEED_RE text).
Proof.
  intros W env project_root feeds st st' Hperm H.
  pose proof (NodeFacts.detect_private_feeds_pure env _ _ _ _ H) as Hst.
  unfold NugetHelper.detect_private_feeds in H.
  apply PyFacts.bind_ok_inv in H as (acc & st1 & Hloop & Hret).
  apply PyFacts.ret_ok_inv in Hret as [-> _].
  split; [|split; [exact Hst|]].
  - rewrite Hperm. apply NoDup_remove_dups.
  - intros u.
    pose proof (DiscoveryFacts.config_walk_ok env _ _ _ _ _ Hloop u) as Hiff.
    assert (Hacc : In u (Py.hash_order env (remove_dups acc)) <-> In u acc).
    { rewrite <- !list_elem_of_In, Hperm, elem_of_remove_dups. reflexivity. }
    rewrite Hacc, Hiff. split.
    + intros [[]|Hd]. exact Hd.
    + intros Hd. right. exact Hd.
Qed.

Lemma discovered_feeds_are_the_declared_values_witness :
  NoDup ["https://corp.example/nuget"]
  /\ Samples.start = Samples.start
  /\ forall u,
       In u ["https://corp.example/nuget"]
       <-> exists r files f text,
             In (r, files) (Py.os_walk Samples.healthy_env "/p")
             /\ In f files
             /\ PyStr.lower f = "nuget.config"
             /\ Py.fs_read_text Samples.healthy_env (Py.path_join r f)
                = Some text
             /\ In u (Re.findall1 NugetHelper.FEED_RE text).
Proof.
  apply (discovered_feeds_are_the_declared_values nat Samples.healthy_env
           "/p" ["https://corp.example/nuget"] Samples.start Samples.start).
  - intros l. reflexivity.
  - vm_compute. reflexivity.
Defined.

(** X14. Feed discovery fails only on a feed-configuration file that
    cannot be read, with the error of that file; no other file of the tree
    is opened. *)
Theorem discovery_fails_only_on_unreadable_config :
  forall W (env : Py.Env W) (project_root : string) (st st' : Py.store W) e,
    NugetHelper.detect_private_feeds env project_root st = (Py.Raise e, st') ->
    st' = st
    /\ exists r files f,
         In (r, files) (Py.os_walk env project_root)
         /\ In f files
         /\ PyStr.lower f = "nuget.config"
         /\ Py.fs_read_text env (Py.path_join r f) = None
         /\ e = Py.OSError (Py.path_join r f).
Proof.
  intros W env project_root st st' e H.
  split; [exact (NodeFacts.detect_private_feeds_pure env _ _ _ _ H)|].
  unfold NugetHelper.detect_private_feeds in H.
  unfold Py.bind at 1 in H.
  match type of H with
  | context [Py.for_each ?l ?f ?a st] =>
      destruct (Py.for_each l f a st) as [[acc|e1] st1] eqn:E
  end.
  - discriminate H.
  - inversion H; subst e1 st1.
    exact (DiscoveryFacts.config_walk_raise env _ _ _ _ _ E).
Qed.

Lemma discovery_fails_only_on_unreadable_config_witness :
  Samples.start = Samples.start
  /\ exists r files f,
       In (r, files) (Py.os_walk MoreSamples.locked_config_env "/p")
       /\ In f files
       /\ PyStr.lower f = "nuget.config"
       /\ Py.fs_read_text MoreSamples.locked_config_env (Py.path_join r f)
          = None
       /\ Py.OSError "/p/NuGet.Config" = Py.OSError (Py.path_join r f).
Proof.
  apply (discovery_fails_only_on_unreadable_config nat
           MoreSamples.locked_config_env "/p" Samples.start Samples.start
           (Py.OSError "/p/NuGet.Config")).
  reflexivity.
Defined.

(** X15. The collected descriptors are exactly the files of the tree whose
    name ends with the descriptor extension, each under the path of its
    directory, and every collected path ends with that extension. *)
Theorem collected_paths_are_the_descriptors :
  forall W (env : Py.Env W) (root_dir : string),
    (forall p,
        In p (NugetHelper.collect_csproj_files env root_dir)
        <-> exists r files f,
              In (r, files) (Py.os_walk env root_dir)
              /\ In f files
              /\ PyStr.endswith f ".csproj" = true
              /\ p = Py.path_join r f)
    /\ Forall (fun p => PyStr.endswith p ".csproj" = true)
         (NugetHelper.collect_csproj_files env root_dir).
Proof.
  intros W env root_dir.
  assert (Hiff : forall p,
             In p (NugetHelper.collect_csproj_files env root_dir)
             <-> exists r files f,
                   In (r, files) (Py.os_walk env root_dir)
                   /\ In f files
                   /\ PyStr.endswith f ".csproj" = true
                   /\ p = Py.path_join r f).
  { intros p. unfold NugetHelper.collect_csproj_files.
    rewrite in_flat_map. split.
    - intros ([r files] & Hd & Hp). apply in_map_iff in Hp as (f & <- & Hf).
      apply list_elem_of_In, list_elem_of_filter in Hf as [He Hf].
      apply list_elem_of_In in Hf.
      exists r, files, f. repeat split; assumption.
    - intros (r & files & f & Hd & Hf & He & ->).
      exists (r, files). split; [exact Hd|].
      apply in_map_iff. exists f. split; [reflexivity|].
      apply list_elem_of_In, list_elem_of_filter.
      split; [exact He | apply list_elem_of_In; exact Hf]. }
  split; [exact Hiff|].
  apply List.Forall_forall. intros p Hp.
  apply Hiff in Hp as (r & files & f & _ & _ & He & ->).
  apply DiscoveryFacts.endswith_path_join. exact He.
Qed.

(** ** The repackager *)

Module RepackMore.
Import PyStr Re Py FileUtils StrSpec RepackSpec PyFacts StrFacts RepackFacts.
Local Open Scope py_scope.

Section WithEnv.
Context {W : Type} (env : Env W) (root : string)
  (updates : gmap string string) (target : string).
Hypothesis target_plain : has_char backslash target = false.
Context (zpath : string).

Lemma zip_add_raise name data (st : store W) e st' :
  zip_add env zpath name data st = (Raise e, st') ->
  zip_write env zpath name data = false /\ e = ZipError name /\ st' = st.
Proof.
  unfold zip_add. destruct (zip_write env zpath name data); [discriminate|].
  intros H. inversion H. repeat split.
Qed.

Lemma zip_add_step name data (k : unit -> M W zip_entry) (st : store W) e st' :
  bind (zip_add env zpath name data) k st = (Raise e, st') ->
  (forall u st1, exists m, k u st1 = (Ok m, st1)) ->
  zip_write env zpath name data = false /\ e = ZipError name /\ st' = st.
Proof.
  intros H Hk. unfold bind in H.
  destruct (zip_add env zpath name data st) as [[u|e1] st1] eqn:E.
  - destruct (Hk u st1) as (m & Hm). rewrite Hm in H. discriminate H.
  - inversion H; subst e1 st1. apply zip_add_raise in E. exact E.
Qed.

Lemma repackage_file_raise r f (st : store W) e st' :
  repackage_file env zpath root updates target r f st = (Raise e, st') ->
  failed_on env root updates target zpath (r, f) e /\ st' = st.
Proof.
  unfold repackage_file, failed_on, servable, written. cbn [fst snd].
  destruct (updates !! _) as [content|] eqn:Hupd.
  - intros H. apply zip_add_step in H as (Hw & -> & ->).
    + split; [|reflexivity]. right. exists content. repeat split. exact Hw.
    + intros u st1. eexists. reflexivity.
  - destruct (endswith _ ".csproj").
    + destruct (fs_open_read env (path_join r f)) as [orig|] eqn:Hread;
        cbn [ok_or].
      * rewrite bind_ret_l. fold OPEN_TAG CLOSE_TAG.
        rewrite (bind_ok_intro _ _ _ _ _
                   (re_sub_call_plain env target target_plain orig st)).
        intros H. apply zip_add_step in H as (Hw & -> & ->).
        -- split; [|reflexivity]. right. eexists. split; [|split].
           ++ split; [reflexivity|]. exists orig. split; reflexivity.
           ++ exact Hw.
           ++ reflexivity.
        -- intros u st1. eexists. reflexivity.
      * intros H. inversion H. split; [|reflexivity]. left.
        split; [|reflexivity]. intros [x Hx]. discriminate Hx.
    + destruct (fs_read_bytes env (path_join r f)) as [bytes|] eqn:Hread;
        cbn [ok_or].
      * rewrite bind_ret_l.
        intros H. apply zip_add_step in H as (Hw & -> & ->).
        -- split; [|reflexivity]. right. exists bytes. repeat split. exact Hw.
        -- intros u st1. eexists. reflexivity.
      * intros H. inversion H. split; [|reflexivity]. left.
        split; [|reflexivity]. intros [x Hx]. discriminate Hx.
Qed.

Local Abbreviation add_member r :=
  (fun (z : list zip_entry) (f : string) =>
     bind (repackage_file env zpath root updates target r f)
       (fun e => @ret W _ (z ++ [e]))).

Lemma inner_loop_raise r fs : forall z0 (st : store W) e st',
  for_each fs (add_member r) z0 st = (Raise e, st') ->
  exists f, In f fs /\ failed_on env root updates target zpath (r, f) e /\ st' = st.
Proof.
  induction fs as [|f fs IH]; intros z0 st e st' H.
  - discriminate H.
  - cbn [for_each] in H. unfold bind at 1 in H. unfold bind at 1 in H.
    destruct (repackage_file env zpath root updates target r f st)
      as [[m|e1] st1] eqn:E.
    + apply (repackage_file_written env root updates target target_plain)
        in E as [_ ->].
      cbn [ret] in H. apply IH in H as (g & Hg & Hs & Hst).
      exists g. split; [right; exact Hg|]. split; assumption.
    + inversion H; subst e1 st1.
      apply repackage_file_raise in E as (Hs & Hst).
      exists f. split; [left; reflexivity|]. split; assumption.
Qed.

Local Abbreviation add_directory :=
  (fun (z : list zip_entry) '((r, fs) : string * list string) =>
     for_each fs (add_member r) z).

Lemma outer_loop_raise walk : forall z0 (st : store W) e st',
  for_each walk add_directory z0 st = (Raise e, st') ->
  exists file, In file (files_of walk) /\ failed_on env root updates target zpath file e /\ st' = st.
Proof.
  induction walk as [|[r fs] walk IH]; intros z0 st e st' H.
  - discriminate H.
  - cbn [for_each] in H. unfold bind at 1 in H.
    destruct (for_each fs (add_member r) z0 st) as [[z1|e1] st1] eqn:E.
    + apply (inner_loop_written env root updates target target_plain)
        in E as (es & _ & _ & ->).
      apply IH in H as (file & Hin & Hs & Hst).
      exists file. split; [|split; assumption].
      unfold files_of. cbn [flat_map]. apply in_or_app. right. exact Hin.
    + inversion H; subst e1 st1.
      apply inner_loop_raise in E as (f & Hf & Hs & Hst).
      exists (r, f). split; [|split; assumption].
      unfold files_of. cbn [flat_map]. apply in_or_app. left.
      apply in_map. exact Hf.
Qed.

Lemma written_names files : forall z,
  Forall2 (written env root updates target) files z ->
  map fst z
  = map (fun file => os_path_relpath env (path_join file.1 file.2) root) files.
Proof.
  induction files as [|file files IH]; intros z H; inversion H; subst.
  - reflexivity.
  - cbn [map]. f_equal.
    + match goal with Hw : written _ _ _ _ _ _ |- _ => exact (proj1 Hw) end.
    + apply IH. assumption.
Qed.

End WithEnv.
End RepackMore.

(** X16. The members of the archive are named by the relative paths of the
    files of the tree, one member per file and in walk order: a key of the
    replacement mapping that names no file of the tree adds nothing to the
    archive. The archive is written to a path of the temporary directory
    that depends on the target version alone, and the world is left as it
    was. *)
Theorem archive_members_are_the_files_of_the_tree :
  forall W (env : Py.Env W) root updates target (st st' : Py.store W) zpath z,
    PyStr.has_char FileUtils.backslash target = false ->
    FileUtils.create_upgraded_zip env root updates target st
    = (Py.Ok (zpath, z), st') ->
    map fst z
    = map (fun file => Py.os_path_relpath env (Py.path_join file.1 file.2) root)
        (RepackSpec.files_of (Py.os_walk env root))
    /\ (forall k, In k (map fst z) -> PathSpec.names_file env root k)
    /\ zpath
       = Py.path_join (Py.gettempdir env) ("AI_Upgraded_" +:+ target +:+ ".zip")
    /\ st' = st.
Proof.
  intros W env root updates target st st' zpath z Htarget Hrun.
  apply RepackFacts.create_upgraded_zip_ok in Hrun as (_ & -> & Hloop).
  destruct (RepackFacts.outer_loop_written env root updates target Htarget
              _ _ _ _ _ _ Hloop) as (es & -> & Hes & ->).
  cbn [app].
  pose proof (RepackMore.written_names env root updates target _ _ Hes)
    as Hnames.
  split; [exact Hnames|]. split; [|split; reflexivity].
  intros k Hk. unfold PathSpec.names_file. rewrite <- Hnames. exact Hk.
Qed.

Lemma archive_members_are_the_files_of_the_tree_witness :
  map fst [("A.csproj", Samples.descriptor_for "net8.0")]
  = map (fun file =>
           Py.os_path_relpath Samples.single_env
             (Py.path_join file.1 file.2) "/p")
      (RepackSpec.files_of (Py.os_walk Samples.single_env "/p"))
  /\ (forall k,
        In k (map fst [("A.csproj", Samples.descriptor_for "net8.0")]) ->
        PathSpec.names_file Samples.single_env "/p" k)
  /\ "/tmp/AI_Upgraded_net8.0.zip"
     = Py.path_join (Py.gettempdir Samples.single_env)
         ("AI_Upgraded_" +:+ "net8.0" +:+ ".zip")
  /\ Samples.start = Samples.start.
Proof.
  apply (archive_members_are_the_files_of_the_tree nat Samples.single_env
           "/p" {[ "/etc/hosts" := "<Project />" ]} "net8.0"
           Samples.start Samples.start).
  - reflexivity.
  - vm_compute. reflexivity.
Defined.

(** X17. For a target without a backslash the repackager fails in three
    ways only, each time handing back no archive path and leaving the world
    as it was: the archive cannot be created, and the error names the
    archive; or the archive was created and a file of the tree that is not
    replaced cannot be read, and the error names that file; or the archive
    was created and refuses the member that a file of the tree gets, and the
    error names that member. *)
Theorem repackager_fails_in_three_ways :
  forall W (env : Py.Env W) root updates target (st st' : Py.store W) e,
    PyStr.has_char FileUtils.backslash target = false ->
    FileUtils.create_upgraded_zip env root updates target st
    = (Py.Raise e, st') ->
    st' = st
    /\ ((Py.zip_create env
           (Py.path_join (Py.gettempdir env)
              ("AI_Upgraded_" +:+ target +:+ ".zip")) = false
         /\ e = Py.OSError
                  (Py.path_join (Py.gettempdir env)
                     ("AI_Upgraded_" +:+ target +:+ ".zip")))
        \/ (Py.zip_create env
              (Py.path_join (Py.gettempdir env)
                 ("AI_Upgraded_" +:+ target +:+ ".zip")) = true
            /\ exists file,
                 In file (RepackSpec.files_of (Py.os_walk env root))
                 /\ ~ RepackSpec.servable env root updates file
                 /\ e = Py.OSError (Py.path_join file.1 file.2))
        \/ (Py.zip_create env
              (Py.path_join (Py.gettempdir env)
                 ("AI_Upgraded_" +:+ target +:+ ".zip")) = true
            /\ exists file data,
                 In file (RepackSpec.files_of (Py.os_walk env root))
                 /\ RepackSpec.written env root updates target file
                      (Py.os_path_relpath env (Py.path_join file.1 file.2) root,
                       data)
                 /\ Py.zip_write env
                      (Py.path_join (Py.gettempdir env)
                         ("AI_Upgraded_" +:+ target +:+ ".zip"))
                      (Py.os_path_relpath env (Py.path_join file.1 file.2) root)
                      data = false
                 /\ e = Py.ZipError
                          (Py.os_path_relpath env
                             (Py.path_join file.1 file.2) root))).
Proof.
  intros W env root updates target st st' e Htarget Hrun.
  destruct (Py.zip_create env
              (Py.path_join (Py.gettempdir env)
                 ("AI_Upgraded_" +:+ target +:+ ".zip"))) eqn:Hcreate.
  - rewrite (RepackFacts.create_upgraded_zip_opened env root updates target st
               Hcreate) in Hrun.
    unfold Py.bind at 1 in Hrun.
    match type of Hrun with
    | context [Py.for_each ?l ?f ?a st] =>
        destruct (Py.for_each l f a st) as [[z|e1] st1] eqn:E
    end.
    + discriminate Hrun.
    + inversion Hrun; subst e1 st1.
      apply (RepackMore.outer_loop_raise env root updates target Htarget) in E
        as (file & Hin & [[Hs He] | (data & Hw & Hz & He)] & Hst).
      * split; [exact Hst|]. right. left. split; [reflexivity|].
        exists file. split; [exact Hin|]. split; [exact Hs | exact He].
      * split; [exact Hst|]. right. right. split; [reflexivity|].
        exists file, data. split; [exact Hin|]. split; [exact Hw|].
        split; [exact Hz | exact He].
  - rewrite (RepackFacts.create_upgraded_zip_closed env root updates target st
               Hcreate) in Hrun.
    inversion Hrun. split; [reflexivity|]. left. split; reflexivity.
Qed.

Lemma repackager_fails_in_three_ways_witness :
  FileUtils.create_upgraded_zip MoreSamples.full_disk_env "/p" ∅ "net8.0"
    Samples.start
  = (Py.Raise (Py.ZipError "A.csproj"), Samples.start)
  /\ FileUtils.create_upgraded_zip Samples.unreadable_env "/p" ∅ "net8.0"
       Samples.start
     = (Py.Raise (Py.OSError "/p/A.csproj"), Samples.start)
  /\ Samples.start = Samples.start
  /\ ((Py.zip_create MoreSamples.full_disk_env
         (Py.path_join (Py.gettempdir MoreSamples.full_disk_env)
            ("AI_Upgraded_" +:+ "net8.0" +:+ ".zip")) = false
       /\ Py.ZipError "A.csproj"
          = Py.OSError
              (Py.path_join (Py.gettempdir MoreSamples.full_disk_env)
                 ("AI_Upgraded_" +:+ "net8.0" +:+ ".zip")))
      \/ (Py.zip_create MoreSamples.full_disk_env
            (Py.path_join (Py.gettempdir MoreSamples.full_disk_env)
               ("AI_Upgraded_" +:+ "net8.0" +:+ ".zip")) = true
          /\ exists file,
               In file
                 (RepackSpec.files_of (Py.os_walk MoreSamples.full_disk_env "/p"))
               /\ ~ RepackSpec.servable MoreSamples.full_disk_env "/p" ∅ file
               /\ Py.ZipError "A.csproj"
                  = Py.OSError (Py.path_join file.1 file.2))
      \/ (Py.zip_create MoreSamples.full_disk_env
            (Py.path_join (Py.gettempdir MoreSamples.full_disk_env)
               ("AI_Upgraded_" +:+ "net8.0" +:+ ".zip")) = true
          /\ exists file data,
               In file
                 (RepackSpec.files_of (Py.os_walk MoreSamples.full_disk_env "/p"))
               /\ RepackSpec.written MoreSamples.full_disk_env "/p" ∅ "net8.0"
                    file
                    (Py.os_path_relpath MoreSamples.full_disk_env
                       (Py.path_join file.1 file.2) "/p", data)
               /\ Py.zip_write MoreSamples.full_disk_env
                    (Py.path_join (Py.gettempdir MoreSamples.full_disk_env)
                       ("AI_Upgraded_" +:+ "net8.0" +:+ ".zip"))
                    (Py.os_path_relpath MoreSamples.full_disk_env
                       (Py.path_join file.1 file.2) "/p")
                    data = false
               /\ Py.ZipError "A.csproj"
                  = Py.ZipError
                      (Py.os_path_relpath MoreSamples.full_disk_env
                         (Py.path_join file.1 file.2) "/p"))).
Proof.
  split; [vm_compute; reflexivity|].
  split; [vm_compute; reflexivity|].
  apply (repackager_fails_in_three_ways nat MoreSamples.full_disk_env
           "/p" ∅ "net8.0" Samples.start Samples.start
           (Py.ZipError "A.csproj")).
  - reflexivity.
  - vm_compute. reflexivity.
Defined.

(** ** The matcher: what a match consumes, and the scanner *)

Module ReTheory.
Import PyStr Re StrSpec StrFacts ReFacts.

(** A continuation is reached on a final segment of the text. *)
Lemma star_loop_sound g (body : string -> caps -> cont -> option outcome) :
  (forall s c k o,
      body s c k = Some o ->
      exists pre s1 c1, s = pre +:+ s1 /\ k s1 c1 = Some o) ->
  forall fuel s c k o,
    star_loop g body fuel s c k = Some o ->
    exists pre s1 c1, s = pre +:+ s1 /\ k s1 c1 = Some o.
Proof.
  intros Hbody. induction fuel as [|f IH]; intros s c k o H.
  - exists "", s, c. split; [reflexivity | exact H].
  - cbn [star_loop] in H.
    assert (Hagain :
              body s c (fun s1 c1 =>
                          if String.length s1 <? String.length s
                          then star_loop g body f s1 c1 k else None) = Some o ->
              exists pre s1 c1, s = pre +:+ s1 /\ k s1 c1 = Some o).
    { intros Ha. apply Hbody in Ha as (pre & s1 & c1 & -> & Hk).
      destruct (String.length s1 <? String.length (pre +:+ s1)); [|discriminate].
      apply IH in Hk as (pre2 & s2 & c2 & -> & Hk).
      exists (pre +:+ pre2), s2, c2. split; [|exact Hk].
      rewrite sapp_assoc. reflexivity. }
    destruct g.
    + destruct (body s c _) as [o1|] eqn:E.
      * inversion H; subst o1. apply Hagain. reflexivity.
      * exists "", s, c. split; [reflexivity | exact H].
    + destruct (k s c) as [o1|] eqn:E.
      * inversion H; subst o1. exists "", s, c. split; [reflexivity | exact E].
      * apply Hagain. exact H.
Qed.

Lemma rmatch_sound r : forall s c k o,
  rmatch r s c k = Some o ->
  exists pre s1 c1, s = pre +:+ s1 /\ k s1 c1 = Some o.
Proof.
  induction r as [l|p|r1 IH1 r2 IH2|r1 IH1 r2 IH2|g r1 IH1|n r1 IH1];
    intros s c k o H.
  - cbn [rmatch] in H. destruct (strip_prefix l s) as [s'|] eqn:E; [|discriminate].
    apply strip_prefix_Some in E. exists l, s', c. split; assumption.
  - cbn [rmatch] in H. destruct s as [|a s']; [discriminate|].
    destruct (p a); [|discriminate].
    exists (String a ""), s', c. split; [reflexivity | exact H].
  - rewrite rmatch_seq in H. apply IH1 in H as (pre & s1 & c1 & -> & H).
    apply IH2 in H as (pre2 & s2 & c2 & -> & H).
    exists (pre +:+ pre2), s2, c2. split; [|exact H].
    rewrite sapp_assoc. reflexivity.
  - cbn [rmatch] in H. destruct (rmatch r1 s c k) as [o1|] eqn:E.
    + inversion H; subst o1. apply IH1 in E. exact E.
    + apply IH2 in H. exact H.
  - rewrite rmatch_star in H. eapply star_loop_sound; [|exact H].
    exact IH1.
  - rewrite rmatch_group in H. apply IH1 in H as (pre & s1 & c1 & -> & H).
    exists pre, s1, ((n, consumed (pre +:+ s1) s1) :: c1). split; [reflexivity|].
    exact H.
Qed.

Lemma length_app_same (pre s : string) :
  String.length s = String.length (pre +:+ s) -> pre = "".
Proof.
  rewrite slength_app. destruct pre; [reflexivity|]. cbn [String.length]. lia.
Qed.

(** A match at the head splits the text into the match and the rest. *)
Lemma match_here_sound r b s m :
  match_here r b s = Some m ->
  m_skipped m = ""
  /\ s = m_text m +:+ m_rest m
  /\ (b = true -> m_text m <> "").
Proof.
  unfold match_here.
  destruct (rmatch r s [] _) as [[c s']|] eqn:E; [|discriminate].
  intros H. inversion H; subst m. clear H. cbn [m_skipped m_text m_rest].
  apply rmatch_sound in E as (pre & s1 & c1 & -> & Hk).
  destruct (b && (String.length s1 =? String.length (pre +:+ s1))) eqn:Hb;
    [discriminate|].
  inversion Hk; subst c s'. rewrite consumed_app.
  split; [reflexivity|]. split; [reflexivity|].
  intros -> ->. rewrite sapp_nil_l, Nat.eqb_refl in Hb. discriminate Hb.
Qed.

(** A match found by the search splits the text in three. *)
Lemma search_from_sound r s : forall b m,
  search_from r b s = Some m ->
  s = m_skipped m +:+ m_text m +:+ m_rest m
  /\ (b = true -> m_text m = "" -> m_skipped m <> "").
Proof.
  induction s as [|a s IH]; intros b m H.
  - cbn [search_from] in H.
    destruct (match_here r b "") as [m1|] eqn:E; [|discriminate].
    inversion H; subst m1.
    apply match_here_sound in E as (Hs & Ht & Hb).
    rewrite Hs, sapp_nil_l. split; [exact Ht|].
    intros Hb1 Hm. exfalso. exact (Hb Hb1 Hm).
  - cbn [search_from] in H.
    destruct (match_here r b (String a s)) as [m1|] eqn:E.
    + inversion H; subst m1.
      apply match_here_sound in E as (Hs & Ht & Hb).
      rewrite Hs, sapp_nil_l. split; [exact Ht|].
      intros Hb1 Hm. exfalso. exact (Hb Hb1 Hm).
    + destruct (search_from r false s) as [m1|] eqn:E1; [|discriminate].
      cbn [option_map] in H. inversion H; subst m. clear H.
      apply IH in E1 as [Hsplit _].
      cbn [skip m_skipped m_text m_rest]. split.
      * rewrite sapp_cons. f_equal. exact Hsplit.
      * intros _ _. discriminate.
Qed.

(** The measure that bounds the scanner. *)
Local Abbreviation weight b s :=
  (2 * String.length s + (if b : bool then 0 else 1)).

Lemma search_from_weight r b s m :
  search_from r b s = Some m ->
  weight (String.length (m_text m) =? 0) (m_rest m) < weight b s.
Proof.
  intros H. apply search_from_sound in H as [Hsplit Hadv].
  assert (Hlen : String.length s
                 = String.length (m_skipped m) + String.length (m_text m)
                   + String.length (m_rest m)).
  { rewrite Hsplit at 1. rewrite !slength_app. lia. }
  destruct (String.length (m_text m) =? 0) eqn:Ht.
  - apply Nat.eqb_eq in Ht. destruct b; [|lia].
    assert (Hsk : m_skipped m <> "").
    { apply Hadv; [reflexivity|]. destruct (m_text m); [reflexivity|].
      discriminate Ht. }
    destruct (m_skipped m); [contradiction|]. cbn [String.length] in Hlen. lia.
  - apply Nat.eqb_neq in Ht. destruct b; lia.
Qed.

Lemma scan_step r f b s :
  scan r (S f) b s
  = match search_from r b s with
    | None => []
    | Some m => m :: scan r f (String.length (m_text m) =? 0) (m_rest m)
    end.
Proof. reflexivity. Qed.

(** With enough fuel the scanner does not depend on its fuel. *)
Lemma scan_enough r : forall f f' b s,
  weight b s < f -> weight b s < f' -> scan r f b s = scan r f' b s.
Proof.
  induction f as [|f IH]; intros f' b s Hf Hf'; [lia|].
  destruct f' as [|f']; [lia|].
  rewrite !scan_step.
  destruct (search_from r b s) as [m|] eqn:E; [|reflexivity].
  f_equal. pose proof (search_from_weight _ _ _ _ E) as Hw.
  apply IH; lia.
Qed.

Lemma finditer_nil r s : search_from r false s = None -> finditer r s = [].
Proof.
  intros H. unfold finditer. rewrite scan_fuel_eq, scan_step, H.
  reflexivity.
Qed.

(** The scan goes on behind a non-empty match as a scan of the rest. *)
Lemma finditer_cons r s m :
  search_from r false s = Some m ->
  m_text m <> "" ->
  finditer r s = m :: finditer r (m_rest m).
Proof.
  intros H Ht. unfold finditer. rewrite (scan_fuel_eq s), scan_step.
  rewrite H. f_equal.
  assert (Hz : (String.length (m_text m) =? 0) = false).
  { apply Nat.eqb_neq. destruct (m_text m); [contradiction|]. discriminate. }
  pose proof (search_from_weight _ _ _ _ H) as Hw. rewrite Hz in *.
  apply scan_enough; unfold scan_fuel; lia.
Qed.

(** The skipped texts, the matches and the tail are the text. *)
Lemma scan_rebuild r : forall f b s,
  fold_right (fun m acc => m_skipped m +:+ m_text m +:+ acc)
    (tail_text s (scan r f b s)) (scan r f b s) = s.
Proof.
  induction f as [|f IH]; intros b s; [reflexivity|].
  rewrite scan_step.
  destruct (search_from r b s) as [m|] eqn:E; [|reflexivity].
  cbn [fold_right tail_text]. rewrite IH.
  apply search_from_sound in E as [Hsplit _]. symmetry. exact Hsplit.
Qed.

(** A repetition of a class consumes characters of the class. *)
Lemma star_class_sound g p : forall fuel s c k o,
  star_loop g (rmatch (Class p)) fuel s c k = Some o ->
  exists v s1, s = v +:+ s1 /\ all_chars p v = true /\ k s1 c = Some o.
Proof.
  induction fuel as [|f IH]; intros s c k o H.
  - exists "", s. repeat split. exact H.
  - destruct s as [|a s].
    + exists "", "". repeat split. cbn [star_loop rmatch] in H.
      destruct g; [exact H|]. destruct (k "" c); [exact H | discriminate].
    + rewrite star_class_cons in H.
      assert (Hagain :
                (if p a then star_loop g (rmatch (Class p)) f s c k else None)
                = Some o ->
                exists v s1,
                  String a s = v +:+ s1 /\ all_chars p v = true
                  /\ k s1 c = Some o).
      { destruct (p a) eqn:Hp; [|discriminate]. intros Ha.
        apply IH in Ha as (v & s1 & -> & Hv & Hk).
        exists (String a v), s1. split; [reflexivity|].
        split; [|exact Hk]. cbn [all_chars]. rewrite Hp, Hv. reflexivity. }
      destruct g.
      * destruct (if p a then _ else None) as [o1|] eqn:E.
        -- inversion H; subst o1. apply Hagain. reflexivity.
        -- exists "", (String a s). repeat split. exact H.
      * destruct (k (String a s) c) as [o1|] eqn:E.
        -- inversion H; subst o1. exists "", (String a s). repeat split.
           exact E.
        -- apply Hagain. exact H.
Qed.

End ReTheory.

(** ** A text of several blocks *)

Module BlockMore.
Import PyStr Re Blocks StrSpec BlockSpec StrFacts ReFacts ScanOne BlockFacts
  ReTheory.

(** The block pattern behind its start marker, on a block followed by any
    text. *)
Lemma block_tail_match_post path body post :
  no_space path = true -> path <> "" ->
  (forall v1 v2, body = v1 +:+ v2 -> v2 <> "" ->
     strip_prefix END_MARK (v2 +:+ END_MARK +:+ post) = None) ->
  rmatch
    (Seq (Star true (Class cls_space))
       (Seq (Group 1 (Star false (Class cls_any)))
          (Seq (Star true (Class cls_space))
             (Seq (Lit ("--" +:+ nl))
                (Seq (Group 2 (Star false (Class cls_any)))
                   (Lit END_MARK))))))
    (String " "
       (path +:+ String " " (("--" +:+ nl) +:+ (body +:+ (END_MARK +:+ post)))))
    [] (fun s1 c1 => Some (c1, s1))
  = Some ([(2, body); (1, path)], post).
Proof.
  intros Hpath Hne Hbody.
  set (rest2 := String " " (("--" +:+ nl) +:+ (body +:+ (END_MARK +:+ post)))).
  rewrite rmatch_seq, rmatch_star. cbn [String.length].
  apply greedy_star_one; [reflexivity|].
  destruct path as [|a path']; [contradiction|].
  rewrite sapp_cons, greedy_star_stuck by (apply (no_space_head _ _ Hpath)).
  rewrite <- sapp_cons.
  rewrite rmatch_seq, rmatch_group, rmatch_star.
  apply lazy_star_first.
  - rewrite slength_app. lia.
  - apply all_chars_any.
  - intros v1 v2 Hsplit Hv2.
    assert (Hns : no_space v2 = true).
    { unfold no_space in *. rewrite Hsplit, all_chars_app in Hpath.
      apply andb_prop in Hpath as [_ H]. exact H. }
    destruct v2 as [|b v2]; [contradiction|].
    rewrite rmatch_seq, rmatch_star, sapp_cons.
    rewrite greedy_star_stuck by (apply (no_space_head _ _ Hns)).
    rewrite rmatch_seq. apply rmatch_lit_None.
    rewrite <- sapp_cons. unfold rest2.
    apply (dashes_not_in_path _ _ Hns Hv2).
  - rewrite consumed_app.
    rewrite rmatch_seq, rmatch_star. unfold rest2 at 1 2. cbn [String.length].
    apply greedy_star_one; [reflexivity|].
    change ("--" +:+ nl) with (String "-" ("-" +:+ nl)) at 1 2.
    rewrite !sapp_cons, greedy_star_stuck by reflexivity.
    rewrite <- !sapp_cons.
    change (String "-" ("-" +:+ nl)) with ("--" +:+ nl).
    rewrite rmatch_seq, rmatch_lit_app.
    rewrite rmatch_seq, rmatch_group, rmatch_star.
    apply lazy_star_first.
    + rewrite slength_app. lia.
    + apply all_chars_any.
    + intros v1 v2 Hsplit Hv2. apply rmatch_lit_None.
      apply (Hbody v1 v2 Hsplit Hv2).
    + rewrite consumed_app. rewrite rmatch_lit_app. reflexivity.
Qed.

(** The start marker has no border: behind a text without the marker, the
    marker that follows is the first one. *)
Lemma start_marker_first pre : forall rest,
  contains pre "--FILE:" = false ->
  split_first "--FILE:" (pre +:+ "--FILE:" +:+ rest) = Some (pre, rest).
Proof.
  induction pre as [|a pre IH]; intros rest Hpre.
  - rewrite sapp_nil_l. apply split_first_head.
  - assert (Hhead : strip_prefix "--FILE:" (String a pre +:+ "--FILE:" +:+ rest)
                    = None).
    { destruct (strip_prefix "--FILE:" (String a pre +:+ "--FILE:" +:+ rest))
        as [r|] eqn:E; [|reflexivity]. exfalso.
      apply strip_prefix_app_cases in E as [(r' & E)|(m2 & Hm & E)].
      - pose proof (contains_head _ _ Hpre) as Hc. rewrite Hc in E.
        discriminate E.
      - clear IH.
        destruct pre as [|a2 [|a3 [|a4 [|a5 [|a6 [|a7 pre]]]]]];
          rewrite ?sapp_cons, ?sapp_nil_l in Hm; inversion Hm; subst;
          try (cbv in E; discriminate E).
        destruct pre as [|a8 pre];
          [cbv in Hpre; discriminate Hpre
          |match goal with H : "" = _ |- _ =>
             rewrite sapp_cons in H; discriminate H end]. }
    cbn [contains] in Hpre. apply orb_false_elim in Hpre as [_ Hpre].
    rewrite sapp_cons. cbn [split_first]. rewrite <- sapp_cons, Hhead.
    rewrite (IH rest Hpre). reflexivity.
Qed.

(** The first block of a text and the blocks of the text behind it. *)
Lemma blocks_head_block pre path content post :
  contains pre "--FILE:" = false ->
  no_space path = true -> path <> "" ->
  contains content END_MARK = false ->
  blocks (pre +:+ one_block path content +:+ post)
  = (path, strip content) :: blocks post.
Proof.
  intros Hpre Hpath Hne Hcontent.
  set (rest := String " "
                 (path +:+ String " "
                    (("--" +:+ nl) +:+ ((content +:+ nl) +:+ (END_MARK +:+ post))))).
  assert (Htext : pre +:+ one_block path content +:+ post
                  = pre +:+ "--FILE:" +:+ rest).
  { f_equal. rewrite one_block_shape. unfold rest.
    repeat (progress rewrite ?sapp_nil_l, ?sapp_cons, ?sapp_assoc).
    reflexivity. }
  rewrite Htext.
  unfold blocks.
  rewrite (finditer_cons BLOCK_RE _
             {| m_skipped := pre;
                m_text := consumed ("--FILE:" +:+ rest) post;
                m_groups := [(2, content +:+ nl); (1, path)];
                m_rest := post |}).
  - cbn [map]. f_equal.
    unfold grp. cbn [m_groups group Nat.eqb].
    rewrite (strip_no_space _ Hpath).
    change nl with (String (ascii_of_nat 10) "").
    rewrite strip_app_space by reflexivity. reflexivity.
  - unfold BLOCK_RE. apply search_from_lit_first.
    + apply start_marker_first. exact Hpre.
    + apply block_tail_match_post; [exact Hpath | exact Hne |].
      intros v1 v2 Hsplit Hv2.
      apply (marker_not_in_suffix content END_MARK (ascii_of_nat 10)
               (END_MARK +:+ post) Hcontent eq_refl v1 v2 Hsplit Hv2).
  - cbn [m_text]. unfold consumed. rewrite slength_app. cbn [String.length].
    unfold rest. cbn [String.length]. rewrite !slength_app.
    cbn [String.length]. rewrite !slength_app.
    match goal with |- take ?n _ <> _ =>
      replace n with (S (n - 1)) by lia end.
    cbn. discriminate.
Qed.

End BlockMore.

(** X18. A rewrite answer is parsed block by block. When the text in front
    of a well-formed block holds no start marker, the mapping of the whole
    answer is the mapping of the text behind the block, completed by the
    entry of the block: text around the blocks is ignored, and a later block
    for the same path wins. *)
Theorem rewrite_answer_is_parsed_block_by_block :
  forall pre path content post,
    PyStr.contains pre "--FILE:" = false ->
    StrSpec.no_space path = true ->
    path <> "" ->
    PyStr.contains content BlockSpec.END_MARK = false ->
    Blocks.blocks (pre +:+ BlockSpec.one_block path content +:+ post)
    = (path, PyStr.strip content) :: Blocks.blocks post
    /\ LanggraphApp.parse_updates
         (pre +:+ BlockSpec.one_block path content +:+ post)
       = LanggraphApp.parse_updates post ∪ {[ path := PyStr.strip content ]}
    /\ (PyStr.contains post "--FILE:" = false ->
        LanggraphApp.parse_updates
          (pre +:+ BlockSpec.one_block path content +:+ post)
        = {[ path := PyStr.strip content ]}).
Proof.
  intros pre path content post Hpre Hpath Hne Hcontent.
  pose proof (BlockMore.blocks_head_block pre path content post
                Hpre Hpath Hne Hcontent) as Hblocks.
  assert (Hparse :
            LanggraphApp.parse_updates
              (pre +:+ BlockSpec.one_block path content +:+ post)
            = LanggraphApp.parse_updates post
              ∪ {[ path := PyStr.strip content ]}).
  { apply map_eq. intros rel.
    rewrite lookup_union, (BlockFacts.parse_updates_lookup post rel).
    unfold LanggraphApp.parse_updates. rewrite Hblocks.
    cbn [fold_left]. rewrite BlockFacts.fold_updates_lookup, insert_empty.
    destruct (BlockSpec.last_block rel (Blocks.blocks post)) as [xml|].
    - destruct ({[path := PyStr.strip content]} !! rel); reflexivity.
    - destruct ({[path := PyStr.strip content]} !! rel); reflexivity. }
  split; [exact Hblocks|]. split; [exact Hparse|].
  intros Hpost. rewrite Hparse.
  rewrite (BlockFacts.parse_updates_no_block post
             (BlockFacts.blocks_without_marker post Hpost)).
  apply (left_id_L ∅ (∪)).
Qed.

Lemma rewrite_answer_is_parsed_block_by_block_witness :
  Blocks.blocks
    (("Here are the files:" +:+ PyStr.nl)
     +:+ BlockSpec.one_block "A.csproj" "<Project />"
     +:+ (PyStr.nl +:+ "Done."))
  = ("A.csproj", PyStr.strip "<Project />")
    :: Blocks.blocks (PyStr.nl +:+ "Done.")
  /\ LanggraphApp.parse_updates
       (("Here are the files:" +:+ PyStr.nl)
        +:+ BlockSpec.one_block "A.csproj" "<Project />"
        +:+ (PyStr.nl +:+ "Done."))
     = LanggraphApp.parse_updates (PyStr.nl +:+ "Done.")
       ∪ {[ "A.csproj" := PyStr.strip "<Project />" ]}
  /\ (PyStr.contains (PyStr.nl +:+ "Done.") "--FILE:" = false ->
      LanggraphApp.parse_updates
        (("Here are the files:" +:+ PyStr.nl)
         +:+ BlockSpec.one_block "A.csproj" "<Project />"
         +:+ (PyStr.nl +:+ "Done."))
      = {[ "A.csproj" := PyStr.strip "<Project />" ]}).
Proof.
  apply (rewrite_answer_is_parsed_block_by_block
           ("Here are the files:" +:+ PyStr.nl) "A.csproj" "<Project />"
           (PyStr.nl +:+ "Done.")).
  - reflexivity.
  - reflexivity.
  - discriminate.
  - reflexivity.
Defined.

(** X19. The diff extractor of the stand-alone variant works block by
    block as well: the diffs of a text that starts, behind text without a
    start marker, with a well-formed block are the diff of that block, if
    it has both sections, followed by the diffs of the text behind it. *)
Theorem diffs_are_extracted_block_by_block :
  forall pre path content post,
    PyStr.contains pre "--FILE:" = false ->
    StrSpec.no_space path = true ->
    path <> "" ->
    PyStr.contains content BlockSpec.END_MARK = false ->
    N.extract_diffs_from_markdown
      (pre +:+ BlockSpec.one_block path content +:+ post)
    = N.diff_of_block (path, PyStr.strip content)
      ++ N.extract_diffs_from_markdown post.
Proof.
  intros pre path content post Hpre Hpath Hne Hcontent.
  unfold N.extract_diffs_from_markdown.
  rewrite (BlockMore.blocks_head_block pre path content post
             Hpre Hpath Hne Hcontent).
  reflexivity.
Qed.

Lemma diffs_are_extracted_block_by_block_witness :
  N.extract_diffs_from_markdown
    (("Preview:" +:+ PyStr.nl)
     +:+ BlockSpec.one_block "A.csproj" (DiffSpec.tagged "old" "new")
     +:+ (PyStr.nl +:+ BlockSpec.one_block "B.csproj" "no sections"))
  = N.diff_of_block ("A.csproj", PyStr.strip (DiffSpec.tagged "old" "new"))
    ++ N.extract_diffs_from_markdown
         (PyStr.nl +:+ BlockSpec.one_block "B.csproj" "no sections").
Proof.
  apply (diffs_are_extracted_block_by_block
           ("Preview:" +:+ PyStr.nl) "A.csproj" (DiffSpec.tagged "old" "new")
           (PyStr.nl +:+ BlockSpec.one_block "B.csproj" "no sections")).
  - reflexivity.
  - reflexivity.
  - discriminate.
  - reflexivity.
Defined.

(** X20. The diff extractor reports at most one diff per block, in block
    order, and every diff it reports carries the path of a block whose
    content holds a before section and an after section. *)
Theorem diffs_come_from_blocks :
  forall markdown_text,
    length (N.extract_diffs_from_markdown markdown_text)
    <= length (Blocks.blocks markdown_text)
    /\ forall fname before after,
         In (fname, before, after) (N.extract_diffs_from_markdown markdown_text) ->
         exists xml mb ma,
           In (fname, xml) (Blocks.blocks markdown_text)
           /\ Re.search N.BEFORE_RE xml = Some mb
           /\ Re.search N.AFTER_RE xml = Some ma
           /\ before = PyStr.strip (Re.grp 1 mb)
           /\ after = PyStr.strip (Re.grp 1 ma).
Proof.
  intros markdown_text. unfold N.extract_diffs_from_markdown.
  generalize (Blocks.blocks markdown_text) as bs.
  induction bs as [|[p xml] bs [IHlen IHin]].
  - split; [reflexivity|]. intros fname before after [].
  - cbn [flat_map]. split.
    + rewrite List.length_app. cbn [length N.diff_of_block].
      destruct (Re.search N.BEFORE_RE xml), (Re.search N.AFTER_RE xml);
        cbn [length]; lia.
    + intros fname before after Hin. apply in_app_or in Hin as [Hin|Hin].
      * cbn [N.diff_of_block] in Hin.
        destruct (Re.search N.BEFORE_RE xml) as [mb|] eqn:Eb;
          [|destruct Hin].
        destruct (Re.search N.AFTER_RE xml) as [ma|] eqn:Ea;
          [|destruct Hin].
        destruct Hin as [Heq|[]]. inversion Heq; subst.
        exists xml, mb, ma. split; [left; reflexivity|].
        repeat split; assumption.
      * destruct (IHin _ _ _ Hin) as (x & mb & ma & Hx & Hrest).
        exists x, mb, ma. split; [right; exact Hx | exact Hrest].
Qed.

(** ** How the steps and the run fail, and when they complete *)

Module FailureFacts.
Import PyStr Re Py NugetHelper LanggraphApp ScanSpec TraceSpec
  PyFacts ScanFacts NodeFacts TraceFacts ScanMore DiscoveryFacts.
Local Open Scope py_scope.

Section WithEnv.
Context {W : Type} (env : Env W).

Lemma bind_raise_inv {A B} (m : M W A) (f : A -> M W B) st e st' :
  bind m f st = (Raise e, st') ->
  m st = (Raise e, st')
  \/ exists a st1, m st = (Ok a, st1) /\ f a st1 = (Raise e, st').
Proof.
  unfold bind. destruct (m st) as [[a|e1] st1].
  - intros H. right. exists a, st1. split; [reflexivity | exact H].
  - intros H. left. inversion H. reflexivity.
Qed.

Lemma get_root_raise state (st : store W) e st' :
  get_root state st = (Raise e, st') ->
  uploaded_file_path state = None
  /\ e = KeyError "uploaded_file_path" /\ st' = st.
Proof.
  unfold get_root. destruct (uploaded_file_path state); cbn [ok_or].
  - discriminate.
  - intros H. inversion H. repeat split.
Qed.

(** The descriptors are read one after the other: the text is there when
    all can be read, and a failure is the error of one that cannot. *)
Lemma csprojs_loop_total root paths : forall acc (st : store W),
  (forall p, In p paths -> is_Some (fs_read_text env p)) ->
  exists text,
    for_each paths
      (fun acc p =>
         let rel := os_path_relpath env p root in
         do text <- read_text env p;
         ret (acc +:+ ("// FILE: " +:+ rel +:+ nl) +:+ text +:+ (nl +:+ nl)))
      acc st = (Ok text, st).
Proof.
  induction paths as [|p paths IH]; intros acc st Hread.
  - exists acc. reflexivity.
  - destruct (Hread p (or_introl eq_refl)) as [t Ht].
    destruct (IH (acc +:+ ("// FILE: " +:+ os_path_relpath env p root +:+ nl)
                  +:+ t +:+ (nl +:+ nl)) st) as (text & Hrest).
    { intros q Hq. apply Hread. right. exact Hq. }
    exists text. cbn [for_each]. unfold bind at 1. cbv zeta.
    unfold bind at 1. unfold read_text at 1. rewrite Ht. cbn [ok_or ret].
    exact Hrest.
Qed.

Lemma csprojs_loop_raise root paths : forall acc (st : store W) e st',
  for_each paths
    (fun acc p =>
       let rel := os_path_relpath env p root in
       do text <- read_text env p;
       ret (acc +:+ ("// FILE: " +:+ rel +:+ nl) +:+ text +:+ (nl +:+ nl)))
    acc st = (Raise e, st') ->
  exists p, In p paths /\ fs_read_text env p = None /\ e = OSError p.
Proof.
  induction paths as [|p paths IH]; intros acc st e st' H.
  - discriminate H.
  - cbn [for_each] in H. unfold bind at 1 in H. cbv zeta in H.
    unfold bind at 1 in H. unfold read_text at 1 in H.
    destruct (fs_read_text env p) as [t|] eqn:Ht; cbn [ok_or ret raise] in H.
    + apply IH in H as (q & Hq & Hn & He).
      exists q. split; [right; exact Hq | split; assumption].
    + inversion H. exists p. split; [left; reflexivity|].
      split; [exact Ht | reflexivity].
Qed.

(** A completion step fails before its request, on the root or on a
    descriptor, or at its request, or in what it does with the answer. *)
Lemma completion_step_raise state (st : store W) e st' prompt_of n
    (k : option string -> M W UpgradeState) :
  (do root <- get_root state;
   do text <- csprojs_text env state root;
   do answer <- chat env (prompt_of text) n;
   k answer) st = (Raise e, st') ->
  (uploaded_file_path state = None
   /\ e = KeyError "uploaded_file_path" /\ st' = st)
  \/ (exists p,
        In p (default [] (csproj_paths state))
        /\ fs_read_text env p = None /\ e = OSError p /\ st' = st)
  \/ (e = ServiceError
      /\ exists prompt,
           (chat_create env (world st) prompt n).1 = None
           /\ log st' = log st ++ [ChatCreate prompt n])
  \/ (exists prompt answer st1,
        (chat_create env (world st) prompt n).1 = Some answer
        /\ log st1 = log st ++ [ChatCreate prompt n]
        /\ k answer st1 = (Raise e, st')).
Proof.
  intros H. apply bind_raise_inv in H as [H|(root & st1 & Hroot & H)].
  - left. apply get_root_raise in H. exact H.
  - apply ok_or_ok_inv in Hroot as [Hroot ->]. right.
    apply bind_raise_inv in H as [H|(text & st2 & Ht & H)].
    + left. pose proof (csprojs_text_pure env _ _ _ _ _ H) as ->.
      apply csprojs_loop_raise in H as (p & Hp & Hn & He).
      exists p. repeat split; assumption.
    + right. apply csprojs_text_pure in Ht. subst st2.
      apply bind_raise_inv in H as [H|(c & st3 & Hc & H)].
      * left. rewrite chat_run in H.
        destruct (chat_create env (world st) (prompt_of text) n).1 eqn:Hc;
          inversion H; subst.
        split; [reflexivity|]. eexists. split; [exact Hc | reflexivity].
      * right. rewrite chat_run in Hc.
        destruct (chat_create env (world st) (prompt_of text) n).1 eqn:Ha;
          inversion Hc; subst.
        eexists _, _, _. split; [exact Ha|]. split; [|exact H]. reflexivity.
Qed.

(** A completion step whose service answers with a text hands that text
    to what follows the request. *)
Lemma completion_step_total state (st : store W) root prompt_of n
    (k : option string -> M W UpgradeState) :
  uploaded_file_path state = Some root ->
  (forall p, In p (default [] (csproj_paths state)) ->
             is_Some (fs_read_text env p)) ->
  (forall w prompt m,
      exists text, (chat_create env w prompt m).1 = Some (Some text)) ->
  exists text st1,
    (do root <- get_root state;
     do text <- csprojs_text env state root;
     do answer <- chat env (prompt_of text) n;
     k answer) st = k (Some text) st1.
Proof.
  intros Hroot Hread Hchat.
  destruct (csprojs_loop_total root (default [] (csproj_paths state)) "" st
              Hread) as (text & Ht).
  destruct (Hchat (world st) (prompt_of text) n) as [content Hc].
  exists content. eexists.
  rewrite (bind_ok_intro _ _ _ _ _ (get_root_present state root st Hroot)).
  unfold csprojs_text.
  rewrite (bind_ok_intro _ _ _ _ _ Ht).
  unfold bind. rewrite chat_run, Hc. reflexivity.
Qed.

Lemma detect_walk_total walk : forall feeds0 (st : store W),
  (forall r files f,
      In (r, files) walk -> In f files -> lower f = "nuget.config" ->
      is_Some (fs_read_text env (path_join r f))) ->
  exists feeds,
    for_each walk
      (fun feeds '(r, files) =>
         for_each files
           (fun feeds f =>
              if String.eqb (lower f) "nuget.config"
              then do txt <- read_text env (path_join r f);
                   ret (feeds ++ findall1 FEED_RE txt)
              else ret feeds)
           feeds)
      feeds0 st = (Ok feeds, st).
Proof.
  induction walk as [|[r files] walk IH]; intros feeds0 st Hread.
  - exists feeds0. reflexivity.
  - assert (Hin : forall feeds1,
               exists feeds2,
                 for_each files
                   (fun feeds f =>
                      if String.eqb (lower f) "nuget.config"
                      then do txt <- read_text env (path_join r f);
                           ret (feeds ++ findall1 FEED_RE txt)
                      else ret feeds)
                   feeds1 st = (Ok feeds2, st)).
    { assert (Hfiles : forall f, In f files -> lower f = "nuget.config" ->
                                 is_Some (fs_read_text env (path_join r f))).
      { intros f Hf Hl. apply (Hread r files f); [left; reflexivity|..];
          assumption. }
      clear Hread IH. induction files as [|f files IHf]; intros feeds1.
      - exists feeds1. reflexivity.
      - cbn [for_each]. unfold bind at 1.
        destruct (String.eqb_spec (lower f) "nuget.config") as [Hl|Hl].
        + destruct (Hfiles f (or_introl eq_refl) Hl) as [t Ht].
          unfold bind at 1. unfold read_text at 1. rewrite Ht.
          cbn [ok_or ret]. apply IHf.
          intros g Hg. apply Hfiles. right. exact Hg.
        + cbn [ret]. apply IHf.
          intros g Hg. apply Hfiles. right. exact Hg. }
    destruct (Hin feeds0) as (feeds1 & H1).
    destruct (IH feeds1 st) as (feeds & Hrest).
    { intros r' fs f Hd. apply Hread. right. exact Hd. }
    exists feeds. cbn [for_each]. unfold bind at 1. rewrite H1. exact Hrest.
Qed.

Lemma detect_feeds_node_raise state (st : store W) e st' :
  detect_feeds_node env state st = (Raise e, st') ->
  e = KeyError "uploaded_file_path"
  \/ exists p, fs_read_text env p = None /\ e = OSError p.
Proof.
  unfold detect_feeds_node. intros H.
  apply bind_raise_inv in H as [H|(root & st1 & Hroot & H)].
  - left. apply get_root_raise in H as (_ & -> & _). reflexivity.
  - right. apply bind_raise_inv in H as [H|(feeds & st2 & _ & H)];
      [|discriminate H].
    destruct (truthy (user_feed_url state)); [discriminate H|].
    unfold detect_private_feeds in H.
    apply bind_raise_inv in H as [H|(acc & st3 & _ & H)]; [|discriminate H].
    apply config_walk_raise in H as (r & files & f & _ & _ & _ & Hn & He).
    exists (path_join r f). split; assumption.
Qed.

Lemma detect_feeds_node_total state (st : store W) root :
  uploaded_file_path state = Some root ->
  truthy (user_feed_url state) = true
  \/ (forall r files f,
        In (r, files) (os_walk env root) -> In f files ->
        lower f = "nuget.config" ->
        is_Some (fs_read_text env (path_join r f))) ->
  exists feeds,
    detect_feeds_node env state st = (Ok (set_private_feeds feeds state), st).
Proof.
  intros Hroot Hfeeds. unfold detect_feeds_node.
  rewrite (bind_ok_intro _ _ _ _ _ (get_root_present state root st Hroot)).
  destruct (truthy (user_feed_url state)) eqn:Hu.
  - eexists. reflexivity.
  - destruct Hfeeds as [Hf|Hread]; [discriminate Hf|].
    destruct (detect_walk_total (os_walk env root) [] st Hread)
      as (feeds & Hloop).
    eexists. unfold detect_private_feeds.
    unfold bind at 1. unfold bind at 1. rewrite Hloop. reflexivity.
Qed.

Lemma scan_packages_node_raise state (st : store W) e st' :
  scan_packages_node env state st = (Raise e, st') ->
  e = KeyError "uploaded_file_path"
  \/ exists p, fs_read_text env p = None /\ e = OSError p.
Proof.
  unfold scan_packages_node. intros H.
  apply bind_raise_inv in H as [H|(root & st1 & Hroot & H)].
  - left. apply get_root_raise in H as (_ & -> & _). reflexivity.
  - right. apply bind_raise_inv in H as [H|(pkgs & st2 & _ & H)];
      [|discriminate H].
    apply (scan_paths_raise env state) in H as (p & _ & Hn & He).
    exists p. split; assumption.
Qed.

End WithEnv.
End FailureFacts.

(** X21. How the two completion steps fail. Each fails before its request
    is sent, with the key error on a state without root or with the read
    error of a descriptor of the state, and then nothing has happened; or at
    the request, with the error of the service, and then exactly that one
    request was sent. The rewrite step fails in one more way, after its
    request: when the service answers with a message that has no content,
    the search for blocks raises a type error. The analysis step stores
    whatever the service answers, content or none, under [analysis_report]. *)
Theorem completion_steps_fail_before_at_or_after_the_request :
  forall W (env : Py.Env W) (state : LanggraphApp.UpgradeState)
         (st st' : Py.store W),
    (forall e,
        LanggraphApp.analyze_ai_node env state st = (Py.Raise e, st') ->
        (LanggraphApp.uploaded_file_path state = None
         /\ e = Py.KeyError "uploaded_file_path" /\ st' = st)
        \/ (exists p,
              In p (default [] (LanggraphApp.csproj_paths state))
              /\ Py.fs_read_text env p = None /\ e = Py.OSError p /\ st' = st)
        \/ (e = Py.ServiceError
            /\ exists prompt,
                 (Py.chat_create env (Py.world st) prompt 3000).1 = None
                 /\ Py.log st' = Py.log st ++ [Py.ChatCreate prompt 3000]))
    /\ (forall e,
          LanggraphApp.upgrade_ai_node env state st = (Py.Raise e, st') ->
          (LanggraphApp.uploaded_file_path state = None
           /\ e = Py.KeyError "uploaded_file_path" /\ st' = st)
          \/ (exists p,
                In p (default [] (LanggraphApp.csproj_paths state))
                /\ Py.fs_read_text env p = None /\ e = Py.OSError p
                /\ st' = st)
          \/ (e = Py.ServiceError
              /\ exists prompt,
                   (Py.chat_create env (Py.world st) prompt 3500).1 = None
                   /\ Py.log st' = Py.log st ++ [Py.ChatCreate prompt 3500])
          \/ (e = Py.TypeError
              /\ exists prompt,
                   (Py.chat_create env (Py.world st) prompt 3500).1
                   = Some None
                   /\ Py.log st' = Py.log st ++ [Py.ChatCreate prompt 3500]))
    /\ (forall state',
          LanggraphApp.analyze_ai_node env state st = (Py.Ok state', st') ->
          exists prompt answer,
            (Py.chat_create env (Py.world st) prompt 3000).1 = Some answer
            /\ LanggraphApp.analysis_report state' = Some answer
            /\ Py.log st' = Py.log st ++ [Py.ChatCreate prompt 3000]).
Proof.
  intros W env state st st'. split; [|split].
  - intros e H. unfold LanggraphApp.analyze_ai_node in H. cbv zeta in H.
    apply (FailureFacts.completion_step_raise env state st e st'
             (fun text =>
                LanggraphApp.analysis_prompt state
                  (Py.json_dumps_feeds env
                     (default [] (LanggraphApp.private_feeds state)))
                  (Py.json_dumps_report env
                     (default [] (LanggraphApp.package_report state)))
                  text)
             3000
             (fun content =>
                Py.ret (LanggraphApp.set_analysis_report content state)))
      in H as [H|[H|[H|(prompt & answer & st1 & _ & _ & H)]]].
    + left. exact H.
    + right. left. exact H.
    + right. right. exact H.
    + discriminate H.
  - intros e H. unfold LanggraphApp.upgrade_ai_node in H.
    apply (FailureFacts.completion_step_raise env state st e st'
             (fun text =>
                LanggraphApp.upgrade_prompt state
                +:+ (PyStr.nl +:+ PyStr.nl) +:+ text)
             3500
             (fun answer =>
                match answer with
                | Some preview =>
                    Py.ret
                      (LanggraphApp.set_csproj_updates
                         (LanggraphApp.parse_updates preview)
                         (LanggraphApp.set_upgrade_preview preview state))
                | None => Py.raise Py.TypeError
                end))
      in H as [H|[H|[H|(prompt & answer & st1 & Ha & Hlog & H)]]].
    + left. exact H.
    + right. left. exact H.
    + right. right. left. exact H.
    + right. right. right. destruct answer as [preview|]; [discriminate H|].
      inversion H; subst. split; [reflexivity|].
      exists prompt. split; assumption.
  - intros state' H. unfold LanggraphApp.analyze_ai_node in H. cbv zeta in H.
    apply PyFacts.bind_ok_inv in H as (root & st0 & Hroot & H).
    apply PyFacts.ok_or_ok_inv in Hroot as [Hroot ->].
    apply PyFacts.bind_ok_inv in H as (text & st1 & Ht & H).
    apply NodeFacts.csprojs_text_pure in Ht. subst st1.
    apply PyFacts.bind_ok_inv in H as (content & st2 & Hc & H).
    apply PyFacts.ret_ok_inv in H as [-> ->].
    rewrite NodeFacts.chat_run in Hc.
    match type of Hc with
    | context [Py.chat_create env (Py.world st) ?p 3000] =>
        exists p, content;
        destruct (Py.chat_create env (Py.world st) p 3000).1 eqn:Ha;
        inversion Hc; subst
    end.
    repeat split.
Qed.

Lemma completion_steps_fail_before_at_or_after_the_request_witness :
  (LanggraphApp.upgrade_ai_node MoreSamples.silent_env
     (Samples.initial "/p" "net8.0") Samples.start).1
  = Py.Raise Py.TypeError
  /\ ((LanggraphApp.uploaded_file_path (Samples.initial "/p" "net8.0") = None
       /\ Py.TypeError = Py.KeyError "uploaded_file_path"
       /\ (LanggraphApp.upgrade_ai_node MoreSamples.silent_env
             (Samples.initial "/p" "net8.0") Samples.start).2
          = Samples.start)
      \/ (exists p,
            In p (default []
                    (LanggraphApp.csproj_paths (Samples.initial "/p" "net8.0")))
            /\ Py.fs_read_text MoreSamples.silent_env p = None
            /\ Py.TypeError = Py.OSError p
            /\ (LanggraphApp.upgrade_ai_node MoreSamples.silent_env
                  (Samples.initial "/p" "net8.0") Samples.start).2
               = Samples.start)
      \/ (Py.TypeError = Py.ServiceError
          /\ exists prompt,
               (Py.chat_create MoreSamples.silent_env (Py.world Samples.start)
                  prompt 3500).1 = None
               /\ Py.log
                    (LanggraphApp.upgrade_ai_node MoreSamples.silent_env
                       (Samples.initial "/p" "net8.0") Samples.start).2
                  = Py.log Samples.start ++ [Py.ChatCreate prompt 3500])
      \/ (Py.TypeError = Py.TypeError
          /\ exists prompt,
               (Py.chat_create MoreSamples.silent_env (Py.world Samples.start)
                  prompt 3500).1 = Some None
               /\ Py.log
                    (LanggraphApp.upgrade_ai_node MoreSamples.silent_env
                       (Samples.initial "/p" "net8.0") Samples.start).2
                  = Py.log Samples.start ++ [Py.ChatCreate prompt 3500])).
Proof.
  split; [vm_compute; reflexivity|].
  apply (proj1 (proj2
           (completion_steps_fail_before_at_or_after_the_request nat
              MoreSamples.silent_env (Samples.initial "/p" "net8.0")
              Samples.start
              (LanggraphApp.upgrade_ai_node MoreSamples.silent_env
                 (Samples.initial "/p" "net8.0") Samples.start).2))
           Py.TypeError).
  vm_compute. reflexivity.
Defined.

(** X22. The exceptions of a run. A sequential run of the seven steps
    fails in four ways only: the key error of a state without root, the
    read error of a file that cannot be read, the error of the completion
    service at one of its two requests, or the type error of the rewrite
    step when the service answers its request with a message that has no
    content. Token issuance and registry requests never fail a run. The
    same holds for the run function with any executor: an exception of the
    executor itself never reaches the caller. *)
Theorem run_fails_in_four_ways :
  forall W (env : Py.Env W)
         (graph_obj : LanggraphApp.UpgradeState
                      -> Py.M W LanggraphApp.UpgradeState)
         (initial_state : LanggraphApp.UpgradeState) (st st' : Py.store W) e,
    LanggraphApp.run_sequential env initial_state st = (Py.Raise e, st')
    \/ LanggraphApp.run_graph_invoke env graph_obj initial_state st
       = (Py.Raise e, st') ->
    e = Py.KeyError "uploaded_file_path"
    \/ (exists p, Py.fs_read_text env p = None /\ e = Py.OSError p)
    \/ (e = Py.ServiceError
        /\ exists w prompt n,
             (n = 3000 \/ n = 3500)
             /\ (Py.chat_create env w prompt n).1 = None)
    \/ (e = Py.TypeError
        /\ exists w prompt, (Py.chat_create env w prompt 3500).1 = Some None).
Proof.
  intros W env graph_obj initial_state st st' e.
  assert (Hseq : forall st0,
             LanggraphApp.run_sequential env initial_state st0
             = (Py.Raise e, st') ->
             e = Py.KeyError "uploaded_file_path"
             \/ (exists p, Py.fs_read_text env p = None /\ e = Py.OSError p)
             \/ (e = Py.ServiceError
                 /\ exists w prompt n,
                      (n = 3000 \/ n = 3500)
                      /\ (Py.chat_create env w prompt n).1 = None)
             \/ (e = Py.TypeError
                 /\ exists w prompt,
                      (Py.chat_create env w prompt 3500).1 = Some None)).
  { intros st0 H. unfold LanggraphApp.run_sequential in H.
    apply FailureFacts.bind_raise_inv in H as [H|(s1 & st1 & _ & H)].
    { left. unfold LanggraphApp.upload_node in H.
      apply FailureFacts.bind_raise_inv in H as [H|(r & st2 & _ & H)];
        [|discriminate H].
      apply FailureFacts.get_root_raise in H as (_ & -> & _). reflexivity. }
    apply FailureFacts.bind_raise_inv in H as [H|(s2 & st2 & _ & H)].
    { apply FailureFacts.detect_feeds_node_raise in H as [->|Hp];
        [left; reflexivity | right; left; exact Hp]. }
    apply FailureFacts.bind_raise_inv in H as [H|(s3 & st3 & _ & H)].
    { destruct (NodeFacts.generate_jwt_node_run env s2 st2)
        as (tokens & st3 & Hrun & _).
      rewrite Hrun in H. discriminate H. }
    apply FailureFacts.bind_raise_inv in H as [H|(s4 & st4 & _ & H)].
    { apply FailureFacts.scan_packages_node_raise in H as [->|Hp];
        [left; reflexivity | right; left; exact Hp]. }
    apply FailureFacts.bind_raise_inv in H as [H|(s5 & st5 & _ & H)].
    { unfold LanggraphApp.analyze_ai_node in H. cbv zeta in H.
      apply (FailureFacts.completion_step_raise env s4 st4 e _
               (fun text =>
                  LanggraphApp.analysis_prompt s4
                    (Py.json_dumps_feeds env
                       (default [] (LanggraphApp.private_feeds s4)))
                    (Py.json_dumps_report env
                       (default [] (LanggraphApp.package_report s4)))
                    text)
               3000
               (fun content =>
                  Py.ret (LanggraphApp.set_analysis_report content s4)))
        in H as [(_ & -> & _)
                |[(p & _ & Hn & He & _)
                 |[(-> & prompt & Hnone & _)
                  |(prompt & answer & st6 & _ & _ & H)]]].
      - left. reflexivity.
      - right. left. exists p. split; assumption.
      - right. right. left. split; [reflexivity|].
        exists (Py.world st4), prompt, 3000. split; [left; reflexivity|].
        exact Hnone.
      - discriminate H. }
    apply FailureFacts.bind_raise_inv in H as [H|(s6 & st6 & _ & H)].
    { unfold LanggraphApp.upgrade_ai_node in H.
      apply (FailureFacts.completion_step_raise env s5 st5 e _
               (fun text =>
                  LanggraphApp.upgrade_prompt s5
                  +:+ (PyStr.nl +:+ PyStr.nl) +:+ text)
               3500
               (fun answer =>
                  match answer with
                  | Some preview =>
                      Py.ret
                        (LanggraphApp.set_csproj_updates
                           (LanggraphApp.parse_updates preview)
                           (LanggraphApp.set_upgrade_preview preview s5))
                  | None => Py.raise Py.TypeError
                  end))
        in H as [(_ & -> & _)
                |[(p & _ & Hn & He & _)
                 |[(-> & prompt & Hnone & _)
                  |(prompt & answer & st7 & Ha & _ & H)]]].
      - left. reflexivity.
      - right. left. exists p. split; assumption.
      - right. right. left. split; [reflexivity|].
        exists (Py.world st5), prompt, 3500. split; [right; reflexivity|].
        exact Hnone.
      - right. right. right. destruct answer as [preview|]; [discriminate H|].
        inversion H; subst. split; [reflexivity|].
        exists (Py.world st5), prompt. exact Ha. }
    apply FailureFacts.bind_raise_inv in H as [H|(s7 & st7 & _ & H)];
      discriminate H. }
  intros [H|H].
  - exact (Hseq st H).
  - unfold LanggraphApp.run_graph_invoke, Py.try_except in H.
    destruct (graph_obj initial_state st) as [[r|e1] st1].
    + discriminate H.
    + exact (Hseq st1 H).
Qed.

Lemma run_fails_in_four_ways_witness :
  (LanggraphApp.run_sequential MoreSamples.silent_env
     (Samples.initial "/p" "net8.0") Samples.start).1
  = Py.Raise Py.TypeError
  /\ (Py.TypeError = Py.KeyError "uploaded_file_path"
      \/ (exists p,
            Py.fs_read_text MoreSamples.silent_env p = None
            /\ Py.TypeError = Py.OSError p)
      \/ (Py.TypeError = Py.ServiceError
          /\ exists w prompt n,
               (n = 3000 \/ n = 3500)
               /\ (Py.chat_create MoreSamples.silent_env w prompt n).1 = None)
      \/ (Py.TypeError = Py.TypeError
          /\ exists w prompt,
               (Py.chat_create MoreSamples.silent_env w prompt 3500).1
               = Some None)).
Proof.
  split; [vm_compute; reflexivity|].
  apply (run_fails_in_four_ways nat MoreSamples.silent_env
           Orchestrator.no_executor (Samples.initial "/p" "net8.0")
           Samples.start
           (LanggraphApp.run_sequential MoreSamples.silent_env
              (Samples.initial "/p" "net8.0") Samples.start).2
           Py.TypeError).
  left. vm_compute. reflexivity.
Defined.

(** X23. When a run completes. With a project root in the state, readable
    feed-configuration files (or a feed URL from the caller, which makes
    discovery skip them), readable descriptors and a completion service
    that answers every request with a text, the sequential run returns a
    final state, and so does the run function with any executor, whatever
    the registries do. The final state of the sequential run holds the
    answers of the service as [analysis_report] and [upgrade_preview], and
    the blocks of the latter as [csproj_updates]. *)
Theorem run_completes_when_files_are_readable_and_the_service_answers :
  forall W (env : Py.Env W)
         (graph_obj : LanggraphApp.UpgradeState
                      -> Py.M W LanggraphApp.UpgradeState)
         (initial_state : LanggraphApp.UpgradeState) (st : Py.store W) root,
    LanggraphApp.uploaded_file_path initial_state = Some root ->
    (Py.truthy (LanggraphApp.user_feed_url initial_state) = true
     \/ (forall r files f,
           In (r, files) (Py.os_walk env root) -> In f files ->
           PyStr.lower f = "nuget.config" ->
           is_Some (Py.fs_read_text env (Py.path_join r f)))) ->
    (forall p, In p (NugetHelper.collect_csproj_files env root) ->
               is_Some (Py.fs_read_text env p)) ->
    (forall w prompt m,
        exists text, (Py.chat_create env w prompt m).1 = Some (Some text)) ->
    (exists final st' report preview,
        LanggraphApp.run_sequential env initial_state st = (Py.Ok final, st')
        /\ LanggraphApp.analysis_report final = Some (Some report)
        /\ LanggraphApp.upgrade_preview final = Some preview
        /\ LanggraphApp.csproj_updates final
           = Some (LanggraphApp.parse_updates preview))
    /\ (exists final st',
          LanggraphApp.run_graph_invoke env graph_obj initial_state st
          = (Py.Ok final, st')).
Proof.
  intros W env graph_obj initial_state st root Hroot Hfeeds Hread Hchat.
  assert (Hseq : forall st0,
             exists final st' report preview,
               LanggraphApp.run_sequential env initial_state st0
               = (Py.Ok final, st')
               /\ LanggraphApp.analysis_report final = Some (Some report)
               /\ LanggraphApp.upgrade_preview final = Some preview
               /\ LanggraphApp.csproj_updates final
                  = Some (LanggraphApp.parse_updates preview)).
  { intros st0. unfold LanggraphApp.run_sequential.
    set (s1 := LanggraphApp.set_csproj_paths
                 (NugetHelper.collect_csproj_files env root) initial_state).
    assert (H1 : LanggraphApp.upload_node env initial_state st0
                 = (Py.Ok s1, st0)).
    { unfold LanggraphApp.upload_node.
      rewrite (PyFacts.bind_ok_intro _ _ _ _ _
                 (NodeFacts.get_root_present initial_state root st0 Hroot)).
      reflexivity. }
    rewrite (PyFacts.bind_ok_intro _ _ _ _ _ H1).
    destruct (FailureFacts.detect_feeds_node_total env s1 st0 root Hroot Hfeeds)
      as (feeds & H2).
    rewrite (PyFacts.bind_ok_intro _ _ _ _ _ H2).
    set (s2 := LanggraphApp.set_private_feeds feeds s1).
    destruct (NodeFacts.generate_jwt_node_run env s2 st0)
      as (tokens & st3 & H3 & _).
    rewrite (PyFacts.bind_ok_intro _ _ _ _ _ H3).
    set (s3 := LanggraphApp.set_feed_tokens tokens s2).
    destruct (ScanMore.scan_paths_total env s3
                (LanggraphApp.scanned_paths env s3 root) [] st3)
      as (pkgs & st4 & H4).
    { rewrite KeyFacts.scanned_paths_collected by reflexivity. exact Hread. }
    set (s4 := LanggraphApp.set_package_report pkgs s3).
    assert (H4' : LanggraphApp.scan_packages_node env s3 st3 = (Py.Ok s4, st4)).
    { unfold LanggraphApp.scan_packages_node.
      rewrite (PyFacts.bind_ok_intro _ _ _ _ _
                 (NodeFacts.get_root_present s3 root st3 Hroot)).
      rewrite (PyFacts.bind_ok_intro _ _ _ _ _ H4). reflexivity. }
    rewrite (PyFacts.bind_ok_intro _ _ _ _ _ H4').
    destruct (FailureFacts.completion_step_total env s4 st4 root
                (fun text =>
                   LanggraphApp.analysis_prompt s4
                     (Py.json_dumps_feeds env
                        (default [] (LanggraphApp.private_feeds s4)))
                     (Py.json_dumps_report env
                        (default [] (LanggraphApp.package_report s4)))
                     text)
                3000
                (fun content =>
                   Py.ret (LanggraphApp.set_analysis_report content s4))
                Hroot Hread Hchat)
      as (report & st5 & H5).
    change (LanggraphApp.analyze_ai_node env s4 st4
            = (Py.Ok (LanggraphApp.set_analysis_report (Some report) s4), st5))
      in H5.
    rewrite (PyFacts.bind_ok_intro _ _ _ _ _ H5).
    set (s5 := LanggraphApp.set_analysis_report (Some report) s4).
    destruct (FailureFacts.completion_step_total env s5 st5 root
                (fun text =>
                   LanggraphApp.upgrade_prompt s5
                   +:+ (PyStr.nl +:+ PyStr.nl) +:+ text)
                3500
                (fun answer =>
                   match answer with
                   | Some preview =>
                       Py.ret
                         (LanggraphApp.set_csproj_updates
                            (LanggraphApp.parse_updates preview)
                            (LanggraphApp.set_upgrade_preview preview s5))
                   | None => Py.raise Py.TypeError
                   end)
                Hroot Hread Hchat)
      as (preview & st6 & H6).
    change (LanggraphApp.upgrade_ai_node env s5 st5
            = (Py.Ok (LanggraphApp.set_csproj_updates
                        (LanggraphApp.parse_updates preview)
                        (LanggraphApp.set_upgrade_preview preview s5)), st6))
      in H6.
    rewrite (PyFacts.bind_ok_intro _ _ _ _ _ H6).
    eexists _, _, report, preview. split; [reflexivity|].
    repeat split. }
  split.
  - apply Hseq.
  - unfold LanggraphApp.run_graph_invoke, Py.try_except.
    destruct (graph_obj initial_state st) as [[r|e1] st1].
    + exists r, st1. reflexivity.
    + destruct (Hseq st1) as (final & st' & _ & _ & H & _).
      exists final, st'. exact H.
Qed.

Lemma run_completes_when_files_are_readable_and_the_service_answers_witness :
  (exists final st' report preview,
      LanggraphApp.run_sequential MoreSamples.offline_env
        (Samples.initial "/p" "net8.0") Samples.start = (Py.Ok final, st')
      /\ LanggraphApp.analysis_report final = Some (Some report)
      /\ LanggraphApp.upgrade_preview final = Some preview
      /\ LanggraphApp.csproj_updates final
         = Some (LanggraphApp.parse_updates preview))
  /\ (exists final st',
        LanggraphApp.run_graph_invoke MoreSamples.offline_env
          Orchestrator.no_executor (Samples.initial "/p" "net8.0")
          Samples.start
        = (Py.Ok final, st')).
Proof.
  apply (run_completes_when_files_are_readable_and_the_service_answers nat
           MoreSamples.offline_env Orchestrator.no_executor
           (Samples.initial "/p" "net8.0") Samples.start "/p").
  - reflexivity.
  - right. intros r files f [Hd|[]] Hf Hl. inversion Hd; subst.
    destruct Hf as [<-|[]]. vm_compute in Hl. discriminate Hl.
  - intros p [<-|[]]. exists Samples.descriptor. reflexivity.
  - intros w prompt m. exists Samples.rewrite_answer. reflexivity.
Defined.
(** ** The substitution of the target framework *)

Module RetargetFacts.
Import PyStr Re FileUtils StrSpec RepackSpec RetargetSpec StrFacts ReFacts
  ScanOne RepackFacts RepackScenario ReTheory.

Lemma lit_sound l s c k o :
  rmatch (Lit l) s c k = Some o ->
  exists s1, s = l +:+ s1 /\ k s1 c = Some o.
Proof.
  cbn [rmatch]. destruct (strip_prefix l s) as [s1|] eqn:E; [|discriminate].
  intros H. exists s1. split; [apply strip_prefix_Some; exact E | exact H].
Qed.

(** A match of the element pattern at the head is an element on one line. *)
Lemma target_match_here b s m :
  match_here TARGET_RE b s = Some m ->
  exists v, m_text m = element v /\ all_chars cls_dot v = true.
Proof.
  unfold match_here, TARGET_RE.
  destruct (rmatch _ s [] _) as [[c s']|] eqn:E; [|discriminate].
  intros H. inversion H; subst m. clear H. cbn [m_text].
  rewrite rmatch_seq in E. apply lit_sound in E as (s1 & -> & E).
  rewrite rmatch_seq, rmatch_star in E.
  apply star_class_sound in E as (v & s2 & -> & Hv & E).
  apply lit_sound in E as (s3 & -> & E).
  destruct (b && _); [discriminate|]. inversion E; subst c s'.
  exists v. split; [|exact Hv].
  unfold element, OPEN_TAG, CLOSE_TAG.
  rewrite <- (sapp_assoc v), <- (sapp_assoc "<TargetFramework>").
  apply consumed_app.
Qed.

Lemma target_search s : forall b m,
  search_from TARGET_RE b s = Some m ->
  exists v, m_text m = element v /\ all_chars cls_dot v = true.
Proof.
  induction s as [|a s IH]; intros b m H; cbn [search_from] in H.
  - destruct (match_here TARGET_RE b "") as [m1|] eqn:E; [|discriminate].
    inversion H; subst m1. exact (target_match_here _ _ _ E).
  - destruct (match_here TARGET_RE b (String a s)) as [m1|] eqn:E.
    + inversion H; subst m1. exact (target_match_here _ _ _ E).
    + destruct (search_from TARGET_RE false s) as [m1|] eqn:E1; [|discriminate].
      cbn [option_map] in H. inversion H; subst m.
      cbn [skip m_text]. exact (IH _ _ E1).
Qed.

Lemma target_scan : forall f b s,
  Forall (fun m => exists v, m_text m = element v /\ all_chars cls_dot v = true)
    (scan TARGET_RE f b s).
Proof.
  induction f as [|f IH]; intros b s; [constructor|].
  rewrite scan_step. destruct (search_from TARGET_RE b s) as [m|] eqn:E;
    [|constructor].
  constructor; [exact (target_search _ _ _ E) | apply IH].
Qed.

(** The matches of a scan as the parts of a descriptor. *)
Lemma matches_as_parts (ms : list rmatch_obj) (tail : string) :
  Forall (fun m => exists v, m_text m = element v /\ all_chars cls_dot v = true)
    ms ->
  exists parts,
    fold_right (fun m acc => m_skipped m +:+ m_text m +:+ acc) tail ms
    = assemble parts tail
    /\ (forall repl,
          fold_right (fun m acc => m_skipped m +:+ element repl +:+ acc) tail ms
          = assemble (retargeted repl parts) tail)
    /\ Forall (fun part => all_chars cls_dot part.2 = true) parts
    /\ length parts = length ms.
Proof.
  induction 1 as [|m ms (v & Hm & Hv) _ (parts & Hsame & Hrepl & Hall & Hlen)].
  - exists []. repeat split. constructor.
  - exists ((m_skipped m, v) :: parts). cbn [fold_right assemble retargeted map
      fst snd length]. split; [|split; [|split]].
    + rewrite Hm. f_equal. f_equal. exact Hsame.
    + intros repl. f_equal. f_equal. apply Hrepl.
    + constructor; [exact Hv | exact Hall].
    + f_equal. exact Hlen.
Qed.

Lemma sub_literal_parts orig :
  exists parts tail,
    orig = assemble parts tail
    /\ (forall target,
          sub_literal TARGET_RE (element target) orig
          = assemble (retargeted target parts) tail)
    /\ Forall (fun part => all_chars cls_dot part.2 = true) parts
    /\ length parts = length (finditer TARGET_RE orig).
Proof.
  pose proof (target_scan (scan_fuel orig) false orig) as Hall.
  fold (finditer TARGET_RE orig) in Hall.
  destruct (matches_as_parts (finditer TARGET_RE orig)
              (tail_text orig (finditer TARGET_RE orig)) Hall)
    as (parts & Hsame & Hrepl & Hparts & Hlen).
  exists parts, (tail_text orig (finditer TARGET_RE orig)).
  split; [|split; [|split]].
  - rewrite <- Hsame. symmetry. apply scan_rebuild.
  - intros target. unfold sub_literal. apply Hrepl.
  - exact Hparts.
  - exact Hlen.
Qed.

Lemma sub_literal_no_element repl orig :
  contains orig OPEN_TAG = false -> sub_literal TARGET_RE repl orig = orig.
Proof.
  intros H. unfold sub_literal.
  rewrite (finditer_nil TARGET_RE orig); [reflexivity|].
  apply search_from_lit_None, split_first_None_contains. exact H.
Qed.

(** A descriptor with one element, free of tags around it. *)
Lemma retarget_one pre v post target :
  contains pre OPEN_TAG = false ->
  contains post OPEN_TAG = false ->
  has_char (ascii_of_nat 10) v = false ->
  contains v CLOSE_TAG = false ->
  sub_literal TARGET_RE (element target) (pre +:+ element v +:+ post)
  = pre +:+ element target +:+ post.
Proof.
  intros Hpre Hpost Hline Hv.
  apply (retarget_single _ pre (v +:+ CLOSE_TAG +:+ post) v post).
  - unfold element. rewrite !sapp_assoc.
    apply (split_first_clean "<" "TargetFramework>"); [reflexivity | exact Hpre].
  - apply (split_first_clean "<" "/TargetFramework>"); [reflexivity | exact Hv].
  - exact Hline.
  - exact Hpost.
Qed.

End RetargetFacts.

(** X24. The substitution of the repackager changes nothing but declared
    versions. Every descriptor text is a sequence of one-line
    target-framework elements, as many as the pattern matches, with text
    around them; for a target version without backslash the substitution
    keeps the text around the elements as it is and makes every one of
    these elements declare the target version. A text without an opening
    tag is left unchanged. *)
Theorem retargeting_changes_only_declared_versions :
  forall orig : string,
    (exists parts tail,
        orig = RetargetSpec.assemble parts tail
        /\ (forall target,
              PyStr.has_char FileUtils.backslash target = false ->
              FileUtils.re_sub FileUtils.TARGET_RE
                ("<TargetFramework>" +:+ target +:+ "</TargetFramework>") orig
              = Some (RetargetSpec.assemble
                        (RetargetSpec.retargeted target parts) tail))
        /\ Forall (fun part => StrSpec.all_chars Re.cls_dot part.2 = true) parts
        /\ length parts = length (Re.finditer FileUtils.TARGET_RE orig))
    /\ (PyStr.contains orig RepackSpec.OPEN_TAG = false ->
        forall target,
          PyStr.has_char FileUtils.backslash target = false ->
          FileUtils.re_sub FileUtils.TARGET_RE
            ("<TargetFramework>" +:+ target +:+ "</TargetFramework>") orig
          = Some orig).
Proof.
  intros orig. split.
  - destruct (RetargetFacts.sub_literal_parts orig)
      as (parts & tail & Horig & Hsub & Hall & Hlen).
    exists parts, tail. split; [exact Horig|].
    split; [|split; [exact Hall | exact Hlen]].
    intros target Htarget.
    change ("<TargetFramework>" +:+ target +:+ "</TargetFramework>")
      with (RepackSpec.OPEN_TAG +:+ target +:+ RepackSpec.CLOSE_TAG).
    rewrite (RepackFacts.re_sub_plain target Htarget). f_equal. apply Hsub.
  - intros H target Htarget.
    change ("<TargetFramework>" +:+ target +:+ "</TargetFramework>")
      with (RepackSpec.OPEN_TAG +:+ target +:+ RepackSpec.CLOSE_TAG).
    rewrite (RepackFacts.re_sub_plain target Htarget). f_equal.
    apply RetargetFacts.sub_literal_no_element. exact H.
Qed.

(** X25. Retargeting twice is retargeting once. For a descriptor with one
    target-framework element and target versions that are plain monikers
    (no backslash; the first on one line and without a closing tag inside),
    substituting a first target and then a second gives what substituting
    the second alone gives; in particular the substitution is idempotent. *)
Theorem retargeting_twice_is_retargeting_once :
  forall pre v post t1 t2,
    PyStr.contains pre RepackSpec.OPEN_TAG = false ->
    PyStr.contains post RepackSpec.OPEN_TAG = false ->
    PyStr.has_char (ascii_of_nat 10) v = false ->
    PyStr.contains v RepackSpec.CLOSE_TAG = false ->
    PyStr.has_char (ascii_of_nat 10) t1 = false ->
    PyStr.contains t1 RepackSpec.CLOSE_TAG = false ->
    PyStr.has_char FileUtils.backslash t1 = false ->
    PyStr.has_char FileUtils.backslash t2 = false ->
    exists once,
      FileUtils.re_sub FileUtils.TARGET_RE
        ("<TargetFramework>" +:+ t1 +:+ "</TargetFramework>")
        (pre +:+ RepackSpec.element v +:+ post)
      = Some once
      /\ once = pre +:+ RepackSpec.element t1 +:+ post
      /\ FileUtils.re_sub FileUtils.TARGET_RE
           ("<TargetFramework>" +:+ t2 +:+ "</TargetFramework>") once
         = FileUtils.re_sub FileUtils.TARGET_RE
             ("<TargetFramework>" +:+ t2 +:+ "</TargetFramework>")
             (pre +:+ RepackSpec.element v +:+ post)
      /\ FileUtils.re_sub FileUtils.TARGET_RE
           ("<TargetFramework>" +:+ t1 +:+ "</TargetFramework>") once
         = Some once.
Proof.
  intros pre v post t1 t2 Hpre Hpost Hline Hv Hline1 Ht1 Hb1 Hb2.
  change ("<TargetFramework>" +:+ t1 +:+ "</TargetFramework>")
    with (RepackSpec.OPEN_TAG +:+ t1 +:+ RepackSpec.CLOSE_TAG).
  change ("<TargetFramework>" +:+ t2 +:+ "</TargetFramework>")
    with (RepackSpec.OPEN_TAG +:+ t2 +:+ RepackSpec.CLOSE_TAG).
  exists (pre +:+ RepackSpec.element t1 +:+ post).
  rewrite !(RepackFacts.re_sub_plain t1 Hb1), !(RepackFacts.re_sub_plain t2 Hb2).
  rewrite !(RetargetFacts.retarget_one pre v post) by assumption.
  rewrite !(RetargetFacts.retarget_one pre t1 post) by assumption.
  repeat split; reflexivity.
Qed.

Lemma retargeting_twice_is_retargeting_once_witness :
  exists once,
    FileUtils.re_sub FileUtils.TARGET_RE
      ("<TargetFramework>" +:+ "net8.0" +:+ "</TargetFramework>")
      ("<Project><PropertyGroup>" +:+ RepackSpec.element "net6.0"
       +:+ Samples.descriptor_tail)
    = Some once
    /\ once
       = "<Project><PropertyGroup>" +:+ RepackSpec.element "net8.0"
         +:+ Samples.descriptor_tail
    /\ FileUtils.re_sub FileUtils.TARGET_RE
         ("<TargetFramework>" +:+ "net9.0-preview" +:+ "</TargetFramework>")
         once
       = FileUtils.re_sub FileUtils.TARGET_RE
           ("<TargetFramework>" +:+ "net9.0-preview" +:+ "</TargetFramework>")
           ("<Project><PropertyGroup>" +:+ RepackSpec.element "net6.0"
            +:+ Samples.descriptor_tail)
    /\ FileUtils.re_sub FileUtils.TARGET_RE
         ("<TargetFramework>" +:+ "net8.0" +:+ "</TargetFramework>") once
       = Some once.
Proof.
  apply (retargeting_twice_is_retargeting_once "<Project><PropertyGroup>"
           "net6.0" Samples.descriptor_tail "net8.0" "net9.0-preview");
    reflexivity.
Defined.

(** ** The page: analysis, then download *)

(** X26. What the download holds. When the analysis action of the page
    completed and the download action completes on its result (the
    executor being one whose completed runs are sequential runs), the
    replacement mapping handed to the repackager is the parse of the
    rewrite preview of the result, never the empty default. The archive has
    one member per file of the tree, named by its relative path: the content
    of the last block of the preview filed under that path when there is
    one, otherwise the retargeted descriptor or the file as it is. Blocks of
    the preview under other paths are ignored. *)
Theorem download_holds_the_last_block_per_file :
  forall W (env : Py.Env W)
         (graph_obj : LanggraphApp.UpgradeState
                      -> Py.M W LanggraphApp.UpgradeState)
         project_root target_version private_feed
         (result : LanggraphApp.UpgradeState) zpath z
         (st st1 st2 : Py.store W),
    (forall s st0 r st0',
        graph_obj s st0 = (Py.Ok r, st0') ->
        LanggraphApp.run_sequential env s st0 = (Py.Ok r, st0')) ->
    PyStr.has_char FileUtils.backslash target_version = false ->
    App.start_analysis env graph_obj project_root target_version private_feed st
    = (Py.Ok result, st1) ->
    App.download env project_root target_version result st1
    = (Py.Ok (zpath, z), st2) ->
    exists preview,
      LanggraphApp.upgrade_preview result = Some preview
      /\ LanggraphApp.csproj_updates result
         = Some (LanggraphApp.parse_updates preview)
      /\ (forall rel,
            LanggraphApp.parse_updates preview !! rel
            = BlockSpec.last_block rel (Blocks.blocks preview))
      /\ Forall2
           (RepackSpec.written env project_root
              (LanggraphApp.parse_updates preview) target_version)
           (RepackSpec.files_of (Py.os_walk env project_root)) z
      /\ st2 = st1.
Proof.
  intros W env graph_obj project_root target_version private_feed result
    zpath z st st1 st2 Hexec Htarget Hrun Hzip.
  assert (Hseq : exists st0,
             LanggraphApp.run_sequential env
               (App.initial_state project_root target_version private_feed) st0
             = (Py.Ok result, st1)).
  { unfold App.start_analysis, LanggraphApp.run_graph_invoke, Py.try_except
      in Hrun.
    destruct (graph_obj _ st) as [[r|e1] st0] eqn:E.
    - inversion Hrun; subst r st0. exists st. apply Hexec. exact E.
    - exists st0. exact Hrun. }
  destruct Hseq as (st0 & Hseq).
  apply RunShape.run_sequential_shape in Hseq
    as (root & feeds & tokens & pkgs & content & preview & st3 & st4 & st5
        & _ & _ & _ & _ & _ & _ & Hfinal).
  exists preview. subst result.
  cbn [LanggraphApp.upgrade_preview LanggraphApp.csproj_updates
       LanggraphApp.set_csproj_updates LanggraphApp.set_upgrade_preview].
  split; [reflexivity|]. split; [reflexivity|].
  split; [intros rel; apply BlockFacts.parse_updates_lookup|].
  unfold App.download in Hzip.
  cbn [LanggraphApp.csproj_updates LanggraphApp.set_csproj_updates
       default from_option id] in Hzip.
  apply RepackFacts.create_upgraded_zip_ok in Hzip as (_ & -> & Hloop).
  destruct (RepackFacts.outer_loop_written env project_root
              (LanggraphApp.parse_updates preview) target_version Htarget
              _ _ _ _ _ _ Hloop) as (es & -> & Hes & ->).
  split; [exact Hes | reflexivity].
Qed.

Lemma download_holds_the_last_block_per_file_witness :
  exists preview,
    LanggraphApp.upgrade_preview Samples.healthy_final = Some preview
    /\ LanggraphApp.csproj_updates Samples.healthy_final
       = Some (LanggraphApp.parse_updates preview)
    /\ (forall rel,
          LanggraphApp.parse_updates preview !! rel
          = BlockSpec.last_block rel (Blocks.blocks preview))
    /\ Forall2
         (RepackSpec.written Samples.healthy_env "/p"
            (LanggraphApp.parse_updates preview) "net8.0")
         (RepackSpec.files_of (Py.os_walk Samples.healthy_env "/p"))
         [("A.csproj", Samples.descriptor_for "net8.0");
          ("NuGet.Config", Samples.feed_config)]
    /\ Samples.healthy_run.2 = Samples.healthy_run.2.
Proof.
  apply (download_holds_the_last_block_per_file nat Samples.healthy_env
           Orchestrator.no_executor "/p" "net8.0" "" Samples.healthy_final
           "/tmp/AI_Upgraded_net8.0.zip"
           [("A.csproj", Samples.descriptor_for "net8.0");
            ("NuGet.Config", Samples.feed_config)]
           Samples.start Samples.healthy_run.2 Samples.healthy_run.2).
  - intros s st0 r st0' H. discriminate H.
  - reflexivity.
  - vm_compute. reflexivity.
  - vm_compute. reflexivity.
Defined.

Module RewriteFacts.
Import PyStr Py LanggraphApp PyFacts NodeFacts.
Local Open Scope py_scope.

(** The rewrite step, stage by stage. *)
Lemma upgrade_ai_node_stages {W} (env : Env W) state (st : store W) :
  upgrade_ai_node env state st
  = match uploaded_file_path state with
    | None => (Raise (KeyError "uploaded_file_path"), st)
    | Some root =>
        match csprojs_text env state root st with
        | (Raise e, st1) => (Raise e, st1)
        | (Ok text, st1) =>
            match chat env (upgrade_prompt state +:+ (nl +:+ nl) +:+ text)
                    3500 st1 with
            | (Raise e, st2) => (Raise e, st2)
            | (Ok (Some preview), st2) =>
                (Ok (set_csproj_updates (parse_updates preview)
                       (set_upgrade_preview preview state)), st2)
            | (Ok None, st2) => (Raise TypeError, st2)
            end
        end
    end.
Proof.
  unfold upgrade_ai_node, get_root.
  destruct (uploaded_file_path state) as [root|]; [|reflexivity].
  cbn [ok_or]. rewrite bind_ret_l. unfold bind at 1.
  destruct (csprojs_text env state root st) as [[text|e] st1]; [|reflexivity].
  unfold bind at 1.
  destruct (chat env _ 3500 st1) as [[[preview|]|e] st2]; reflexivity.
Qed.

End RewriteFacts.

(** X27. The rewrite step reads three keys only. Its request and its
    outcome depend on the project root, the descriptor paths and the target
    version of the state: two states that agree on these three send the
    same request, fail alike, and on success hold the same preview and the
    same replacement mapping. Neither the analysis report nor the package
    report nor the feeds are part of the rewrite request. *)
Theorem rewrite_step_reads_three_keys :
  forall W (env : Py.Env W) (s1 s2 : LanggraphApp.UpgradeState)
         (st : Py.store W),
    LanggraphApp.uploaded_file_path s1 = LanggraphApp.uploaded_file_path s2 ->
    LanggraphApp.csproj_paths s1 = LanggraphApp.csproj_paths s2 ->
    LanggraphApp.target_version s1 = LanggraphApp.target_version s2 ->
    match LanggraphApp.upgrade_ai_node env s1 st,
          LanggraphApp.upgrade_ai_node env s2 st with
    | (Py.Ok r1, st1), (Py.Ok r2, st2) =>
        st1 = st2
        /\ LanggraphApp.upgrade_preview r1 = LanggraphApp.upgrade_preview r2
        /\ LanggraphApp.csproj_updates r1 = LanggraphApp.csproj_updates r2
    | (Py.Raise e1, st1), (Py.Raise e2, st2) => e1 = e2 /\ st1 = st2
    | _, _ => False
    end.
Proof.
  intros W env s1 s2 st Hroot Hpaths Htarget.
  rewrite !RewriteFacts.upgrade_ai_node_stages.
  assert (Htext : forall root,
             LanggraphApp.csprojs_text env s1 root st
             = LanggraphApp.csprojs_text env s2 root st).
  { intros root. unfold LanggraphApp.csprojs_text. rewrite Hpaths.
    reflexivity. }
  assert (Hprompt : LanggraphApp.upgrade_prompt s1
                    = LanggraphApp.upgrade_prompt s2).
  { unfold LanggraphApp.upgrade_prompt, LanggraphApp.fmt_target.
    rewrite Htarget. reflexivity. }
  rewrite Hroot, Hprompt.
  destruct (LanggraphApp.uploaded_file_path s2) as [root|];
    [|split; reflexivity].
  rewrite Htext.
  destruct (LanggraphApp.csprojs_text env s2 root st) as [[text|e] st1];
    [|split; reflexivity].
  destruct (LanggraphApp.chat env _ 3500 st1) as [[[preview|]|e] st2];
    [|split; reflexivity..].
  repeat split.
Qed.

Lemma rewrite_step_reads_three_keys_witness :
  match LanggraphApp.upgrade_ai_node Samples.healthy_env
          (LanggraphApp.set_analysis_report (Some "first analysis")
             (Samples.initial "/p" "net8.0")) Samples.start,
        LanggraphApp.upgrade_ai_node Samples.healthy_env
          (LanggraphApp.set_analysis_report (Some "another analysis")
             (LanggraphApp.set_private_feeds ["https://corp.example/nuget"]
                (Samples.initial "/p" "net8.0"))) Samples.start with
  | (Py.Ok r1, st1), (Py.Ok r2, st2) =>
      st1 = st2
      /\ LanggraphApp.upgrade_preview r1 = LanggraphApp.upgrade_preview r2
      /\ LanggraphApp.csproj_updates r1 = LanggraphApp.csproj_updates r2
  | (Py.Raise e1, st1), (Py.Raise e2, st2) => e1 = e2 /\ st1 = st2
  | _, _ => False
  end.
Proof.
  apply (rewrite_step_reads_three_keys nat Samples.healthy_env
           (LanggraphApp.set_analysis_report (Some "first analysis")
              (Samples.initial "/p" "net8.0"))
           (LanggraphApp.set_analysis_report (Some "another analysis")
              (LanggraphApp.set_private_feeds ["https://corp.example/nuget"]
                 (Samples.initial "/p" "net8.0")))
           Samples.start); reflexivity.
Defined.

(** ** The shape of a package reference *)

Module ReferenceFacts.
Import PyStr Re Py NugetHelper LanggraphApp StrSpec ScanSpec StrFacts ReFacts
  PyFacts DictFacts ScanFacts ReTheory RetargetFacts.

(** One or more characters of a class. *)
Lemma plus_class_sound p s c k o :
  rmatch (Plus (Class p)) s c k = Some o ->
  exists v s1,
    s = v +:+ s1 /\ v <> "" /\ all_chars p v = true /\ k s1 c = Some o.
Proof.
  unfold Plus. rewrite rmatch_seq. cbn [rmatch].
  destruct s as [|a s]; [discriminate|].
  destruct (p a) eqn:Hp; [|discriminate].
  fold (rmatch (Class p)). intros H.
  change (star_loop true (rmatch (Class p)) (String.length s) s c k = Some o)
    in H.
  apply star_class_sound in H as (v & s1 & -> & Hv & Hk).
  exists (String a v), s1. split; [reflexivity|]. split; [discriminate|].
  split; [|exact Hk]. cbn [all_chars]. rewrite Hp, Hv. reflexivity.
Qed.

(** A name or a version of a reference: not empty, no double quote. *)
Local Abbreviation plain v :=
  (v%string <> "" /\ all_chars cls_not_dq v = true).

Lemma pkg_match_here b s m :
  match_here PKG_RE b s = Some m -> plain (grp 1 m) /\ plain (grp 2 m).
Proof.
  unfold match_here, PKG_RE.
  destruct (rmatch _ s [] _) as [[c s']|] eqn:E; [|discriminate].
  intros H. inversion H; subst m. clear H.
  rewrite rmatch_seq in E. apply lit_sound in E as (s1 & -> & E).
  rewrite rmatch_seq in E.
  apply plus_class_sound in E as (w1 & s2 & -> & _ & _ & E).
  rewrite rmatch_seq in E. apply lit_sound in E as (s3 & -> & E).
  rewrite rmatch_seq, rmatch_group in E.
  apply plus_class_sound in E as (name & s4 & -> & Hn1 & Hn2 & E).
  rewrite consumed_app in E.
  rewrite rmatch_seq in E. apply lit_sound in E as (s5 & -> & E).
  rewrite rmatch_seq in E.
  apply plus_class_sound in E as (w2 & s6 & -> & _ & _ & E).
  rewrite rmatch_seq in E. apply lit_sound in E as (s7 & -> & E).
  rewrite rmatch_seq, rmatch_group in E.
  apply plus_class_sound in E as (ver & s8 & -> & Hv1 & Hv2 & E).
  rewrite consumed_app in E.
  apply lit_sound in E as (s9 & -> & E).
  destruct (b && _); [discriminate|]. inversion E; subst c s'.
  unfold grp. cbn [m_groups group Nat.eqb]. repeat split; assumption.
Qed.

Lemma pkg_search s : forall b m,
  search_from PKG_RE b s = Some m -> plain (grp 1 m) /\ plain (grp 2 m).
Proof.
  induction s as [|a s IH]; intros b m H; cbn [search_from] in H.
  - destruct (match_here PKG_RE b "") as [m1|] eqn:E; [|discriminate].
    inversion H; subst m1. exact (pkg_match_here _ _ _ E).
  - destruct (match_here PKG_RE b (String a s)) as [m1|] eqn:E.
    + inversion H; subst m1. exact (pkg_match_here _ _ _ E).
    + destruct (search_from PKG_RE false s) as [m1|] eqn:E1; [|discriminate].
      cbn [option_map] in H. inversion H; subst m.
      exact (IH _ _ E1).
Qed.

Lemma pkg_scan : forall f b s,
  Forall (fun m => plain (grp 1 m) /\ plain (grp 2 m)) (scan PKG_RE f b s).
Proof.
  induction f as [|f IH]; intros b s; [constructor|].
  rewrite scan_step. destruct (search_from PKG_RE b s) as [m|] eqn:E;
    [|constructor].
  constructor; [exact (pkg_search _ _ _ E) | apply IH].
Qed.

Lemma findall_references text :
  Forall (fun r => plain r.1 /\ plain r.2) (findall2 PKG_RE text).
Proof.
  unfold findall2, finditer.
  induction (pkg_scan (scan_fuel text) false text) as [|m ms Hm _ IH].
  - constructor.
  - cbn [map]. constructor; [exact Hm | exact IH].
Qed.

Lemma references_plain {W} (env : Env W) paths :
  Forall (fun r => plain r.1 /\ plain r.2) (references env paths).
Proof.
  unfold references. induction paths as [|p paths IH]; [constructor|].
  cbn [flat_map]. apply Forall_app. split; [apply findall_references | exact IH].
Qed.

(** Recording a plain reference keeps a report of plain entries. *)
Lemma record_package_plain name ver lat pkgs :
  plain name -> plain ver ->
  Forall (fun e => plain e.1 /\ plain (current e.2)) pkgs ->
  Forall (fun e => plain e.1 /\ plain (current e.2))
    (record_package name ver lat pkgs).
Proof.
  intros Hn Hv. unfold record_package.
  induction pkgs as [|[k e] pkgs IH]; intros Hall.
  - cbn [dict_setdefault dict_update]. rewrite String.eqb_refl.
    constructor; [|constructor]. cbn [fst snd current]. split; assumption.
  - inversion Hall as [|x l Hk Hrest]; subst. cbn [dict_setdefault].
    destruct (String.eqb name k) eqn:E.
    + cbn [dict_update]. rewrite E. constructor; [|exact Hrest].
      cbn [fst snd current] in *. exact Hk.
    + cbn [dict_update]. rewrite E. constructor; [exact Hk|].
      apply IH. exact Hrest.
Qed.

Lemma scan_refs_plain {W} (env : Env W) state refs :
  forall pkgs (st : store W) pkgs' st',
    Forall (fun r => plain r.1 /\ plain r.2) refs ->
    Forall (fun e => plain e.1 /\ plain (current e.2)) pkgs ->
    scan_refs env state refs pkgs st = (Ok pkgs', st') ->
    Forall (fun e => plain e.1 /\ plain (current e.2)) pkgs'.
Proof.
  induction refs as [|[name ver] refs IH]; intros pkgs st pkgs' st' Hrefs Hp H.
  - apply ret_ok_inv in H as [-> _]. exact Hp.
  - inversion Hrefs as [|x l [Hn Hv] Hrest]; subst.
    apply scan_refs_cons_inv in H as (lat & st1 & _ & H).
    apply (IH _ _ _ _ Hrest) in H; [exact H|].
    apply record_package_plain; assumption.
Qed.

End ReferenceFacts.

(** X28. The entries of the report are well formed. When the scan
    completes, every key of the report is a non-empty name without a double
    quote, and the current version filed under it is non-empty and without
    a double quote as well: a reference with an empty name or an empty
    version is not a reference for the scan. *)
Theorem report_entries_are_plain :
  forall W (env : Py.Env W) (state state' : LanggraphApp.UpgradeState)
         (st st' : Py.store W),
    LanggraphApp.scan_packages_node env state st = (Py.Ok state', st') ->
    Forall
      (fun entry =>
         (entry.1 <> "" /\ StrSpec.all_chars Re.cls_not_dq entry.1 = true)
         /\ (Py.current entry.2 <> ""
             /\ StrSpec.all_chars Re.cls_not_dq (Py.current entry.2) = true))
      (default [] (LanggraphApp.package_report state')).
Proof.
  intros W env state state' st st' H.
  apply ScanFacts.scan_packages_node_inv in H
    as (root & pkgs & _ & -> & Hscan).
  cbn [LanggraphApp.package_report LanggraphApp.set_package_report
       default from_option id].
  apply (ReferenceFacts.scan_refs_plain env state _ _ _ _ _
           (ReferenceFacts.references_plain env _) (List.Forall_nil _) Hscan).
Qed.

Lemma report_entries_are_plain_witness :
  Forall
    (fun entry =>
       (entry.1 <> "" /\ StrSpec.all_chars Re.cls_not_dq entry.1 = true)
       /\ (Py.current entry.2 <> ""
           /\ StrSpec.all_chars Re.cls_not_dq (Py.current entry.2) = true))
    (default []
       (LanggraphApp.package_report
          (LanggraphApp.set_package_report
             [("Dup", Py.PkgInfo "1.0" (Some "2.0.0"));
              ("Other", Py.PkgInfo "5.0" (Some "1.0.0"))]
             (Samples.initial "/p" "net8.0")))).
Proof.
  eapply (report_entries_are_plain nat Samples.drifting_env
            (Samples.initial "/p" "net8.0") _ Samples.start).
  vm_compute. reflexivity.
Defined.
